(** * InsightML Studio: workflow state machine, selection, CSV intake

    A shallow embedding of the parts of the application that carry state
    and data contracts:

    - [src/lib/utils.ts]               [parseCSV], [determineTaskType]
    - [src/components/ModelSelection.tsx] the model catalogue
    - [src/components/DataTable.tsx]   [handleFeatureClick], [handleTargetClick]
    - [src/pages/Index.tsx]            the workflow handlers of [Index]
    - [src/components/PredictData.tsx] test-data intake and [handlePredict]
    - [src/components/MultiModelSelection.tsx] the model check list
    - [src/components/FileUpload.tsx]  [processFile] and the reader events
    - [src/components/ModelTraining.tsx] the training timer and its report
    - [src/components/DataTable.tsx]   the pages of the table
    - the stepper and what the page of [Index] renders in each state

    React state is a record; a handler is a function from the state to the
    state after its [setState] calls. *)

From Stdlib Require Import QArith Qround Ascii String.
From stdpp Require Import gmap strings list fin_maps.

Local Open Scope string_scope.

(** ** The JavaScript number runtime

    Cells, parameters and predictions are JavaScript numbers.  The code
    only converts strings to numbers, tests for [NaN], compares numbers
    for identity and does a little arithmetic on them, so numbers are
    kept behind an interface: every theorem below holds for any number
    implementation with the four listed properties, IEEE doubles
    included.  [num] is the type of numbers up to [SameValueZero] (the
    identity that [Set] uses), so Leibniz equality on [num] is that
    identity. *)

Class JsNumber := {
  num : Type;
  num_eq_dec :: EqDecision num;
  (** an array index or a length as a number *)
  num_of_nat : nat → num;
  NaN : num;
  isNaN : num → bool;
  (** [Number(s)] on a string, also the value of a numeric literal [s] *)
  Number : string → num;
  num_add : num → num → num;
  num_sub : num → num → num;
  num_mul : num → num → num;
  num_div : num → num → num;
  Math_max : num → num → num;
  (** [Math.floor(x)] used as an array index *)
  Math_floor : num → nat;
  (** the possible results of [Math.random()]: the doubles in [0, 1) *)
  is_random : num → Prop;
  (** [Number("")] is 0 *)
  Number_empty : Number "" = num_of_nat 0;
  isNaN_NaN : isNaN NaN = true;
  isNaN_of_nat n : isNaN (num_of_nat n) = false;
  (** [Math.floor(Math.random() * n)] is an index below [n], for [n] a
      positive array length *)
  random_floor r n :
    is_random r → 0 < n → (Z.of_nat n < 2 ^ 32)%Z →
    Math_floor (num_mul r (num_of_nat n)) < n;
}.

#[global] Instance Qlt_decision (x y : Q) : Decision (x < y)%Q :=
  match Qlt_le_dec x y with
  | left lt => left lt
  | right le => right (Qle_not_lt _ _ le)
  end.

(** ** Strings: [trim] and [split]

    Strings are sequences of code units below 256.  [trim] strips the
    white space and line terminators of that range (TAB, LF, VT, FF, CR,
    SP and the no-break space U+00A0); the others that ECMAScript lists
    (U+FEFF, U+2028, U+2029 and the spaces from U+1680 on) lie beyond
    it. *)

Module Str.

Definition is_white_space (c : ascii) : bool :=
  let n := nat_of_ascii c in
  (Nat.eqb n 9 || Nat.eqb n 10 || Nat.eqb n 11 || Nat.eqb n 12
   || Nat.eqb n 13 || Nat.eqb n 32 || Nat.eqb n 160)%bool.

Fixpoint trimStart (s : string) : string :=
  match s with
  | String c s' => if is_white_space c then trimStart s' else s
  | EmptyString => EmptyString
  end.

Fixpoint trimEnd (s : string) : string :=
  match s with
  | String c s' =>
      match trimEnd s' with
      | EmptyString =>
          if is_white_space c then EmptyString else String c EmptyString
      | t => String c t
      end
  | EmptyString => EmptyString
  end.

Definition trim (s : string) : string := trimEnd (trimStart s).

(** [s.split(sep)] for a one-character separator: never the empty array. *)
Fixpoint split (sep : ascii) (s : string) : list string :=
  match s with
  | EmptyString => [EmptyString]
  | String c s' =>
      if Ascii.eqb c sep then EmptyString :: split sep s'
      else match split sep s' with
           | w :: ws => String c w :: ws
           | [] => [String c EmptyString]
           end
  end.

(** A string is truthy unless it is empty. *)
Definition truthy (s : string) : bool := negb (String.eqb s "").

(** [array.includes(x)] on an array of strings *)
Definition includes (x : string) (l : list string) : bool :=
  existsb (String.eqb x) l.

End Str.

(** [array.forEach((x, i) => ...)] threading the object the callback
    mutates. *)
Fixpoint forEach_from {A St : Type} (f : A → nat → St → St) (i : nat)
    (l : list A) (s : St) : St :=
  match l with
  | [] => s
  | x :: l' => forEach_from f (S i) l' (f x i s)
  end.

Definition forEach {A St : Type} (f : A → nat → St → St) (l : list A)
    (s : St) : St :=
  forEach_from f 0 l s.

(** ** src/lib/utils.ts *)

Module Utils.
Section Utils.
Context `{JsNumber}.

(** A row is a plain object, made by an object literal, used as a map
    from own property names to values of type [number | string]; a
    property can also hold [undefined].  The object inherits from
    [Object.prototype]: reading a name that the row does not own gives
    the member of the prototype of that name when it has one, and
    [undefined] otherwise; and an assignment to the name [__proto__]
    goes to the accessor of the prototype. *)

Inductive jsval :=
  | VNum (x : num)
  | VStr (s : string)
  | VUndef
  | VInherited (name : string).

(** [VInherited name] is the member of [Object.prototype] called
    [name]: a function, or the prototype itself for [__proto__].  These
    are the names of its members. *)
Definition Object_prototype : list string :=
  [ "constructor"; "__defineGetter__"; "__defineSetter__";
    "hasOwnProperty"; "__lookupGetter__"; "__lookupSetter__";
    "isPrototypeOf"; "propertyIsEnumerable"; "toString"; "valueOf";
    "__proto__"; "toLocaleString" ].

#[global] Instance jsval_eq_dec : EqDecision jsval.
Proof. solve_decision. Defined.

Definition typeof_number (v : jsval) : bool :=
  match v with VNum _ => true | _ => false end.

(** [row[key]] *)
Definition get (row : gmap string jsval) (key : string) : jsval :=
  match row !! key with
  | Some v => v
  | None =>
      if Str.includes key Object_prototype then VInherited key else VUndef
  end.

(** [obj[key] = v] on an object without an own property [__proto__],
    for a value [v] that is a number, a string or [undefined].  The
    assignment makes or overwrites an own property, also under a name
    that the object inherits, except under [__proto__]: that name is an
    accessor of [Object.prototype], and its setter ignores every value
    that is neither an object nor [null]. *)
Definition set_property (key : string) (v : jsval)
    (obj : gmap string jsval) : gmap string jsval :=
  if String.eqb key "__proto__" then obj else <[ key := v ]> obj.

(** [isNaN(numValue) ? value : numValue] with [numValue = Number(value)] *)
Definition coerce (value : string) : jsval :=
  let numValue := Number value in
  if isNaN numValue then VStr value else VNum numValue.

(** The callback of [rows.slice(1).map((row, idx) => ...)]. *)
Definition parseCSV_row (headers : list string) (idx : nat) (row : string)
    : gmap string jsval :=
  let values := Str.trim <$> Str.split "," row in
  let rowData : gmap string jsval := {[ "id" := VNum (num_of_nat idx) ]} in
  forEach (λ header i rowData,
             match values !! i with
             | None => rowData
             | Some value => set_property header (coerce value) rowData
             end) headers rowData.

Definition parseCSV (csvString : string) : list (gmap string jsval) :=
  match Str.split "010" (Str.trim csvString) with
  | [] => []
  | header_row :: data_rows =>
      let headers := Str.trim <$> Str.split "," header_row in
      imap (parseCSV_row headers) data_rows
  end.

Inductive TaskType := classification | regression.

#[global] Instance TaskType_eq_dec : EqDecision TaskType.
Proof. solve_decision. Defined.

(** A [Set] of cell values: its elements in insertion order, without
    repetition; [size] is the length. *)
Definition Set_add (v : jsval) (s : list jsval) : list jsval :=
  if decide (v ∈ s) then s else (s ++ [v])%list.

(** [a / b] for two counts.  Both are array lengths (below 2^32), so the
    double quotient compares with the literals [0.05] and [0.9] exactly as
    the rational quotient compares with 5/100 and 9/10: the nearest
    quotients differ from those bounds by at least 1/(20 b), far more than
    the rounding error. *)
Definition ratio (a b : nat) : Q :=
  (inject_Z (Z.of_nat a) / inject_Z (Z.of_nat b))%Q.

Definition Qltb (x y : Q) : bool := negb (Qle_bool y x).

(** The loop body of [data.forEach(row => ...)]: the set of target values
    and the counter of numeric ones. *)
Definition scan_row (targetName : string)
    (acc : list jsval * nat) (row : gmap string jsval) : list jsval * nat :=
  let value := get row targetName in
  (Set_add value acc.1,
   if typeof_number value then S acc.2 else acc.2).

(** [data : any[]]; the [!data] test of the source is false for every
    array and leaves the two tests below. *)
Definition determineTaskType (targetName : string)
    (data : list (gmap string jsval)) : option TaskType :=
  if (Nat.eqb (length data) 0 || negb (Str.truthy targetName))%bool then None
  else
    let '(uniqueValues, numericCount) :=
      fold_left (scan_row targetName) data ([], 0) in
    if (Nat.leb (length uniqueValues) 10
        || Qltb (ratio (length uniqueValues) (length data)) (5 # 100))%bool
    then Some classification
    else if Qltb (9 # 10) (ratio numericCount (length data))
    then Some regression
    else Some classification.

End Utils.
End Utils.

(** ** src/components/ModelSelection.tsx: the model catalogue *)

Module ModelSelection.

Inductive ModelType :=
  | linear_regression
  | decision_tree
  | random_forest
  | xgboost
  | logistic_regression.

#[global] Instance ModelType_eq_dec : EqDecision ModelType.
Proof. solve_decision. Defined.

Definition ModelType_to_nat (m : ModelType) : nat :=
  match m with
  | linear_regression => 0
  | decision_tree => 1
  | random_forest => 2
  | xgboost => 3
  | logistic_regression => 4
  end.

Definition ModelType_of_nat (n : nat) : ModelType :=
  match n with
  | 0 => linear_regression
  | 1 => decision_tree
  | 2 => random_forest
  | 3 => xgboost
  | _ => logistic_regression
  end.

#[global] Program Instance ModelType_countable : Countable ModelType :=
  inj_countable' ModelType_to_nat ModelType_of_nat _.
Next Obligation. by intros []. Qed.

(** [defaultModelParams]: parameter name to number. *)
Definition defaultModelParams `{JsNumber} (model : ModelType)
    : gmap string num :=
  match model with
  | linear_regression => ∅
  | logistic_regression => ∅
  | decision_tree =>
      {[ "max_depth" := num_of_nat 5; "min_samples_split" := num_of_nat 2 ]}
  | random_forest =>
      {[ "n_estimators" := num_of_nat 100; "max_depth" := num_of_nat 5;
         "min_samples_split" := num_of_nat 2 ]}
  | xgboost =>
      {[ "n_estimators" := num_of_nat 100; "learning_rate" := Number "0.1";
         "max_depth" := num_of_nat 5 ]}
  end.

End ModelSelection.

(** ** src/components/DataTable.tsx: the column selector

    The table is a child component: it reads the selection from its props
    and reports changes through the optional callbacks [onSelectFeatures]
    and [onSelectTarget], which act on the state [St] of its parent. *)

Module DataTable.
Section DataTable.
Context {St : Type}.

Record DataTableProps := {
  onSelectFeatures : option (list string → St → St);
  onSelectTarget : option (string → St → St);
  selectedFeatures : list string;
  selectedTarget : string;
}.

Definition handleFeatureClick (props : DataTableProps) (column : string)
    : St → St :=
  match onSelectFeatures props with
  | Some onSelectFeatures =>
      let newFeatures := selectedFeatures props in
      if String.eqb column (selectedTarget props) then
        (* Can't select target as feature *)
        id
      else
        let newFeatures :=
          if Str.includes column newFeatures
          then filter (λ f, f ≠ column) newFeatures
          else (newFeatures ++ [column])%list in
        onSelectFeatures newFeatures
  | None => id
  end.

Definition handleTargetClick (props : DataTableProps) (column : string)
    : St → St :=
  match onSelectTarget props with
  | Some onSelectTarget =>
      if String.eqb column (selectedTarget props) then
        (* Deselect current target *)
        onSelectTarget ""
      else
        let removeFeature : St → St :=
          match onSelectFeatures props with
          | Some onSelectFeatures =>
              if Str.includes column (selectedFeatures props)
              then onSelectFeatures
                     (filter (λ f, f ≠ column) (selectedFeatures props))
              else id
          | None => id
          end in
        onSelectTarget column ∘ removeFeature
  | None => id
  end.

End DataTable.
Arguments DataTableProps : clear implicits.
End DataTable.

(** ** src/pages/Index.tsx: the workflow *)

Module Index.
Import Utils ModelSelection.
Section Index.
Context `{JsNumber}.

Inductive WorkflowStep := upload | select | train | evaluate | predict.

#[global] Instance WorkflowStep_eq_dec : EqDecision WorkflowStep.
Proof. solve_decision. Defined.

(** What [ModelTraining] passes to [onTrainingComplete]. *)
Record MetricData := {
  iteration : num;
  loss : num;
  accuracy : option num;
  r2 : option num;
}.

Record ModelInfo := {
  info_metrics : list MetricData;
  info_confusionMatrix : list (list num);
  info_featureImportance : list (string * num);
  info_trainTime : num;
}.

(** An entry of [trainedModel]: [{ type, params }], where [params] is
    [multiModelParams[modelType]] and may be [undefined]. *)
Record TrainedModel := {
  tm_type : ModelType;
  tm_params : option (gmap string num);
}.

(** The [useState] cells of [Index].  [data] and [trainedModel] start as
    [null]; [trainedModel] is then an object keyed by model kind.  The
    cells of the single-model flow ([selectedModel], [modelParams],
    [modelMetrics], [featureImportance], [predictions]) are written only
    by [handleModelSelect], [handleParamsChange] and
    [handleTrainingComplete], which no rendered component calls; no
    handler below writes them. *)
Record State := {
  currentStep : WorkflowStep;
  data : option (list (gmap string jsval));
  selectedFeatures : list string;
  selectedTarget : string;
  taskType : option TaskType;
  selectedModel : option ModelType;
  modelParams : gmap string num;
  trainedModel : option (gmap ModelType TrainedModel);
  modelMetrics : option (gmap string num);
  featureImportance : list (string * num);
  predictions : list (num * num);
  selectedModels : list ModelType;
  modelResults : gmap ModelType ModelInfo;
  multiModelParams : gmap ModelType (gmap string num);
}.

(** The setters: each replaces one cell. *)
Definition setCurrentStep (v : WorkflowStep)
    (st : State) : State :=
  {| currentStep := v; data := data st;
     selectedFeatures := selectedFeatures st;
     selectedTarget := selectedTarget st; taskType := taskType st;
     selectedModel := selectedModel st; modelParams := modelParams st;
     trainedModel := trainedModel st; modelMetrics := modelMetrics st;
     featureImportance := featureImportance st;
     predictions := predictions st; selectedModels := selectedModels st;
     modelResults := modelResults st;
     multiModelParams := multiModelParams st |}.

Definition setData (v : option (list (gmap string jsval)))
    (st : State) : State :=
  {| currentStep := currentStep st; data := v;
     selectedFeatures := selectedFeatures st;
     selectedTarget := selectedTarget st; taskType := taskType st;
     selectedModel := selectedModel st; modelParams := modelParams st;
     trainedModel := trainedModel st; modelMetrics := modelMetrics st;
     featureImportance := featureImportance st;
     predictions := predictions st; selectedModels := selectedModels st;
     modelResults := modelResults st;
     multiModelParams := multiModelParams st |}.

Definition setSelectedFeatures (v : list string)
    (st : State) : State :=
  {| currentStep := currentStep st; data := data st; selectedFeatures := v;
     selectedTarget := selectedTarget st; taskType := taskType st;
     selectedModel := selectedModel st; modelParams := modelParams st;
     trainedModel := trainedModel st; modelMetrics := modelMetrics st;
     featureImportance := featureImportance st;
     predictions := predictions st; selectedModels := selectedModels st;
     modelResults := modelResults st;
     multiModelParams := multiModelParams st |}.

Definition setSelectedTarget (v : string)
    (st : State) : State :=
  {| currentStep := currentStep st; data := data st;
     selectedFeatures := selectedFeatures st; selectedTarget := v;
     taskType := taskType st; selectedModel := selectedModel st;
     modelParams := modelParams st; trainedModel := trainedModel st;
     modelMetrics := modelMetrics st;
     featureImportance := featureImportance st;
     predictions := predictions st; selectedModels := selectedModels st;
     modelResults := modelResults st;
     multiModelParams := multiModelParams st |}.

Definition setTaskType (v : option TaskType)
    (st : State) : State :=
  {| currentStep := currentStep st; data := data st;
     selectedFeatures := selectedFeatures st;
     selectedTarget := selectedTarget st; taskType := v;
     selectedModel := selectedModel st; modelParams := modelParams st;
     trainedModel := trainedModel st; modelMetrics := modelMetrics st;
     featureImportance := featureImportance st;
     predictions := predictions st; selectedModels := selectedModels st;
     modelResults := modelResults st;
     multiModelParams := multiModelParams st |}.

Definition setTrainedModel (v : option (gmap ModelType TrainedModel))
    (st : State) : State :=
  {| currentStep := currentStep st; data := data st;
     selectedFeatures := selectedFeatures st;
     selectedTarget := selectedTarget st; taskType := taskType st;
     selectedModel := selectedModel st; modelParams := modelParams st;
     trainedModel := v; modelMetrics := modelMetrics st;
     featureImportance := featureImportance st;
     predictions := predictions st; selectedModels := selectedModels st;
     modelResults := modelResults st;
     multiModelParams := multiModelParams st |}.

Definition setSelectedModels (v : list ModelType)
    (st : State) : State :=
  {| currentStep := currentStep st; data := data st;
     selectedFeatures := selectedFeatures st;
     selectedTarget := selectedTarget st; taskType := taskType st;
     selectedModel := selectedModel st; modelParams := modelParams st;
     trainedModel := trainedModel st; modelMetrics := modelMetrics st;
     featureImportance := featureImportance st;
     predictions := predictions st; selectedModels := v;
     modelResults := modelResults st;
     multiModelParams := multiModelParams st |}.

Definition setModelResults (v : gmap ModelType ModelInfo)
    (st : State) : State :=
  {| currentStep := currentStep st; data := data st;
     selectedFeatures := selectedFeatures st;
     selectedTarget := selectedTarget st; taskType := taskType st;
     selectedModel := selectedModel st; modelParams := modelParams st;
     trainedModel := trainedModel st; modelMetrics := modelMetrics st;
     featureImportance := featureImportance st;
     predictions := predictions st; selectedModels := selectedModels st;
     modelResults := v; multiModelParams := multiModelParams st |}.

Definition setMultiModelParams (v : gmap ModelType (gmap string num))
    (st : State) : State :=
  {| currentStep := currentStep st; data := data st;
     selectedFeatures := selectedFeatures st;
     selectedTarget := selectedTarget st; taskType := taskType st;
     selectedModel := selectedModel st; modelParams := modelParams st;
     trainedModel := trainedModel st; modelMetrics := modelMetrics st;
     featureImportance := featureImportance st;
     predictions := predictions st; selectedModels := selectedModels st;
     modelResults := modelResults st; multiModelParams := v |}.

Definition initial : State :=
  {| currentStep := upload; data := None; selectedFeatures := [];
     selectedTarget := ""; taskType := None; selectedModel := None;
     modelParams := ∅; trainedModel := None; modelMetrics := None;
     featureImportance := []; predictions := []; selectedModels := [];
     modelResults := ∅; multiModelParams := ∅ |}.

(** The guard of [navigateToStep]: an array, even empty, and an object
    are truthy; [null] and the empty string are not. *)
Definition canEnter (step : WorkflowStep) (st : State) : bool :=
  match step with
  | upload => true
  | select => bool_decide (is_Some (data st))
  | train =>
      Nat.ltb 0 (length (selectedFeatures st))
      && Str.truthy (selectedTarget st)
  | evaluate => bool_decide (is_Some (trainedModel st))
  | predict => bool_decide (is_Some (trainedModel st))
  end.

Definition navigateToStep (step : WorkflowStep) (st : State) : State :=
  if canEnter step st then setCurrentStep step st else st.

(** What a [FileReader] delivers: text for a [.csv] file, an
    [ArrayBuffer] for a spreadsheet. *)
Inductive FileContent :=
  | Text (content : string)
  | ArrayBuffer (bytes : list ascii).

Definition handleFileUploaded (content : FileContent) (st : State) : State :=
  match content with
  | Text content =>
      let parsedData := parseCSV content in
      let st := setData (Some parsedData) st in
      (* Reset feature/target selection *)
      let st := setSelectedFeatures [] st in
      let st := setSelectedTarget "" st in
      setTaskType None st
  | ArrayBuffer _ => st
  end.

(** The button "Upload a different file" of the upload step:
    [setData(null)]. *)
Definition uploadDifferentFile (st : State) : State := setData None st.

Definition handleFeaturesSelected (features : list string) (st : State)
    : State :=
  setSelectedFeatures features st.

Definition handleTargetSelected (target : string) (st : State) : State :=
  let st' := setSelectedTarget target st in
  match data st with
  | Some data =>
      if Str.truthy target
      then setTaskType (determineTaskType target data) st'
      else st'
  | None => st'
  end.

(** [initialParams[model] = defaultModelParams[model] || {}] for each
    selected model; every kind has an entry in the table. *)
Definition handleModelsSelect (models : list ModelType) (st : State)
    : State :=
  let st := setSelectedModels models st in
  let initialParams :=
    fold_left (λ initialParams model,
                 <[ model := defaultModelParams model ]> initialParams)
              models (∅ : gmap ModelType (gmap string num)) in
  setMultiModelParams initialParams st.

(** [handleTrainingCompleteMulti] is a callback that closes over the
    state [render] of the render it was created in: it reads
    [modelResults], [selectedModels.length] and [multiModelParams] from
    there, while its two functional updates ([prev => ...]) act on the
    state [st] at the time of the call. *)
Definition handleTrainingCompleteMulti (render : State)
    (modelInfo : ModelInfo) (modelType : ModelType) (st : State) : State :=
  let st := setModelResults (<[ modelType := modelInfo ]> (modelResults st)) st in
  (* Update trained model state *)
  let st :=
    setTrainedModel
      (Some (<[ modelType := {| tm_type := modelType;
                                tm_params := multiModelParams render !! modelType |} ]>
               (default ∅ (trainedModel st)))) st in
  (* Check if all models have completed training *)
  let completedModels := size (modelResults render) + 1 in
  if Nat.eqb completedModels (length (selectedModels render))
  then setCurrentStep evaluate st
  else st.

(** The callback is re-created on every render, so an event handled
    between two renders sees the current state. *)
Definition completeTraining (modelType : ModelType) (modelInfo : ModelInfo)
    (st : State) : State :=
  handleTrainingCompleteMulti st modelInfo modelType st.

(** The props [Index] gives the selectable table of the select step. *)
Definition select_props (st : State) : DataTable.DataTableProps State :=
  {| DataTable.onSelectFeatures := Some handleFeaturesSelected;
     DataTable.onSelectTarget := Some handleTargetSelected;
     DataTable.selectedFeatures := selectedFeatures st;
     DataTable.selectedTarget := selectedTarget st |}.

(** A click on the feature box, or on the target button, of a column. *)
Definition toggleFeature (column : string) (st : State) : State :=
  DataTable.handleFeatureClick (select_props st) column st.

Definition setTarget (column : string) (st : State) : State :=
  DataTable.handleTargetClick (select_props st) column st.

End Index.
End Index.

(** ** src/components/PredictData.tsx: test data and predictions *)

Module PredictData.
Import Utils ModelSelection.
Section PredictData.
Context `{JsNumber}.

Record PredictDataProps := {
  modelType : ModelType;
  taskType : TaskType;
  featureNames : list string;
}.

Record State := {
  testData : option (list (gmap string jsval));
  predictedResults : option (list (gmap string jsval));
  isPredicting : bool;
}.

(** The callback of [lines.slice(1).map((line, idx) => ...)].  Here a
    missing value is not skipped: [values[i]] is [undefined],
    [Number(undefined)] is [NaN], and the property is set to
    [undefined]. *)
Definition parse_line (headers : list string) (idx : nat) (line : string)
    : gmap string jsval :=
  let values := Str.trim <$> Str.split "," line in
  let row : gmap string jsval := {[ "id" := VNum (num_of_nat idx) ]} in
  forEach (λ header i row,
             let value := values !! i in
             let numValue := from_option Number NaN value in
             set_property header
               (if isNaN numValue then from_option VStr VUndef value
                else VNum numValue) row) headers row.

Definition handleFileUploaded (content : Index.FileContent) (st : State)
    : State :=
  let data :=
    match content with
    | Index.Text content =>
        match Str.split "010" (Str.trim content) with
        | [] => []
        | header_line :: lines =>
            let headers := Str.trim <$> Str.split "," header_line in
            imap (parse_line headers) lines
        end
    | Index.ArrayBuffer _ =>
        (* For Excel files, would use a library like xlsx in a real app *)
        [ {[ "id" := VNum (num_of_nat 0);
             "error" := VStr "Excel parsing not implemented in this demo" ]} ]
    end in
  {| testData := Some data; predictedResults := None;
     isPredicting := isPredicting st |}.

Definition classLabels : list string := ["Class A"; "Class B"; "Class C"].

(** The callback of [testData.map(row => ...)]; [random] is the value
    [Math.random()] returns for this row.  The entries of the row are
    summed in the order the map enumerates them. *)
Definition predict_row (props : PredictDataProps) (random : num)
    (row : gmap string jsval) : gmap string jsval :=
  let predictionRow := row in
  match taskType props with
  | regression =>
      let baseValue :=
        map_fold (λ key value sum,
                    if Str.includes key (featureNames props)
                    then num_add sum (match value with
                                      | VNum x => x
                                      | _ => num_of_nat 0
                                      end)
                    else sum) (num_of_nat 0) row in
      <[ "prediction" :=
           VNum (Math_max (num_of_nat 0)
                   (num_add
                      (num_div baseValue
                         (num_of_nat (length (featureNames props))))
                      (num_mul (num_sub random (Number "0.5"))
                         (num_of_nat 5)))) ]> predictionRow
  | classification =>
      <[ "prediction" :=
           from_option VStr VUndef
             (classLabels
                !! Math_floor (num_mul random
                                 (num_of_nat (length classLabels)))) ]>
        predictionRow
  end.

(** [handlePredict], at the time its timer has fired: [random i] is the
    [i]-th value drawn from [Math.random()], one per row. *)
Definition handlePredict (props : PredictDataProps) (random : nat → num)
    (st : State) : State :=
  match testData st with
  | None => st
  | Some testData =>
      let results := imap (λ i row, predict_row props (random i) row) testData in
      {| testData := Some testData; predictedResults := Some results;
         isPredicting := false |}
  end.

End PredictData.
End PredictData.

(** ** A number system to run the program on

    Thousandths, as integers: [milli z] is the number [z / 1000].
    [Number] reads the empty string and plain decimal literals with at
    most three fractional digits, which is what the examples below use;
    every other text is [NaN] here. *)

Module Milli.

Inductive t := nan | milli (z : Z).

#[global] Instance t_eq_dec : EqDecision t.
Proof. solve_decision. Defined.

Definition of_nat (n : nat) : t := milli (1000 * Z.of_nat n).

Definition is_nan (x : t) : bool :=
  match x with nan => true | milli _ => false end.

(** The value of a string of decimal digits, most significant first. *)
Fixpoint digits (acc : Z) (s : string) : option Z :=
  match s with
  | EmptyString => Some acc
  | String c s' =>
      let n := nat_of_ascii c in
      if (Nat.leb 48 n && Nat.leb n 57)%bool
      then digits (10 * acc + Z.of_nat (n - 48)) s'
      else None
  end.

Definition unsigned (s : string) : option Z :=
  match Str.split "." s with
  | [i] =>
      if Str.truthy i then (λ i, 1000 * i)%Z <$> digits 0 i else None
  | [i; f] =>
      if (Str.truthy i && Str.truthy f && Nat.leb (String.length f) 3)%bool
      then whole ← digits 0 i;
           frac ← digits 0 f;
           Some (1000 * whole
                 + frac * 10 ^ Z.of_nat (3 - String.length f))%Z
      else None
  | _ => None
  end.

Definition of_string (s : string) : t :=
  match s with
  | EmptyString => milli 0
  | String "-" s' => from_option (λ z, milli (- z)) nan (unsigned s')
  | _ => from_option milli nan (unsigned s)
  end.

Definition lift2 (f : Z → Z → Z) (x y : t) : t :=
  match x, y with
  | milli a, milli b => milli (f a b)
  | _, _ => nan
  end.

Definition div (x y : t) : t :=
  match x, y with
  | milli a, milli b => if decide (b = 0%Z) then nan else milli (1000 * a / b)
  | _, _ => nan
  end.

Definition floor (x : t) : nat :=
  match x with
  | milli z => Z.to_nat (z / 1000)
  | nan => 0
  end.

Definition unit_interval (x : t) : Prop :=
  match x with
  | milli z => (0 ≤ z < 1000)%Z
  | nan => False
  end.

Lemma floor_mul_lt r n :
  unit_interval r → 0 < n → (Z.of_nat n < 2 ^ 32)%Z →
  floor (lift2 (λ a b, a * b / 1000)%Z r (of_nat n)) < n.
Proof.
  destruct r as [|z]; simpl; [done|]. intros [Hz0 Hz] Hn _.
  replace (z * (1000 * Z.of_nat n))%Z with (z * Z.of_nat n * 1000)%Z by lia.
  rewrite Z.div_mul by lia.
  apply Nat2Z.inj_lt. rewrite Z2Nat.id.
  - apply Z.div_lt_upper_bound; nia.
  - apply Z.div_pos; nia.
Qed.

Definition runtime : JsNumber :=
  {| num := t;
     num_of_nat := of_nat;
     NaN := nan;
     isNaN := is_nan;
     Number := of_string;
     num_add := lift2 Z.add;
     num_sub := lift2 Z.sub;
     num_mul := lift2 (λ a b, a * b / 1000)%Z;
     num_div := div;
     Math_max := lift2 Z.max;
     Math_floor := floor;
     is_random := unit_interval;
     Number_empty := eq_refl;
     isNaN_NaN := eq_refl;
     isNaN_of_nat := λ _, eq_refl;
     random_floor := floor_mul_lt |}.

End Milli.

(** * The other components

    The components around the workflow handlers: the model check list,
    the stepper, the file intake, the training run, the pages of the
    table, and the events the page of [Index] offers in each state. *)

(** ** src/components/MultiModelSelection.tsx *)

Module MultiModelSelection.
Import Utils ModelSelection.
Section MultiModelSelection.
Context {St : Type}.

Record MultiModelSelectionProps := {
  taskType : TaskType;
  selectedModels : list ModelType;
  onModelsSelect : list ModelType → St → St;
}.

(** The check boxes: kind and label. *)
Definition availableModels (taskType : TaskType)
    : list (ModelType * string) :=
  match taskType with
  | classification =>
      [ (logistic_regression, "Logistic Regression");
        (decision_tree, "Decision Tree");
        (random_forest, "Random Forest");
        (xgboost, "XGBoost") ]
  | regression =>
      [ (linear_regression, "Linear Regression");
        (decision_tree, "Decision Tree");
        (random_forest, "Random Forest");
        (xgboost, "XGBoost") ]
  end.

Definition handleModelToggle (props : MultiModelSelectionProps)
    (modelType : ModelType) : St → St :=
  if bool_decide (modelType ∈ selectedModels props)
  then onModelsSelect props
         (filter (λ m, m ≠ modelType) (selectedModels props))
  else onModelsSelect props (selectedModels props ++ [modelType])%list.

End MultiModelSelection.
Arguments MultiModelSelectionProps : clear implicits.
End MultiModelSelection.

(** ** The stepper ([Stepper], imported by [Index])

    [Id] is the type of step identifiers, [St] the state of the parent
    that [onStepClick] acts on.  The optional [description] of a step,
    which [Index] does not give, is left out. *)

Module Stepper.
Section Stepper.
Context {Id St : Type}.

Record Step := {
  id : Id;
  name : string;
  completed : bool;
  current : bool;
}.

(** [onClick={() => step.completed && onStepClick?.(step.id)}] *)
Definition handleClick (onStepClick : option (Id → St → St)) (step : Step)
    : St → St :=
  if completed step
  then match onStepClick with
       | Some onStepClick => onStepClick (id step)
       | None => λ st, st
       end
  else λ st, st.

(** [disabled={!step.completed && !step.current}] *)
Definition disabled (step : Step) : bool :=
  negb (completed step) && negb (current step).

End Stepper.
Arguments Step : clear implicits.
End Stepper.

(** ** src/components/FileUpload.tsx *)

Module FileUpload.

(** [toLowerCase] on the letters of the one-byte range; the two regular
    expressions of [processFile] carry the flag [i] and test how the
    name ends, and only the letters A to Z fold onto the letters of
    [csv], [xlsx] and [xls]. *)
Definition toLowerCase_ascii (c : ascii) : ascii :=
  let n := nat_of_ascii c in
  if (Nat.leb 65 n && Nat.leb n 90)%bool then ascii_of_nat (n + 32) else c.

Fixpoint toLowerCase (s : string) : string :=
  match s with
  | EmptyString => EmptyString
  | String c s' => String (toLowerCase_ascii c) (toLowerCase s')
  end.

Definition endsWith (suffix s : string) : bool :=
  let n := String.length s in
  let k := String.length suffix in
  (Nat.leb k n && String.eqb (substring (n - k) k s) suffix)%bool.

(** [/\.(csv|xlsx|xls)$/i] and [/\.csv$/i] *)
Definition is_table_name (name : string) : bool :=
  let name := toLowerCase name in
  (endsWith ".csv" name || endsWith ".xlsx" name || endsWith ".xls" name)%bool.

Definition is_csv_name (name : string) : bool :=
  endsWith ".csv" (toLowerCase name).

(** A [File]: its name, its size in bytes, and what a [FileReader] gives
    for it as text and as an [ArrayBuffer]. *)
Record File := {
  name : string;
  size : N;
  text : string;
  buffer : list ascii;
}.

Record State := {
  isDragging : bool;
  fileName : option string;
  isLoading : bool;
}.

Inductive Toast :=
  | Invalid_file_format
  | File_too_large
  | Error_reading_file.

(** How the read that [processFile] starts ends: with the event [load]
    or with the event [error]. *)
Inductive ReaderEvent := load | error.

(** An object is truthy; a string is unless it is empty. *)
Definition truthy (result : Index.FileContent) : bool :=
  match result with
  | Index.Text content => Str.truthy content
  | Index.ArrayBuffer _ => true
  end.

Section FileUpload.
Context {P : Type}.

(** The outcome of a handler: the state of the component, the toast it
    shows, and the state [P] of the parent that [onFileUploaded] acts
    on. *)
Record Outcome := {
  state : State;
  toast : option Toast;
  parent : P;
}.

(** [processFile] together with the reader event that follows it. *)
Definition processFile (onFileUploaded : File → Index.FileContent → P → P)
    (maxSizeMB : N) (file : File) (event : ReaderEvent)
    (st : State) (p : P) : Outcome :=
  if negb (is_table_name (name file)) then
    {| state := st; toast := Some Invalid_file_format; parent := p |}
  else if (maxSizeMB * 1024 * 1024 <? size file)%N then
    {| state := st; toast := Some File_too_large; parent := p |}
  else
    let st := {| isDragging := isDragging st; fileName := Some (name file);
                 isLoading := true |} in
    match event with
    | load =>
        let result :=
          if is_csv_name (name file) then Index.Text (text file)
          else Index.ArrayBuffer (buffer file) in
        if truthy result then
          {| state := {| isDragging := isDragging st;
                         fileName := fileName st; isLoading := false |};
             toast := None;
             parent := onFileUploaded file result p |}
        else {| state := st; toast := None; parent := p |}
    | error =>
        {| state := {| isDragging := isDragging st; fileName := None;
                       isLoading := false |};
           toast := Some Error_reading_file;
           parent := p |}
    end.

(** [handleDrop] and [handleFileInput] on the list of files of the
    event. *)
Definition handleDrop (onFileUploaded : File → Index.FileContent → P → P)
    (maxSizeMB : N) (files : list File) (event : ReaderEvent)
    (st : State) (p : P) : Outcome :=
  let st := {| isDragging := false; fileName := fileName st;
               isLoading := isLoading st |} in
  match files with
  | file :: _ => processFile onFileUploaded maxSizeMB file event st p
  | [] => {| state := st; toast := None; parent := p |}
  end.

Definition handleFileInput
    (onFileUploaded : File → Index.FileContent → P → P)
    (maxSizeMB : N) (files : list File) (event : ReaderEvent)
    (st : State) (p : P) : Outcome :=
  match files with
  | file :: _ => processFile onFileUploaded maxSizeMB file event st p
  | [] => {| state := st; toast := None; parent := p |}
  end.

End FileUpload.
Arguments Outcome : clear implicits.

(** The default of the prop [maxSizeMB]. *)
Definition maxSizeMB : N := 10.

Definition initial : State :=
  {| isDragging := false; fileName := None; isLoading := false |}.

End FileUpload.

(** ** src/components/ModelTraining.tsx

    [Math.min], which the training curves use besides [Math.max]. *)

Class JsMath `{JsNumber} := {
  Math_min : num → num → num;
}.

(** [Math.min] of the number system [Milli]. *)
Definition Milli_math : @JsMath Milli.runtime :=
  @Build_JsMath Milli.runtime (Milli.lift2 Z.min).

Module ModelTraining.
Import Utils ModelSelection.
Section ModelTraining.
Context `{JsMath} {P : Type}.

Record ModelTrainingProps := {
  featureNames : list string;
  targetName : string;
  taskType : TaskType;
  modelType : ModelType;
  modelParams : option (gmap string num);
  onTrainingComplete : Index.ModelInfo → P → P;
}.

(** The body of the loop of [generateTrainingData] for the counter [i];
    [random] is the value [Math.random()] returns there. *)
Definition dataPoint (iterations : nat) (taskType : TaskType) (i : nat)
    (random : num) : Index.MetricData :=
  let baseAccuracy := Number "0.7" in
  let baseR2 := Number "0.5" in
  let progress := num_div (num_of_nat i) (num_of_nat iterations) in
  let noise := num_mul (num_sub random (Number "0.5")) (Number "0.05") in
  {| Index.iteration := num_of_nat i;
     Index.loss :=
       Math_max (Number "0.1")
         (num_add (num_sub (num_of_nat 1) (num_mul (Number "0.7") progress))
            noise);
     Index.accuracy :=
       match taskType with
       | classification =>
           Some (Math_min (Number "0.98")
                   (num_add
                      (num_add baseAccuracy (num_mul (Number "0.25") progress))
                      noise))
       | regression => None
       end;
     Index.r2 :=
       match taskType with
       | classification => None
       | regression =>
           Some (Math_min (Number "0.95")
                   (num_add (num_add baseR2 (num_mul (Number "0.4") progress))
                      noise))
       end |}.

(** [random k] is the [k]-th value the call draws, from 0. *)
Definition generateTrainingData (iterations : nat) (taskType : TaskType)
    (random : nat → num) : list Index.MetricData :=
  (λ i, dataPoint iterations taskType i (random (i - 1))) <$> seq 1 iterations.

(** The entries of the confusion matrix are sums of an array index and
    a small constant: they are kept as natural numbers.  The first draw
    gives the size, the following ones the cells, row by row. *)
Definition generateConfusionMatrix (random : nat → num) : list (list nat) :=
  let size := Math_floor (num_mul (random 0) (num_of_nat 3)) + 2 in
  (λ i,
     (λ j,
        let r := random (1 + i * size + j) in
        if Nat.eqb i j
        then Math_floor (num_mul r (num_of_nat 100)) + 50
        else Math_floor (num_mul r (num_of_nat 20)))
     <$> seq 0 size)
  <$> seq 0 size.

Record State := {
  isTraining : bool;
  progress : nat;
  trainingMetrics : list Index.MetricData;
  confusionMatrix : list (list nat);
  featureImportance : list (string * num);
  trainTime : option num;
}.

Definition initial : State :=
  {| isTraining := false; progress := 0; trainingMetrics := [];
     confusionMatrix := []; featureImportance := []; trainTime := None |}.

(** The timer that [handleStartTraining] sets, with the variables its
    callback closes over. *)
Record Interval := {
  currentIteration : nat;
  iterations : nat;
  cleared : bool;
}.

Definition handleStartTraining (props : ModelTrainingProps) (st : State)
    : State * Interval :=
  ({| isTraining := true; progress := 0; trainingMetrics := [];
      confusionMatrix := confusionMatrix st;
      featureImportance := featureImportance st;
      trainTime := trainTime st |},
   {| currentIteration := 0;
      iterations :=
        if bool_decide (modelType props = xgboost
                        ∨ modelType props = random_forest)
        then 100 else 50;
      cleared := false |}).

(** [Math.round] of a non-negative quotient of counts, exact like
    [ratio]: the argument is within rounding error of an integer. *)
Definition Math_round (q : Q) : nat := Z.to_nat (Qfloor (q + (1 # 2))%Q).

(** What a firing of the timer takes from outside: the draws of
    [Math.random()] for the new point of the curve, for the matrix that
    is shown and for the metrics and the matrix that are reported; the
    two results of [generateFeatureImportance]; and the seconds since
    the start. *)
Record Firing := {
  point_draw : num;
  shown_matrix_draws : nat → num;
  shown_importance : list (string * num);
  reported_metrics_draws : nat → num;
  reported_matrix_draws : nat → num;
  reported_importance : list (string * num);
  seconds : num;
}.

(** The callback of [setInterval]; a cleared timer does not fire. *)
Definition tick (props : ModelTrainingProps) (firing : Firing)
    (run : Interval * State * P) : Interval * State * P :=
  let '(interval, st, parent) := run in
  if cleared interval then run
  else
    let currentIteration := S (currentIteration interval) in
    let newProgress :=
      Nat.min 100
        (Math_round (ratio currentIteration (iterations interval) * 100)%Q) in
    let prev := trainingMetrics st in
    let added :=
      (λ d, {| Index.iteration := num_of_nat (length prev + 1);
               Index.loss := Index.loss d;
               Index.accuracy := Index.accuracy d;
               Index.r2 := Index.r2 d |})
      <$> generateTrainingData 1 (taskType props) (λ _, point_draw firing) in
    let st :=
      {| isTraining := isTraining st; progress := newProgress;
         trainingMetrics := (prev ++ added)%list;
         confusionMatrix := confusionMatrix st;
         featureImportance := featureImportance st;
         trainTime := trainTime st |} in
    if Nat.leb (iterations interval) currentIteration then
      let matrix (draws : nat → num) :=
        match taskType props with
        | classification => generateConfusionMatrix draws
        | regression => []
        end in
      ({| currentIteration := currentIteration;
          iterations := iterations interval; cleared := true |},
       {| isTraining := false; progress := newProgress;
          trainingMetrics := trainingMetrics st;
          confusionMatrix := matrix (shown_matrix_draws firing);
          featureImportance := shown_importance firing;
          trainTime := Some (seconds firing) |},
       onTrainingComplete props
         {| Index.info_metrics :=
              generateTrainingData (iterations interval) (taskType props)
                (reported_metrics_draws firing);
            Index.info_confusionMatrix :=
              fmap (M := list) num_of_nat
              <$> matrix (reported_matrix_draws firing);
            Index.info_featureImportance := reported_importance firing;
            Index.info_trainTime := seconds firing |}
         parent)
    else
      ({| currentIteration := currentIteration;
          iterations := iterations interval; cleared := false |},
       st, parent).

(** A click on "Start Training" followed by the firings of its timer. *)
Definition train (props : ModelTrainingProps) (firings : list Firing)
    (st : State) (parent : P) : Interval * State * P :=
  let '(st, interval) := handleStartTraining props st in
  foldl (λ run firing, tick props firing run) (interval, st, parent) firings.

End ModelTraining.
Arguments ModelTrainingProps {_} P.
End ModelTraining.

(** ** src/components/DataTable.tsx: the pages of the table *)

Module DataTableView.
Import Utils.

Definition rowsPerPage : nat := 10.

(** [Math.ceil] of a quotient of counts. *)
Definition Math_ceil (q : Q) : nat := Z.to_nat (Qceiling q).

(** [array.slice(start, end)]: a negative index counts from the end of
    the array, both indices are clamped to the array, and nothing is
    returned when the end does not lie after the start. *)
Definition slice {A : Type} (start end_ : Z) (l : list A) : list A :=
  let len := Z.of_nat (length l) in
  let k :=
    if (start <? 0)%Z then Z.max (len + start) 0 else Z.min start len in
  let final :=
    if (end_ <? 0)%Z then Z.max (len + end_) 0 else Z.min end_ len in
  take (Z.to_nat (final - k)) (drop (Z.to_nat k) l).

Section DataTableView.
Context {A : Type}.

Definition totalPages (data : list A) : nat :=
  Math_ceil (ratio (length data) rowsPerPage).

(** The page counter [currentPage] starts at 1.  The first row of a
    page is an integer: for a counter of 0 it is -10. *)
Definition startRow (currentPage : nat) : Z :=
  ((Z.of_nat currentPage - 1) * Z.of_nat rowsPerPage)%Z.

Definition endRow (currentPage : nat) (data : list A) : Z :=
  Z.min (startRow currentPage + Z.of_nat rowsPerPage)
    (Z.of_nat (length data)).

Definition currentRows (currentPage : nat) (data : list A) : list A :=
  slice (startRow currentPage) (endRow currentPage data) data.

(** The four buttons under the table. *)
Inductive PageButton := first_page | previous_page | next_page | last_page.

Definition button_disabled (button : PageButton) (currentPage : nat)
    (data : list A) : bool :=
  match button with
  | first_page | previous_page => Nat.eqb currentPage 1
  | next_page | last_page => Nat.eqb currentPage (totalPages data)
  end.

(** A click; a disabled button does not react.  The button of the
    previous page is enabled on every page but the first, the counter
    being at least 1. *)
Definition click (button : PageButton) (data : list A) (currentPage : nat)
    : nat :=
  if button_disabled button currentPage data then currentPage
  else match button with
       | first_page => 1
       | previous_page => currentPage - 1
       | next_page => currentPage + 1
       | last_page => totalPages data
       end.

End DataTableView.
End DataTableView.

(** ** src/pages/Index.tsx: what the page renders

    The step list that [Index] gives the stepper, and the events that
    the components rendered in a state deliver to the handlers. *)

Module IndexView.
Import Utils ModelSelection Index.
Section IndexView.
Context `{JsNumber}.

Definition steps (st : State) : list (Stepper.Step WorkflowStep) :=
  [ {| Stepper.id := upload; Stepper.name := "Upload";
       Stepper.completed := bool_decide (is_Some (data st));
       Stepper.current := bool_decide (currentStep st = upload) |};
    {| Stepper.id := select; Stepper.name := "Select";
       Stepper.completed :=
         Nat.ltb 0 (length (selectedFeatures st))
         && Str.truthy (selectedTarget st);
       Stepper.current := bool_decide (currentStep st = select) |};
    {| Stepper.id := train; Stepper.name := "Train";
       Stepper.completed := bool_decide (is_Some (trainedModel st));
       Stepper.current := bool_decide (currentStep st = train) |};
    {| Stepper.id := evaluate; Stepper.name := "Evaluate";
       Stepper.completed := bool_decide (is_Some (modelMetrics st));
       Stepper.current := bool_decide (currentStep st = evaluate) |};
    {| Stepper.id := predict; Stepper.name := "Predict";
       Stepper.completed := false;
       Stepper.current := bool_decide (currentStep st = predict) |} ].

(** A click on the [i]-th button of the stepper, from 0. *)
Definition stepperClick (i : nat) (st : State) : State :=
  match steps st !! i with
  | Some step => Stepper.handleClick (Some navigateToStep) step st
  | None => st
  end.

(** [Object.keys(data[0])]: the columns a table shows; none for an
    empty array, where the table renders "No data available". *)
Definition headers (data : list (gmap string jsval)) : gset string :=
  match data with
  | row :: _ => dom row
  | [] => ∅
  end.

(** The columns of the table of the select step, which gets
    [data.slice(0, 50)]. *)
Definition columns (st : State) : gset string :=
  match data st with
  | Some data => headers (DataTableView.slice 0 50 data)
  | None => ∅
  end.

(** The props of the model check list, and a click on one of its
    boxes. *)
Definition models_props (taskType : TaskType) (st : State)
    : MultiModelSelection.MultiModelSelectionProps State :=
  {| MultiModelSelection.taskType := taskType;
     MultiModelSelection.selectedModels := selectedModels st;
     MultiModelSelection.onModelsSelect := handleModelsSelect |}.

Definition toggleModel (taskType : TaskType) (modelType : ModelType)
    (st : State) : State :=
  MultiModelSelection.handleModelToggle (models_props taskType st)
    modelType st.

(** What the user and the file reader can do. *)
Inductive Event :=
  | FileRead (content : FileContent)
  | UploadDifferentFile
  | Next
  | StepClick (i : nat)
  | FeatureClick (column : string)
  | TargetClick (column : string)
  | ModelToggle (modelType : ModelType).

(** Whether the page rendered in [st] offers the event: the button is
    rendered and not disabled.  A file read is started at the upload
    step and ends later, so it can arrive in every state. *)
Definition enabled (event : Event) (st : State) : bool :=
  match event with
  | FileRead _ => true
  | UploadDifferentFile =>
      bool_decide (currentStep st = upload)
      && bool_decide (is_Some (data st))
  | Next =>
      match currentStep st with
      | upload => bool_decide (is_Some (data st))
      | select =>
          bool_decide (is_Some (data st))
          && negb (Nat.eqb (length (selectedFeatures st)) 0
                   || negb (Str.truthy (selectedTarget st)))
      | evaluate =>
          bool_decide (is_Some (trainedModel st))
          && bool_decide (is_Some (taskType st))
      | train | predict => false
      end
  | StepClick i =>
      match steps st !! i with
      | Some step => negb (Stepper.disabled step)
      | None => false
      end
  | FeatureClick column =>
      bool_decide (currentStep st = select)
      && bool_decide (column ∈ columns st)
      && negb (String.eqb column (selectedTarget st))
  | TargetClick column =>
      bool_decide (currentStep st = select)
      && bool_decide (column ∈ columns st)
  | ModelToggle modelType =>
      bool_decide (currentStep st = train)
      && match taskType st with
         | Some taskType =>
             bool_decide
               (modelType ∈ (MultiModelSelection.availableModels taskType).*1)
         | None => false
         end
  end.

Definition handle (event : Event) (st : State) : State :=
  match event with
  | FileRead content => handleFileUploaded content st
  | UploadDifferentFile => uploadDifferentFile st
  | Next =>
      match currentStep st with
      | upload => navigateToStep select st
      | select => navigateToStep train st
      | evaluate => navigateToStep predict st
      | train | predict => st
      end
  | StepClick i => stepperClick i st
  | FeatureClick column => toggleFeature column st
  | TargetClick column => setTarget column st
  | ModelToggle modelType =>
      match taskType st with
      | Some taskType => toggleModel taskType modelType st
      | None => st
      end
  end.

(** A training card for [modelType] is rendered in [st]. *)
Definition training_card (modelType : ModelType) (st : State) : bool :=
  bool_decide (currentStep st = train)
  && bool_decide (is_Some (taskType st))
  && bool_decide (modelType ∈ selectedModels st).

(** The states of a session.  A training card calls the
    [onTrainingComplete] it was given in the render [render] in which
    "Start Training" was pressed; the call comes when the timer has run
    down, in a later state [st].  The relation holds of every state the
    program reaches and of more: a completion may be paired with any
    state, and a session goes on where a render of the program throws
    (the upload step on a dataset without rows, which reads
    [Object.keys(data[0])], and the evaluate step with a result, which
    calls [toFixed] on a missing member).  What is proved of all these
    states holds of the states of the program. *)
Inductive reachable : State → Prop :=
  | reachable_initial : reachable initial
  | reachable_event event st :
      reachable st → enabled event st = true → reachable (handle event st)
  | reachable_completion render modelInfo modelType st :
      reachable render → training_card modelType render = true →
      reachable st →
      reachable (handleTrainingCompleteMulti render modelInfo modelType st).

(** A sequence of events, each offered when its turn comes. *)
Fixpoint offered (events : list Event) (st : State) : bool :=
  match events with
  | [] => true
  | event :: events => enabled event st && offered events (handle event st)
  end.

Definition run (events : list Event) (st : State) : State :=
  foldl (λ st event, handle event st) st events.

End IndexView.
End IndexView.

(** * Sample files *)

(** The line feed. *)
Definition LF : string := String "010" "".

(** A CSV text from its lines. *)
Definition csv_text (lines : list string) : string := String.concat LF lines.

(** Three data lines; the second has an empty cell, the third lacks its
    last value. *)
Definition houses : string :=
  csv_text ["rooms,area,price"; "3,70,210"; "4,,300"; "2,45"].

(** A file with a column named [id], and one with two columns of the
    same name. *)
Definition with_id_column : string := csv_text ["id,x"; "7,1"].

Definition same_name_twice : string := csv_text ["a,a"; ",5"].

(** * Vocabulary of the properties *)

Section Vocabulary.
Context `{JsNumber}.
Import Utils ModelSelection Index.

(** A session at the train step: [houses] loaded, [rooms] chosen as
    feature and [price] as target, a decision tree and then a random
    forest ticked in the model list. *)
Definition two_models : State :=
  handleModelsSelect [decision_tree; random_forest]
    (handleModelsSelect [decision_tree]
       (navigateToStep train
          (setTarget "price"
             (toggleFeature "rooms"
                (navigateToStep select
                   (handleFileUploaded (Text houses) initial)))))).

(** The target column, when one is set, is not among the features. *)
Definition selection_ok (st : State) : Prop :=
  selectedTarget st ≠ "" → selectedTarget st ∉ selectedFeatures st.

(** A sequence of completions, each handled before the next. *)
Definition completeAll (runs : list (ModelType * ModelInfo)) (st : State)
    : State :=
  foldl (λ st run, completeTraining run.1 run.2 st) st runs.


(** The parts of a CSV text: its lines after [trim], the header names of
    the first line, the data lines after it, and the values of a line. *)
Definition csv_lines (csv : string) : list string :=
  Str.split "010" (Str.trim csv).

Definition csv_headers (csv : string) : list string :=
  Str.trim <$> Str.split "," (hd "" (csv_lines csv)).

Definition csv_data_lines (csv : string) : list string :=
  tail (csv_lines csv).

Definition line_values (line : string) : list string :=
  Str.trim <$> Str.split "," line.

(** Both parsers fill a row by assigning, for each header in turn, the
    cell of its column when there is one. *)
Definition assign (cell : nat → option jsval) (header : string) (i : nat)
    (row : gmap string jsval) : gmap string jsval :=
  match cell i with
  | Some v => set_property header v row
  | None => row
  end.

(** The value the loop leaves under [h]: the cell of the last column
    named [h] that has one; nothing under the name [__proto__]. *)
Fixpoint written (cell : nat → option jsval) (i : nat)
    (headers : list string) (h : string) : option jsval :=
  match headers with
  | [] => None
  | x :: headers' =>
      match written cell (S i) headers' h with
      | Some v => Some v
      | None => if decide (x = h ∧ h ≠ "__proto__") then cell i else None
      end
  end.

(** The cell of column [i] in [parseCSV]: the coerced value, when the
    line has one. *)
Definition csv_cell (values : list string) (i : nat) : option jsval :=
  coerce <$> values !! i.

(** The cell of column [i] in the parser of [PredictData]: every column
    is assigned, with [undefined] when the line has no value for it. *)
Definition test_cell (values : list string) (i : nat) : option jsval :=
  let value := values !! i in
  let numValue := from_option Number NaN value in
  Some (if isNaN numValue then from_option VStr VUndef value
        else VNum numValue).

(** What [handlePredict] does to a row: every field other than
    [prediction] is kept, and a [prediction] field is set, a number for
    regression and one of the class labels for classification. *)
Definition prediction_added (task : TaskType)
    (row row' : gmap string jsval) : Prop :=
  (∀ k, k ≠ "prediction" → row' !! k = row !! k)
  ∧ dom row' = {[ "prediction" ]} ∪ dom row
  ∧ (row !! "prediction" = None → size row' = S (size row))
  ∧ match task with
    | regression => ∃ x, row' !! "prediction" = Some (VNum x)
    | classification =>
        ∃ label, label ∈ PredictData.classLabels
                 ∧ row' !! "prediction" = Some (VStr label)
    end.

(** ** Statements of the specification that the program does not meet *)

(** Loading a dataset also clears the training and evaluation state. *)
Definition loadDataset_clears_all (content : string) (st : State) : Prop :=
  let st' := handleFileUploaded (Text content) st in
  data st' = Some (parseCSV content)
  ∧ selectedFeatures st' = []
  ∧ selectedTarget st' = ""
  ∧ taskType st' = None
  ∧ trainedModel st' = None
  ∧ modelMetrics st' = None
  ∧ modelResults st' = ∅
  ∧ predictions st' = [].

(** Every parsed row carries its 0-based index under [id]. *)
Definition id_is_row_index (csv : string) : Prop :=
  ∀ idx row, parseCSV csv !! idx = Some row →
    row !! "id" = Some (VNum (num_of_nat idx)).

(** Every present and empty cell is stored as 0 under its header. *)
Definition empty_cells_are_zero (csv : string) : Prop :=
  ∀ idx line i h row,
    csv_data_lines csv !! idx = Some line →
    csv_headers csv !! i = Some h →
    line_values line !! i = Some "" →
    parseCSV csv !! idx = Some row →
    row !! h = Some (VNum (num_of_nat 0)).

(** A predicted row keeps every field of the test row and has exactly
    one field more. *)
Definition retains_and_adds_one (row row' : gmap string jsval) : Prop :=
  (∀ k v, row !! k = Some v → row' !! k = Some v)
  ∧ size row' = S (size row).

(** The same of every row that [handlePredict] returns. *)
Definition predictions_retain_and_add_one
    (props : PredictData.PredictDataProps) (random : nat → num)
    (st : PredictData.State) : Prop :=
  ∀ i row row',
    PredictData.testData st ≫= (.!! i) = Some row →
    PredictData.predictedResults (PredictData.handlePredict props random st)
      ≫= (.!! i) = Some row' →
    retains_and_adds_one row row'.

End Vocabulary.

(** * Concrete inputs

    Sessions and files to run the program on, with the number system
    [Milli]. *)

Section Inputs.
Import Utils ModelSelection Index.
#[local] Existing Instance Milli.runtime.

(** A training result. *)
Definition some_info : ModelInfo :=
  {| info_metrics := []; info_confusionMatrix := [];
     info_featureImportance := [("rooms", Milli.milli 1000)];
     info_trainTime := Milli.milli 5000 |}.

(** A session up to the choice of a decision tree on [houses], and the
    same session after the training has completed. *)
Definition configured : State :=
  handleModelsSelect [decision_tree]
    (navigateToStep train
       (setTarget "price"
          (toggleFeature "rooms"
             (navigateToStep select
                (handleFileUploaded (Text houses) initial))))).

Definition trained : State := completeTraining decision_tree some_info configured.

(** The trained session back at the upload step, asking for another
    file. *)
Definition another_file : State :=
  uploadDifferentFile (navigateToStep upload trained).


(** The prediction step before any upload. *)
Definition idle : PredictData.State :=
  {| PredictData.testData := None; PredictData.predictedResults := None;
     PredictData.isPredicting := false |}.

Definition predict_props : PredictData.PredictDataProps :=
  {| PredictData.modelType := decision_tree;
     PredictData.taskType := classification;
     PredictData.featureNames := ["rooms"] |}.

(** A test file that has a [prediction] column, and its predictions
    when every draw of [Math.random()] is 0.5. *)
Definition uploaded : PredictData.State :=
  PredictData.handleFileUploaded
    (Text (csv_text ["rooms,prediction"; "3,7"])) idle.

Definition predicted : PredictData.State :=
  PredictData.handlePredict predict_props (λ _, Number "0.5") uploaded.

(** The prediction step with [houses] as test data. *)
Definition loaded : PredictData.State :=
  {| PredictData.testData := Some (parseCSV houses);
     PredictData.predictedResults := None;
     PredictData.isPredicting := true |}.

End Inputs.

(** * More vocabulary *)

Section MoreVocabulary.
Context `{JsNumber}.
Import Utils ModelSelection Index.

(** How often a character occurs in a string. *)
Fixpoint occurrences (c : ascii) (s : string) : nat :=
  match s with
  | EmptyString => 0
  | String x s' => (if Ascii.eqb x c then 1 else 0) + occurrences c s'
  end.

(** A cell as [parseCSV] stores it: a number other than [NaN], or a
    non-empty string that [Number] does not read. *)
Definition clean_cell (v : jsval) : Prop :=
  match v with
  | VNum x => isNaN x = false
  | VStr s => s ≠ "" ∧ isNaN (Number s) = true
  | VUndef | VInherited _ => False
  end.

(** The parameters [handleModelsSelect] leaves for a list of kinds. *)
Definition default_params (models : list ModelType) (m : ModelType)
    : option (gmap string num) :=
  if decide (m ∈ models) then Some (defaultModelParams m) else None.

(** The cells of the single-model flow, as they start. *)
Definition single_model_cells_unset (st : State) : Prop :=
  selectedModel st = None ∧ modelParams st = ∅ ∧ modelMetrics st = None
  ∧ featureImportance st = [] ∧ predictions st = [].

(** An entry of [trainedModel] for the kind [m] with the parameters of
    the catalogue. *)
Definition default_entry (m : ModelType) : TrainedModel :=
  {| tm_type := m; tm_params := Some (defaultModelParams m) |}.

(** [st'] has the dataset and the selection of [st]. *)
Definition keeps_selection (st st' : State) : Prop :=
  data st' = data st
  ∧ selectedFeatures st' = selectedFeatures st
  ∧ selectedTarget st' = selectedTarget st
  ∧ taskType st' = taskType st.

(** [st'] has the training results of [st]. *)
Definition keeps_results (st st' : State) : Prop :=
  trainedModel st' = trainedModel st
  ∧ modelResults st' = modelResults st.

(** [st'] has the model selection of [st]. *)
Definition keeps_models (st st' : State) : Prop :=
  selectedModels st' = selectedModels st
  ∧ multiModelParams st' = multiModelParams st.

End MoreVocabulary.

Section TrainingVocabulary.
Context `{JsMath}.
Import Utils ModelSelection Index.

(** The point that the [i]-th firing of the timer, from 0, adds to the
    live curve: the last point of a run of a single iteration, numbered
    [i + 1]. *)
Definition live_point {P} (props : ModelTraining.ModelTrainingProps P)
    (i : nat) (firing : ModelTraining.Firing) : MetricData :=
  let d := ModelTraining.dataPoint 1 (ModelTraining.taskType props) 1
             (ModelTraining.point_draw firing) in
  {| iteration := num_of_nat (i + 1); loss := loss d;
     accuracy := accuracy d; r2 := r2 d |}.

(** The number of firings a training of [props] takes. *)
Definition duration {P} (props : ModelTraining.ModelTrainingProps P) : nat :=
  ModelTraining.iterations
    (ModelTraining.handleStartTraining props ModelTraining.initial).2.

End TrainingVocabulary.

(** * More inputs *)

Section MoreInputs.
Import Utils ModelSelection Index IndexView.
#[local] Existing Instance Milli.runtime.
#[local] Existing Instance Milli_math.

(** A file with a blank line between two data lines. *)
Definition with_blank_line : string := csv_text ["a,b"; "1,2"; ""; "3,4"].

(** A file with a column named [__proto__], and one with two columns of
    the same name that both have a value. *)
Definition with_proto_column : string := csv_text ["__proto__,x"; ",2"].

Definition same_name_values : string := csv_text ["a,a"; "1,2"].

(** A file with the [price] column of [houses] and another feature. *)
Definition other_features : string :=
  csv_text ["x,price"; "1,210"; "1,300"; "1"].

(** A session at the select step with [rooms] as feature and [price] as
    target, the same session at the train step with a decision tree
    ticked, and that session after the training has completed. *)
Definition selecting_events : list Event :=
  [ FileRead (Text houses); Next; FeatureClick "rooms"; TargetClick "price" ].

Definition selecting : State := run selecting_events initial.

Definition at_train : State :=
  run [ Next; ModelToggle decision_tree ] selecting.

Definition after_training : State :=
  handleTrainingCompleteMulti at_train some_info decision_tree at_train.

(** Three files: a text file, a spreadsheet and an empty CSV file. *)
Definition notes_txt : FileUpload.File :=
  {| FileUpload.name := "notes.txt"; FileUpload.size := 12;
     FileUpload.text := "hello, world"; FileUpload.buffer := [] |}.

Definition houses_xlsx : FileUpload.File :=
  {| FileUpload.name := "Houses.XLSX"; FileUpload.size := 2048;
     FileUpload.text := ""; FileUpload.buffer := ["P"; "K"]%char |}.

Definition empty_csv : FileUpload.File :=
  {| FileUpload.name := "empty.csv"; FileUpload.size := 0;
     FileUpload.text := ""; FileUpload.buffer := [] |}.

(** A training card for a decision tree whose parent keeps the reports
    it gets, and a firing of its timer with every draw at 0.5. *)
Definition tree_props : ModelTraining.ModelTrainingProps (list ModelInfo) :=
  {| ModelTraining.featureNames := ["rooms"];
     ModelTraining.targetName := "price";
     ModelTraining.taskType := regression;
     ModelTraining.modelType := decision_tree;
     ModelTraining.modelParams := Some (defaultModelParams decision_tree);
     ModelTraining.onTrainingComplete := cons |}.

Definition a_firing : ModelTraining.Firing :=
  {| ModelTraining.point_draw := Number "0.5";
     ModelTraining.shown_matrix_draws := λ _, Number "0.5";
     ModelTraining.shown_importance := [("rooms", Number "1")];
     ModelTraining.reported_metrics_draws := λ _, Number "0.5";
     ModelTraining.reported_matrix_draws := λ _, Number "0.5";
     ModelTraining.reported_importance := [("rooms", Number "1")];
     ModelTraining.seconds := Number "5" |}.

End MoreInputs.

(** * Properties *)

Section Theorems.
Context `{JsNumber}.
Import Utils ModelSelection Index.

(** ** Strings and arrays of strings *)

Lemma truthy_spec (s : string) : Str.truthy s = true ↔ s ≠ "".
Proof.
  unfold Str.truthy. destruct (String.eqb_spec s ""); simpl; split; try done.
Qed.

Lemma includes_spec (x : string) (l : list string) :
  Str.includes x l = true ↔ x ∈ l.
Proof.
  unfold Str.includes. rewrite existsb_exists. split.
  - intros (y & Hy & Heq). apply String.eqb_eq in Heq. subst.
    by apply list_elem_of_In.
  - intros Hx. exists x. split; [by apply list_elem_of_In|apply String.eqb_refl].
Qed.

Lemma filter_all {A} (P : A → Prop) `{!∀ x, Decision (P x)} (l : list A) :
  Forall P l → filter P l = l.
Proof.
  induction 1 as [|x l Hx _ IH]; [done|].
  by rewrite filter_cons_True, IH.
Qed.

(** [split] never returns the empty array: the text always has a first
    line, and the empty branch of the parsers is never taken. *)
Lemma split_nonempty (sep : ascii) (s : string) : Str.split sep s ≠ [].
Proof.
  induction s as [|c s IH]; simpl; [done|].
  destruct (Ascii.eqb c sep); [done|]. by destruct (Str.split sep s).
Qed.

(** ** Navigation *)

Lemma canEnter_train (st : State) :
  canEnter train st = true ↔ selectedFeatures st ≠ [] ∧ selectedTarget st ≠ "".
Proof.
  unfold canEnter. rewrite andb_true_iff, truthy_spec, Nat.ltb_lt.
  destruct (selectedFeatures st); simpl; split; intros []; split; try done; lia.
Qed.

(** C4.  [navigateToStep 'train'] moves to the train step exactly when at
    least one feature is selected and a target is set: then the current
    step becomes [train] and nothing else changes; otherwise the call
    returns the state it was given.  The function is total, so no call
    raises an error. *)
Theorem navigateToStep_train (st : State) :
  (selectedFeatures st ≠ [] ∧ selectedTarget st ≠ "" →
     navigateToStep train st = setCurrentStep train st) ∧
  (¬ (selectedFeatures st ≠ [] ∧ selectedTarget st ≠ "") →
     navigateToStep train st = st) ∧
  (currentStep st ≠ train →
     (currentStep (navigateToStep train st) = train
      ↔ selectedFeatures st ≠ [] ∧ selectedTarget st ≠ "")).
Proof.
  unfold navigateToStep. pose proof (canEnter_train st) as Hg.
  destruct (canEnter train st) eqn:Hc.
  - assert (Hok : selectedFeatures st ≠ [] ∧ selectedTarget st ≠ "")
      by by apply Hg.
    split; [done|]. split; [tauto|]. intros _. by split.
  - assert (Hno : ¬ (selectedFeatures st ≠ [] ∧ selectedTarget st ≠ "")).
    { intros Hok. apply Hg in Hok. discriminate. }
    split; [tauto|]. split; [done|]. intros Hstep. split; [done|tauto].
Qed.

(** ** Feature and target selection *)

Lemma handleTargetSelected_target (t : string) (st : State) :
  selectedTarget (handleTargetSelected t st) = t.
Proof.
  unfold handleTargetSelected.
  destruct (data st); [destruct (Str.truthy t)|]; done.
Qed.

Lemma handleTargetSelected_features (t : string) (st : State) :
  selectedFeatures (handleTargetSelected t st) = selectedFeatures st.
Proof.
  unfold handleTargetSelected.
  destruct (data st); [destruct (Str.truthy t)|]; done.
Qed.

(** The two outcomes of a click on a target button. *)
Lemma setTarget_same (st : State) :
  setTarget (selectedTarget st) st = handleTargetSelected "" st.
Proof.
  unfold setTarget, DataTable.handleTargetClick; simpl.
  by rewrite String.eqb_refl.
Qed.

Lemma setTarget_other (c : string) (st : State) :
  c ≠ selectedTarget st →
  setTarget c st =
    handleTargetSelected c
      (if Str.includes c (selectedFeatures st)
       then handleFeaturesSelected
              (filter (λ f, f ≠ c) (selectedFeatures st)) st
       else st).
Proof.
  intros Hne. unfold setTarget, DataTable.handleTargetClick; simpl.
  destruct (String.eqb_spec c (selectedTarget st)); [done|].
  by destruct (Str.includes c (selectedFeatures st)).
Qed.

Lemma setTarget_features (c : string) (st : State) :
  c ≠ selectedTarget st →
  selectedFeatures (setTarget c st) = filter (λ f, f ≠ c) (selectedFeatures st).
Proof.
  intros Hne. rewrite setTarget_other, handleTargetSelected_features by done.
  destruct (Str.includes c (selectedFeatures st)) eqn:Hin; [done|].
  symmetry. apply filter_all, Forall_forall. intros f Hf ->.
  apply includes_spec in Hf. congruence.
Qed.

Lemma toggleFeature_target (st : State) :
  toggleFeature (selectedTarget st) st = st.
Proof.
  unfold toggleFeature, DataTable.handleFeatureClick; simpl.
  by rewrite String.eqb_refl.
Qed.

Lemma toggleFeature_other (c : string) (st : State) :
  c ≠ selectedTarget st →
  toggleFeature c st =
    setSelectedFeatures
      (if Str.includes c (selectedFeatures st)
       then filter (λ f, f ≠ c) (selectedFeatures st)
       else (selectedFeatures st ++ [c])%list) st.
Proof.
  intros Hne. unfold toggleFeature, DataTable.handleFeatureClick; simpl.
  by destruct (String.eqb_spec c (selectedTarget st)).
Qed.

(** C5.  Choosing a column [c] as target (a click on the target button of
    a column that is not the current target) makes [c] the target and
    removes it from the features, whatever the features were; a click on
    the feature box of the current target changes nothing; and both
    clicks, on any column, keep the target out of the feature list. *)
Theorem selection_target_not_feature (c : string) (st : State) :
  (c ≠ selectedTarget st →
     selectedTarget (setTarget c st) = c
     ∧ (c ∉ selectedFeatures (setTarget c st))
     ∧ (selectedFeatures (setTarget c st)
        = filter (λ f, f ≠ c) (selectedFeatures st))) ∧
  toggleFeature (selectedTarget st) st = st ∧
  (selection_ok st →
     selection_ok (setTarget c st) ∧ selection_ok (toggleFeature c st)).
Proof.
  assert (Hsel : c ≠ selectedTarget st →
     selectedTarget (setTarget c st) = c
     ∧ (c ∉ selectedFeatures (setTarget c st))
     ∧ (selectedFeatures (setTarget c st)
        = filter (λ f, f ≠ c) (selectedFeatures st))).
  { intros Hne. rewrite setTarget_features by done.
    rewrite setTarget_other, handleTargetSelected_target by done.
    split; [done|]. split; [|done].
    rewrite list_elem_of_filter. tauto. }
  split; [done|]. split; [apply toggleFeature_target|].
  intros Hok. destruct (decide (c = selectedTarget st)) as [->|Hne].
  - rewrite toggleFeature_target. split; [|done].
    rewrite setTarget_same. intros Hset.
    by rewrite handleTargetSelected_target in Hset.
  - split.
    + intros _. destruct (Hsel Hne) as (-> & Hnot & _). done.
    + rewrite toggleFeature_other by done. unfold selection_ok; simpl.
      intros Hset Hin. apply Hok in Hset as Hnotin.
      destruct (Str.includes c (selectedFeatures st)).
      * apply list_elem_of_filter in Hin as [_ Hin]. done.
      * apply elem_of_app in Hin as [Hin|Hin]; [done|].
        apply list_elem_of_singleton in Hin. congruence.
Qed.

(** C6.  From a state with no target, a click on the target button of a
    column [c] selects [c] as the target (for every column but one
    named by the empty string, which is the unset target), and a second
    click on the same button leaves the target unset again.  In any
    state, a click on the button of the current target clears it. *)
Theorem setTarget_toggle_round_trip (c : string) (st : State) :
  selectedTarget st = "" →
  (c ≠ "" → selectedTarget (setTarget c st) = c)
  ∧ selectedTarget (setTarget c (setTarget c st)) = ""
  ∧ ∀ st' : State, selectedTarget (setTarget (selectedTarget st') st') = "".
Proof.
  intros Hunset. split.
  { intros Hc.
    rewrite setTarget_other, handleTargetSelected_target; congruence. }
  split.
  2:{ intros st'. by rewrite setTarget_same, handleTargetSelected_target. }
  destruct (decide (c = "")) as [->|Hc].
  - assert (Hst : setTarget "" st = handleTargetSelected "" st).
    { rewrite <- Hunset at 1. apply setTarget_same. }
    rewrite Hst.
    pose proof (handleTargetSelected_target "" st) as Ht.
    rewrite <- Ht at 1. by rewrite setTarget_same, handleTargetSelected_target.
  - assert (Ht : selectedTarget (setTarget c st) = c).
    { rewrite setTarget_other, handleTargetSelected_target; congruence. }
    rewrite <- Ht at 1. by rewrite setTarget_same, handleTargetSelected_target.
Qed.

(** ** Loading a dataset *)

(** C2, as amended.  Loading a text file replaces the dataset by the
    parsed rows and clears the feature selection, the target and the task
    type; the current step, the selected models and their parameters, the
    trained models, the metrics, the per-model results and the
    predictions are left as they were.  A file delivered as an
    [ArrayBuffer] changes nothing. *)
Theorem handleFileUploaded_resets_selection (content : string)
    (bytes : list ascii) (st : State) :
  handleFileUploaded (Text content) st =
    {| currentStep := currentStep st;
       data := Some (parseCSV content);
       selectedFeatures := [];
       selectedTarget := "";
       taskType := None;
       selectedModel := selectedModel st;
       modelParams := modelParams st;
       trainedModel := trainedModel st;
       modelMetrics := modelMetrics st;
       featureImportance := featureImportance st;
       predictions := predictions st;
       selectedModels := selectedModels st;
       modelResults := modelResults st;
       multiModelParams := multiModelParams st |}
  ∧ handleFileUploaded (ArrayBuffer bytes) st = st.
Proof. done. Qed.

Lemma navigateToStep_trainedModel step (st : State) :
  trainedModel (navigateToStep step st) = trainedModel st.
Proof. unfold navigateToStep. by destruct (canEnter step st). Qed.

Lemma uploadDifferentFile_trainedModel (st : State) :
  trainedModel (uploadDifferentFile st) = trainedModel st.
Proof. done. Qed.

Lemma handleFileUploaded_trainedModel content (st : State) :
  trainedModel (handleFileUploaded content st) = trainedModel st.
Proof. by destruct content. Qed.

(** ** Recording training results *)

Lemma handleTrainingCompleteMulti_results (render : State) (r : ModelInfo)
    (k : ModelType) (st : State) :
  modelResults (handleTrainingCompleteMulti render r k st)
  = <[ k := r ]> (modelResults st).
Proof. unfold handleTrainingCompleteMulti. by destruct (Nat.eqb _ _). Qed.

Lemma handleTrainingCompleteMulti_step (render : State) (r : ModelInfo)
    (k : ModelType) (st : State) :
  currentStep (handleTrainingCompleteMulti render r k st) =
    if decide (size (modelResults render) + 1 = length (selectedModels render))
    then evaluate else currentStep st.
Proof.
  unfold handleTrainingCompleteMulti. case_decide as Hn.
  - apply Nat.eqb_eq in Hn. by rewrite Hn.
  - apply Nat.eqb_neq in Hn. by rewrite Hn.
Qed.

Lemma completeTraining_results (k : ModelType) (r : ModelInfo) (st : State) :
  modelResults (completeTraining k r st) = <[ k := r ]> (modelResults st).
Proof.
  unfold completeTraining, handleTrainingCompleteMulti.
  by destruct (Nat.eqb _ _).
Qed.

Lemma completeTraining_selectedModels (k : ModelType) (r : ModelInfo)
    (st : State) :
  selectedModels (completeTraining k r st) = selectedModels st.
Proof.
  unfold completeTraining, handleTrainingCompleteMulti.
  by destruct (Nat.eqb _ _).
Qed.

Lemma completeTraining_step (k : ModelType) (r : ModelInfo) (st : State) :
  currentStep (completeTraining k r st) =
    if decide (size (modelResults st) + 1 = length (selectedModels st))
    then evaluate else currentStep st.
Proof.
  unfold completeTraining, handleTrainingCompleteMulti.
  case_decide as Hn.
  - apply Nat.eqb_eq in Hn. by rewrite Hn.
  - apply Nat.eqb_neq in Hn. by rewrite Hn.
Qed.

(** The entries of an object under one key. *)
Lemma entries_of_key {V} (m : gmap ModelType V) (k : ModelType) (v : V) :
  m !! k = Some v → filter (λ e, e.1 = k) (map_to_list m) = [(k, v)].
Proof.
  intros Hk. apply Permutation_singleton_r.
  rewrite <- (insert_delete_id m k v Hk) at 1.
  rewrite map_to_list_insert by apply lookup_delete_eq.
  rewrite filter_cons_True by done. f_equiv.
  assert (Hnone : Forall (λ e, ¬ e.1 = k) (map_to_list (delete k m))).
  { apply Forall_forall. intros [k' v'] Hin Heq. simpl in Heq. subst k'.
    apply elem_of_map_to_list in Hin. by rewrite lookup_delete_eq in Hin. }
  induction Hnone as [|e l He _ IH]; [done|].
  by rewrite filter_cons_False.
Qed.

(** C7.  After [completeTraining k r1] and then [completeTraining k r2],
    the results object has exactly one entry under [k], which holds [r2],
    and it has as many entries as it had after the first call. *)
Theorem completeTraining_overwrites (k : ModelType) (r1 r2 : ModelInfo)
    (st : State) :
  let st1 := completeTraining k r1 st in
  let st2 := completeTraining k r2 st1 in
  filter (λ e, e.1 = k) (map_to_list (modelResults st2)) = [(k, r2)]
  ∧ size (modelResults st2) = size (modelResults st1).
Proof.
  simpl. rewrite !completeTraining_results. split.
  - apply entries_of_key, lookup_insert_eq.
  - apply map_size_insert_Some. rewrite lookup_insert_eq. by eexists.
Qed.

Lemma completeTraining_trainedModel (k : ModelType) (r : ModelInfo)
    (st : State) :
  is_Some (trainedModel (completeTraining k r st)).
Proof.
  unfold completeTraining, handleTrainingCompleteMulti.
  by destruct (Nat.eqb _ _).
Qed.

Lemma completeAll_snoc runs (k : ModelType) (r : ModelInfo) (st : State) :
  completeAll (runs ++ [(k, r)]) st = completeTraining k r (completeAll runs st).
Proof. unfold completeAll. by rewrite foldl_app. Qed.

Lemma completeAll_selectedModels runs (st : State) :
  selectedModels (completeAll runs st) = selectedModels st.
Proof.
  induction runs as [|[k r] runs IH] using rev_ind; [done|].
  by rewrite completeAll_snoc, completeTraining_selectedModels.
Qed.

(** Completions of distinct kinds that have no result yet add one entry
    each. *)
Lemma completeAll_size runs (st : State) :
  NoDup runs.*1 →
  (∀ k, k ∈ runs.*1 → modelResults st !! k = None) →
  size (modelResults (completeAll runs st))
  = size (modelResults st) + length runs
  ∧ ∀ k, k ∉ runs.*1 →
      modelResults (completeAll runs st) !! k = modelResults st !! k.
Proof.
  induction runs as [|[k r] runs IH] using rev_ind; intros Hnd Hnew.
  - simpl. split; [lia|done].
  - rewrite fmap_app in Hnd, Hnew. simpl in Hnd, Hnew.
    apply NoDup_app in Hnd as (Hnd & Hk & _).
    destruct IH as [IHsize IHother]; [done|..].
    { intros k' Hk'. apply Hnew, elem_of_app. by left. }
    rewrite completeAll_snoc, completeTraining_results, length_app. simpl.
    assert (Hkout : k ∉ runs.*1).
    { intros Hin. apply (Hk k Hin). by apply list_elem_of_singleton. }
    split.
    + rewrite map_size_insert_None; [lia|].
      rewrite IHother by done. apply Hnew, elem_of_app. right.
      by apply list_elem_of_singleton.
    + intros k' Hk'. rewrite fmap_app in Hk'. simpl in Hk'.
      rewrite elem_of_app, list_elem_of_singleton in Hk'.
      rewrite lookup_insert_ne by (intros ->; tauto).
      apply IHother. tauto.
Qed.

(** From a state without results, completing each selected kind once, in
    any order, ends in the evaluate step, and the step is not changed
    before the last completion. *)
Lemma completeAll_fresh_run runs (st : State) :
  modelResults st = ∅ →
  NoDup runs.*1 →
  runs.*1 ≡ₚ selectedModels st →
  runs ≠ [] →
  currentStep (completeAll runs st) = evaluate
  ∧ ∀ done rest, runs = (done ++ rest)%list → rest ≠ [] →
      currentStep (completeAll done st) = currentStep st.
Proof.
  intros Hempty Hnd Hperm Hne.
  assert (Hlen : length (selectedModels st) = length runs).
  { by rewrite <- Hperm, length_fmap. }
  assert (Hprefix : ∀ done rest, runs = (done ++ rest)%list →
    size (modelResults (completeAll done st)) = length done).
  { intros done rest ->. rewrite fmap_app in Hnd.
    apply NoDup_app in Hnd as (Hnd & _ & _).
    destruct (completeAll_size done st Hnd) as [Hsize _].
    - intros k _. by rewrite Hempty.
    - by rewrite Hsize, Hempty, map_size_empty. }
  split.
  - destruct runs as [|[k r] runs _] using rev_ind; [done|].
    rewrite completeAll_snoc, completeTraining_step.
    rewrite completeAll_selectedModels, Hlen, length_app.
    rewrite (Hprefix runs [(k, r)]) by done. simpl.
    by case_decide.
  - intros done. induction done as [|[k r] done IH] using rev_ind;
      intros rest Hruns Hrest; [done|].
    rewrite completeAll_snoc, completeTraining_step.
    rewrite completeAll_selectedModels, Hlen.
    rewrite (Hprefix done ((k, r) :: rest))
      by by rewrite Hruns, <- app_assoc.
    assert (length rest ≠ 0) by by destruct rest.
    rewrite Hruns, !length_app. simpl. case_decide; [lia|].
    apply (IH ((k, r) :: rest)); [|done].
    by rewrite Hruns, <- app_assoc.
Qed.

Lemma two_models_state :
  currentStep two_models = train
  ∧ selectedModels two_models = [decision_tree; random_forest]
  ∧ modelResults two_models = ∅.
Proof. split_and!; reflexivity. Qed.

(** C1, the failing run.  In the session [two_models], at the train step
    with a decision tree and a random forest selected and no results yet,
    completing the decision tree twice moves the workflow to the evaluate
    step although the random forest has no result: the count is the
    number of results before the call plus one, also when the call
    overwrites an entry. *)
Theorem completeTraining_rerun_advances (r1 r2 : ModelInfo) :
  let st1 := completeTraining decision_tree r1 two_models in
  let st2 := completeTraining decision_tree r2 st1 in
  currentStep two_models = train
  ∧ currentStep st1 = train
  ∧ currentStep st2 = evaluate
  ∧ selectedModels st2 = [decision_tree; random_forest]
  ∧ modelResults st2 !! random_forest = None.
Proof.
  destruct two_models_state as (Hstep & Hsel & Hres). cbv zeta.
  rewrite !completeTraining_step, !completeTraining_selectedModels.
  rewrite !completeTraining_results, Hstep, Hsel, Hres.
  rewrite map_size_insert_None, map_size_empty by done. simpl.
  split_and!; [done..|]. by rewrite !lookup_insert_ne.
Qed.

(** The same session, with both trainings started before either has
    finished: both callbacks belong to the render without results, each
    counts one completed model, and the step stays [train] with both
    results recorded. *)
Lemma overlapping_runs_do_not_advance (r1 r2 : ModelInfo) :
  let st1 := handleTrainingCompleteMulti two_models r1 decision_tree two_models in
  let st2 := handleTrainingCompleteMulti two_models r2 random_forest st1 in
  currentStep st2 = train
  ∧ modelResults st2 !! decision_tree = Some r1
  ∧ modelResults st2 !! random_forest = Some r2.
Proof.
  destruct two_models_state as (Hstep & Hsel & Hres). cbv zeta.
  rewrite !handleTrainingCompleteMulti_step.
  rewrite !handleTrainingCompleteMulti_results, Hstep, Hsel, Hres.
  rewrite map_size_empty. simpl. split_and!; [done| |].
  - by rewrite lookup_insert_ne, lookup_insert_eq.
  - by rewrite lookup_insert_eq.
Qed.

(** ** The CSV parser *)

Lemma forEach_from_ext {A St} (f g : A → nat → St → St) i l s :
  (∀ x j t, f x j t = g x j t) →
  forEach_from f i l s = forEach_from g i l s.
Proof.
  intros Hfg. revert i s.
  induction l as [|x l IH]; intros i s; simpl; [done|].
  by rewrite Hfg, IH.
Qed.

Lemma forEach_assign_lookup cell i headers (row : gmap string jsval) h :
  forEach_from (assign cell) i headers row !! h =
    match written cell i headers h with
    | Some v => Some v
    | None => row !! h
    end.
Proof.
  revert i row. induction headers as [|x headers IH]; intros i row; simpl.
  { done. }
  rewrite IH. destruct (written cell (S i) headers h); [done|].
  unfold assign, set_property. destruct (cell i) as [v|]; [|by case_decide].
  destruct (String.eqb_spec x "__proto__") as [->|Hx].
  - case_decide as Hd; [|done]. by destruct Hd as [<- ?].
  - case_decide as Hd.
    + destruct Hd as [-> _]. by rewrite lookup_insert_eq.
    + rewrite lookup_insert_ne; [done|]. intros ->. by apply Hd.
Qed.

Lemma written_proto cell i headers :
  written cell i headers "__proto__" = None.
Proof.
  revert i. induction headers as [|x headers IH]; intros i; simpl; [done|].
  rewrite IH. case_decide as Hd; [|done]. by destruct Hd.
Qed.

Lemma written_Some cell i headers h v :
  written cell i headers h = Some v →
  ∃ j, headers !! j = Some h ∧ cell (i + j) = Some v.
Proof.
  revert i. induction headers as [|x headers IH]; intros i; simpl; [done|].
  destruct (written cell (S i) headers h) as [w|] eqn:Hw.
  - intros [= ->]. destruct (IH _ Hw) as (j & Hj & Hc).
    exists (S j). split; [done|]. by rewrite Nat.add_succ_r.
  - case_decide as Hd; [|done]. destruct Hd as [-> _]. intros Hc. exists 0.
    split; [done|]. by rewrite Nat.add_0_r.
Qed.

Lemma written_last cell i headers h j v :
  h ≠ "__proto__" →
  headers !! j = Some h →
  cell (i + j) = Some v →
  (∀ j', j < j' → headers !! j' = Some h → cell (i + j') = None) →
  written cell i headers h = Some v.
Proof.
  intros Hh.
  revert i j. induction headers as [|x headers IH]; intros i j Hj Hc Hlast.
  { done. }
  simpl. destruct j as [|j]; simpl in Hj.
  - injection Hj as ->. rewrite Nat.add_0_r in Hc.
    destruct (written cell (S i) headers h) as [w|] eqn:Hw.
    + apply written_Some in Hw as (j' & Hj' & Hc').
      rewrite (Nat.add_succ_comm i j') in Hc'.
      rewrite (Hlast (S j')) in Hc'; [done|lia|done].
    + by rewrite decide_True.
  - assert (Hw : written cell (S i) headers h = Some v).
    { apply (IH (S i) j); [done|by rewrite Nat.add_succ_comm|].
      intros j' Hlt Hj'. rewrite Nat.add_succ_comm.
      apply Hlast; [lia|done]. }
    by rewrite Hw.
Qed.

Lemma written_None cell i headers h j :
  h ≠ "__proto__" →
  written cell i headers h = None →
  headers !! j = Some h → cell (i + j) = None.
Proof.
  intros Hh.
  revert i j. induction headers as [|x headers IH]; intros i j; [done|].
  simpl. destruct (written cell (S i) headers h) eqn:Hw; [done|].
  destruct j as [|j]; simpl.
  - intros Hc [= ->]. rewrite decide_True in Hc by done.
    by rewrite Nat.add_0_r.
  - intros _ Hj. rewrite <- Nat.add_succ_comm. by apply IH.
Qed.

Lemma parseCSV_row_assign headers idx line :
  parseCSV_row headers idx line =
    forEach_from (assign (csv_cell (line_values line))) 0 headers
      {[ "id" := VNum (num_of_nat idx) ]}.
Proof.
  unfold parseCSV_row, forEach. apply forEach_from_ext.
  intros x j t. unfold assign, csv_cell, line_values.
  by destruct (_ !! j).
Qed.

Lemma parseCSV_unfold csv :
  parseCSV csv = imap (parseCSV_row (csv_headers csv)) (csv_data_lines csv).
Proof.
  unfold parseCSV, csv_headers, csv_data_lines, csv_lines.
  by destruct (Str.split "010" (Str.trim csv)).
Qed.

Lemma coerce_empty : coerce "" = VNum (num_of_nat 0).
Proof. unfold coerce. by rewrite Number_empty, isNaN_of_nat. Qed.

(** The value under a header name: that of the last column of that name
    for which the line has a value; without such a column, the property
    is as it was set at the start ([id]) or absent. *)
Lemma parseCSV_row_lookup headers idx line h :
  parseCSV_row headers idx line !! h =
    match written (csv_cell (line_values line)) 0 headers h with
    | Some v => Some v
    | None => if decide (h = "id") then Some (VNum (num_of_nat idx)) else None
    end.
Proof.
  rewrite parseCSV_row_assign, forEach_assign_lookup.
  destruct (written _ _ _ _); [done|]. case_decide as Hh.
  - subst. apply lookup_singleton_eq.
  - by apply lookup_singleton_ne.
Qed.

Lemma written_csv_is_Some values headers h :
  is_Some (written (csv_cell values) 0 headers h)
  ↔ h ∈ filter (λ h, h ≠ "__proto__") (take (length values) headers).
Proof.
  rewrite list_elem_of_filter. split.
  - intros [v Hv]. split.
    { intros ->. by rewrite written_proto in Hv. }
    apply written_Some in Hv as (j & Hj & Hc).
    unfold csv_cell in Hc. simpl in Hc.
    destruct (values !! j) as [w|] eqn:Hw; [|done].
    apply lookup_lt_Some in Hw. apply list_elem_of_lookup. exists j.
    by rewrite lookup_take_lt.
  - intros [Hh Hin]. apply list_elem_of_lookup in Hin as [j Hj].
    destruct (decide (j < length values)) as [Hlt|Hge].
    2:{ rewrite lookup_take_ge in Hj by lia. done. }
    rewrite lookup_take_lt in Hj by done.
    destruct (written (csv_cell values) 0 headers h) as [v|] eqn:Hw; [done|].
    pose proof (written_None _ _ _ _ j Hh Hw Hj) as Hc.
    unfold csv_cell in Hc. simpl in Hc.
    apply lookup_lt_is_Some in Hlt as [w Hw']. by rewrite Hw' in Hc.
Qed.

(** The cell of a column is stored, coerced, under the name of the column
    unless that name is [__proto__] or a later column of that name has a
    value too. *)
Lemma parseCSV_row_cell headers idx line i h v :
  h ≠ "__proto__" →
  headers !! i = Some h →
  line_values line !! i = Some v →
  (∀ j, i < j → j < length (line_values line) → headers !! j ≠ Some h) →
  parseCSV_row headers idx line !! h = Some (coerce v).
Proof.
  intros Hproto Hh Hv Hlast. rewrite parseCSV_row_lookup.
  rewrite (written_last _ 0 _ h i (coerce v)); [done|done|done|..].
  - unfold csv_cell. simpl. by rewrite Hv.
  - intros j Hlt Hj. unfold csv_cell. simpl.
    destruct (line_values line !! j) eqn:Hvj; [|done].
    apply lookup_lt_Some in Hvj. by destruct (Hlast j Hlt Hvj).
Qed.

Lemma parseCSV_lookup csv idx line :
  csv_data_lines csv !! idx = Some line →
  parseCSV csv !! idx = Some (parseCSV_row (csv_headers csv) idx line).
Proof. intros Hline. by rewrite parseCSV_unfold, list_lookup_imap, Hline. Qed.

(** Every data line yields a row: the parser has no error path. *)
Lemma parseCSV_length csv :
  length (parseCSV csv) = length (csv_data_lines csv).
Proof. by rewrite parseCSV_unfold, length_imap. Qed.

(** C8, as amended.  Every data line yields a row, whatever the number
    of its values.  The fields of the row are [id] and the header names,
    other than [__proto__], of the columns for which the line has a
    value: a column beyond the values of the line adds nothing, and
    nothing is padded.  The [id] field is the 0-based index of the line
    unless one of those columns is itself named [id].  A value of the
    line is stored, coerced, under the name of its column unless that
    name is [__proto__], under which nothing is stored, or a later
    column of the same name has a value in the line too: the last such
    column wins. *)
Theorem parseCSV_rows (csv : string) (idx : nat) (line : string) :
  csv_data_lines csv !! idx = Some line →
  ∃ row,
    parseCSV csv !! idx = Some row
    ∧ dom row
      = {[ "id" ]}
        ∪ list_to_set
            (filter (λ h, h ≠ "__proto__")
               (take (length (line_values line)) (csv_headers csv)))
    ∧ ("id" ∉ take (length (line_values line)) (csv_headers csv) →
         row !! "id" = Some (VNum (num_of_nat idx)))
    ∧ (∀ i h v,
         h ≠ "__proto__" →
         csv_headers csv !! i = Some h →
         line_values line !! i = Some v →
         (∀ j, i < j → j < length (line_values line) →
            csv_headers csv !! j ≠ Some h) →
         row !! h = Some (coerce v)).
Proof.
  intros Hline. eexists. split; [by apply parseCSV_lookup|].
  split; [|split; [|by apply parseCSV_row_cell]].
  - apply set_eq. intros h.
    rewrite elem_of_dom, parseCSV_row_lookup, elem_of_union.
    rewrite elem_of_singleton, elem_of_list_to_set.
    rewrite <- written_csv_is_Some.
    destruct (written _ _ _ _) as [v|].
    + split; [right|]; by eexists.
    + case_decide.
      * split; [by left|by eexists].
      * split; [by intros [? [=]]|by intros [?|[? [=]]]].
  - intros Hid. rewrite parseCSV_row_lookup.
    destruct (written _ _ _ _) as [v|] eqn:Hw; [|done].
    exfalso. apply Hid.
    assert (Hin : "id" ∈ filter (λ h, h ≠ "__proto__")
                           (take (length (line_values line))
                              (csv_headers csv)))
      by (apply written_csv_is_Some; by eexists).
    by apply list_elem_of_filter in Hin as [_ ?].
Qed.

Lemma parse_line_assign headers idx line :
  PredictData.parse_line headers idx line =
    forEach_from (assign (test_cell (line_values line))) 0 headers
      {[ "id" := VNum (num_of_nat idx) ]}.
Proof. done. Qed.

Lemma PredictData_testData csv st :
  PredictData.testData (PredictData.handleFileUploaded (Text csv) st) =
    Some (imap (PredictData.parse_line (csv_headers csv)) (csv_data_lines csv)).
Proof.
  unfold PredictData.handleFileUploaded, csv_headers, csv_data_lines, csv_lines.
  simpl. by destruct (Str.split "010" (Str.trim csv)).
Qed.

(** C10, as amended.  A cell that is present and empty after [trim] is
    stored as the number 0 under its header name, by [parseCSV] and by
    the parser of the prediction step alike, when the header is not
    named [__proto__] (under which nothing is stored) and no later
    column overwrites the cell: in [parseCSV] a later column of the same
    name for which the line has a value, in [PredictData] any later
    column of the same name. *)
Theorem empty_cell_is_zero (csv : string) (idx i : nat) (line h : string)
    (st : PredictData.State) :
  h ≠ "__proto__" →
  csv_data_lines csv !! idx = Some line →
  csv_headers csv !! i = Some h →
  line_values line !! i = Some "" →
  ((∀ j, i < j → j < length (line_values line) →
      csv_headers csv !! j ≠ Some h) →
   ∃ row, parseCSV csv !! idx = Some row
          ∧ row !! h = Some (VNum (num_of_nat 0)))
  ∧ ((∀ j, i < j → csv_headers csv !! j ≠ Some h) →
     ∃ rows row,
       PredictData.testData
         (PredictData.handleFileUploaded (Text csv) st) = Some rows
       ∧ rows !! idx = Some row
       ∧ row !! h = Some (VNum (num_of_nat 0))).
Proof.
  intros Hproto Hline Hh Hv. split; intros Hlast.
  - eexists. split; [by apply parseCSV_lookup|].
    rewrite <- coerce_empty. by apply (parseCSV_row_cell _ _ _ i).
  - eexists _, _. split; [apply PredictData_testData|].
    split; [by rewrite list_lookup_imap, Hline|].
    rewrite parse_line_assign, forEach_assign_lookup.
    rewrite (written_last _ 0 _ h i (VNum (num_of_nat 0)));
      [done|done|done|..].
    + unfold test_cell. simpl. rewrite Hv. simpl.
      by rewrite Number_empty, isNaN_of_nat.
    + intros j Hlt Hj. by destruct (Hlast j Hlt).
Qed.

(** ** Task type inference *)


(** The loops of [determineTaskType], one column value at a time. *)
Lemma scan_rows target data (s : list jsval) (c : nat) :
  let column := (λ row, get row target) <$> data in
  fold_left (scan_row target) data (s, c) =
    (foldl (λ s v, Set_add v s) s column,
     c + length (filter (λ v, typeof_number v = true) column)).
Proof.
  revert s c. induction data as [|row data IH]; intros s c.
  { simpl. by rewrite Nat.add_0_r. }
  intros column. subst column. rewrite fmap_cons.
  cbn [fold_left foldl]. unfold scan_row at 2. cbn [fst snd].
  rewrite IH. f_equal.
  destruct (typeof_number (get row target)) eqn:Hn.
  - rewrite filter_cons_True by done. rewrite length_cons. lia.
  - rewrite filter_cons_False by congruence. done.
Qed.

Lemma Set_add_fold (vs s : list jsval) :
  NoDup s →
  NoDup (foldl (λ s v, Set_add v s) s vs)
  ∧ ∀ x, x ∈ foldl (λ s v, Set_add v s) s vs ↔ x ∈ s ∨ x ∈ vs.
Proof.
  revert s. induction vs as [|v vs IH]; intros s Hnd; simpl.
  { split; [done|]. intros x. rewrite elem_of_nil. tauto. }
  assert (Hadd : NoDup (Set_add v s) ∧ ∀ x, x ∈ Set_add v s ↔ x ∈ s ∨ x = v).
  { unfold Set_add. case_decide as Hin.
    - split; [done|]. intros x. split; [tauto|]. by intros [?| ->].
    - split.
      + apply NoDup_app. split; [done|]. split; [|apply NoDup_singleton].
        intros x Hx Hxv. apply list_elem_of_singleton in Hxv. by subst.
      + intros x. by rewrite elem_of_app, list_elem_of_singleton. }
  destruct Hadd as [Hnd' Hel]. destruct (IH _ Hnd') as [IHnd IHel].
  split; [done|]. intros x. rewrite IHel, Hel, elem_of_cons. tauto.
Qed.

(** The size of the [Set] is the number of distinct values. *)
Lemma Set_size (vs : list jsval) :
  length (foldl (λ s v, Set_add v s) [] vs) = length (remove_dups vs).
Proof.
  destruct (Set_add_fold vs []) as [Hnd Hel]; [apply NoDup_nil_2|].
  apply Permutation_length, NoDup_Permutation;
    [done|apply NoDup_remove_dups|].
  intros x. rewrite Hel, elem_of_remove_dups, elem_of_nil. tauto.
Qed.

Lemma determineTaskType_guard target data :
  data = [] ∨ target = "" → determineTaskType target data = None.
Proof.
  unfold determineTaskType. intros [-> | ->]; [done|].
  by rewrite orb_true_r.
Qed.


(** ** Predictions *)

Lemma predict_row_adds props (r : num) (row : gmap string jsval) :
  is_random r →
  prediction_added (PredictData.taskType props) row
    (PredictData.predict_row props r row).
Proof.
  intros Hr. unfold PredictData.predict_row.
  assert (Hgen : ∀ v task,
    match task with
    | regression => ∃ x, v = VNum x
    | classification => ∃ label, label ∈ PredictData.classLabels ∧ v = VStr label
    end →
    prediction_added task row (<[ "prediction" := v ]> row)).
  { intros v task Hv. split; [|split; [|split]].
    - intros k Hk. by rewrite lookup_insert_ne.
    - by rewrite dom_insert_L.
    - apply map_size_insert_None.
    - rewrite lookup_insert_eq.
      destruct task; [destruct Hv as (l & ? & ->)|destruct Hv as [x ->]];
        eauto. }
  destruct (PredictData.taskType props); apply Hgen.
  - pose proof (random_floor r (length PredictData.classLabels) Hr) as Hlt.
    destruct (lookup_lt_is_Some_2 PredictData.classLabels
                (Math_floor (num_mul r
                   (num_of_nat (length PredictData.classLabels)))))
      as [label Hlabel].
    { apply Hlt; [simpl; lia|reflexivity]. }
    exists label. rewrite Hlabel. split; [|done].
    by apply list_elem_of_lookup_2 in Hlabel.
  - by eexists.
Qed.

(** C9, as amended.  When the random draws are results of
    [Math.random()], [handlePredict] returns one row per test row, in
    order; each keeps every field of the test row other than
    [prediction] with its value and holds a [prediction] field, a number
    for regression and one of the labels [Class A], [Class B], [Class C]
    for classification.  The field is one more than the row had when the
    test row had no [prediction] field; a test row that has one gets it
    overwritten. *)
Theorem handlePredict_rows (props : PredictData.PredictDataProps)
    (random : nat → num) (st : PredictData.State)
    (rows : list (gmap string jsval)) :
  (∀ i, is_random (random i)) →
  PredictData.testData st = Some rows →
  ∃ results,
    PredictData.predictedResults (PredictData.handlePredict props random st)
    = Some results
    ∧ length results = length rows
    ∧ ∀ i row, rows !! i = Some row →
        ∃ row', results !! i = Some row'
                ∧ prediction_added (PredictData.taskType props) row row'.
Proof.
  intros Hrandom Hdata. unfold PredictData.handlePredict. rewrite Hdata.
  eexists. split; [done|]. split; [by rewrite length_imap|].
  intros i row Hrow. eexists. split.
  - by rewrite list_lookup_imap, Hrow.
  - by apply predict_row_adds.
Qed.

End Theorems.

(** * Properties of the code around the claims *)

Section MoreTheorems.
Context `{JsNumber}.
Import Utils ModelSelection Index.

(** ** [parseCSV]: rows and cells *)

Lemma split_length (sep : ascii) (s : string) :
  length (Str.split sep s) = S (occurrences sep s).
Proof.
  induction s as [|c s IH]; simpl; [done|].
  destruct (Ascii.eqb c sep); simpl; [by rewrite IH|].
  destruct (Str.split sep s); simpl in *; [done|]. exact IH.
Qed.

Lemma parseCSV_inv csv idx row :
  parseCSV csv !! idx = Some row →
  ∃ line, csv_data_lines csv !! idx = Some line
          ∧ row = parseCSV_row (csv_headers csv) idx line.
Proof.
  rewrite parseCSV_unfold, list_lookup_imap.
  destruct (csv_data_lines csv !! idx) as [line|]; simpl; [|done].
  intros [= <-]. by exists line.
Qed.

(** X1.  [parseCSV] returns one row for every line feed of the trimmed
    text: every line after the header line gives a row, blank lines
    included, and a text without a line feed (the empty text, or a
    header line alone) gives no row. *)
Theorem parseCSV_row_count (csv : string) :
  length (parseCSV csv) = occurrences "010" (Str.trim csv).
Proof.
  rewrite parseCSV_length. unfold csv_data_lines, csv_lines.
  pose proof (split_length "010" (Str.trim csv)) as Hlen.
  destruct (Str.split "010" (Str.trim csv)); simpl in *; lia.
Qed.

Lemma coerce_clean (s : string) : clean_cell (coerce s).
Proof.
  unfold coerce. destruct (isNaN (Number s)) eqn:Hnan; simpl; [|done].
  split; [|done]. intros ->.
  by rewrite Number_empty, isNaN_of_nat in Hnan.
Qed.

(** X2.  No cell of a row of [parseCSV] is [undefined], [NaN] or the
    empty string: every property of every row holds a number other than
    [NaN] or a non-empty string that [Number] does not read. *)
Theorem parseCSV_cells_clean (csv : string) :
  Forall (map_Forall (λ _ v, clean_cell v)) (parseCSV csv).
Proof.
  apply Forall_lookup. intros idx row Hrow h v Hv.
  apply parseCSV_inv in Hrow as (line & _ & ->).
  rewrite parseCSV_row_lookup in Hv.
  destruct (written _ 0 _ h) as [w|] eqn:Hw.
  - injection Hv as <-.
    apply written_Some in Hw as (j & _ & Hcell).
    unfold csv_cell in Hcell.
    destruct (line_values line !! (0 + j)) as [s|]; simpl in Hcell; [|done].
    injection Hcell as <-. apply coerce_clean.
  - destruct (decide (h = "id")); [|done].
    injection Hv as <-. simpl. apply isNaN_of_nat.
Qed.

Lemma forEach_assign_beyond values n headers (row : gmap string jsval) :
  (length values ≤ n)%nat →
  forEach_from (assign (csv_cell values)) n headers row = row.
Proof.
  revert n row.
  induction headers as [|x xs IH]; intros n row Hn; cbn [forEach_from]; [done|].
  rewrite IH by lia. unfold assign, csv_cell.
  by rewrite (lookup_ge_None_2 values n Hn).
Qed.

(** X3.  A blank data line (no comma, nothing but white space) is not
    skipped: it gives a row that holds 0 under the first header name and
    its index under [id], and no other field; when the first header is
    itself named [id], the row is [{ id: 0 }], and when it is named
    [__proto__], under which nothing is stored, the row is
    [{ id: idx }]. *)
Theorem parseCSV_blank_line (csv : string) (idx : nat) (line : string) :
  csv_data_lines csv !! idx = Some line →
  line_values line = [""] →
  ∃ first, head (csv_headers csv) = Some first
    ∧ parseCSV csv !! idx
      = Some (if decide (first = "__proto__")
              then {[ "id" := VNum (num_of_nat idx) ]}
              else <[ first := VNum (num_of_nat 0) ]>
                     {[ "id" := VNum (num_of_nat idx) ]}).
Proof.
  intros Hline Hvalues.
  rewrite (parseCSV_lookup _ _ _ Hline), parseCSV_row_assign, Hvalues.
  unfold csv_headers.
  pose proof (split_nonempty "," (hd "" (csv_lines csv))) as Hne.
  destruct (Str.split "," (hd "" (csv_lines csv))) as [|h0 hs]; [done|].
  exists (Str.trim h0). split; [done|]. f_equal.
  rewrite fmap_cons. simpl.
  rewrite forEach_assign_beyond by (simpl; lia).
  unfold assign, set_property. simpl. rewrite coerce_empty.
  destruct (String.eqb_spec (Str.trim h0) "__proto__") as [Hp|Hp].
  - by rewrite decide_True.
  - by rewrite decide_False.
Qed.

(** ** [determineTaskType]: what decides the result *)

(** The function in terms of its three counts: rows, distinct target
    values and numeric target values. *)
Lemma determineTaskType_counts target (data : list (gmap string jsval)) :
  data ≠ [] → target ≠ "" →
  let column := (λ row, get row target) <$> data in
  determineTaskType target data =
    if (Nat.leb (length (remove_dups column)) 10
        || Qltb (ratio (length (remove_dups column)) (length data)) (5 # 100))%bool
    then Some classification
    else if Qltb (9 # 10)
              (ratio (length (filter (λ v, typeof_number v = true) column))
                 (length data))
    then Some regression
    else Some classification.
Proof.
  intros Hdata Htarget column. unfold determineTaskType.
  assert (Hlen : Nat.eqb (length data) 0 = false).
  { apply Nat.eqb_neq. by destruct data. }
  apply truthy_spec in Htarget. rewrite Hlen, Htarget. simpl.
  pose proof (scan_rows target data [] 0) as Hscan. simpl in Hscan.
  by rewrite Hscan, Set_size.
Qed.

Lemma determineTaskType_is_Some target (data : list (gmap string jsval)) :
  data ≠ [] → target ≠ "" → is_Some (determineTaskType target data).
Proof.
  intros Hdata Htarget. rewrite determineTaskType_counts by done.
  repeat case_match; by eexists.
Qed.

Lemma remove_dups_length {A} `{EqDecision A} (l : list A) :
  (length (remove_dups l) ≤ length l)%nat.
Proof.
  induction l as [|x l IH]; simpl; [done|].
  destruct (decide_rel elem_of x l); simpl; lia.
Qed.

(** X4.  A dataset of at most ten rows is always a classification task:
    whatever the target column holds, numbers included, it cannot have
    more than ten distinct values. *)
Theorem determineTaskType_small_data (target : string)
    (data : list (gmap string jsval)) :
  data ≠ [] → target ≠ "" → (length data ≤ 10)%nat →
  determineTaskType target data = Some classification.
Proof.
  intros Hdata Htarget Hlen. rewrite determineTaskType_counts by done.
  pose proof (remove_dups_length ((λ row, get row target) <$> data)) as Hu.
  rewrite length_fmap in Hu.
  rewrite (proj2 (Nat.leb_le _ 10)) by lia. done.
Qed.

(** X5.  The result does not depend on the order of the rows: two
    datasets with the same rows in a different order get the same task
    type. *)
Theorem determineTaskType_row_order (target : string)
    (data data' : list (gmap string jsval)) :
  data ≡ₚ data' →
  determineTaskType target data = determineTaskType target data'.
Proof.
  intros Hperm.
  destruct (decide (target = "")) as [->|Htarget].
  { by rewrite !determineTaskType_guard by by right. }
  destruct (decide (data = [])) as [->|Hdata].
  { by apply Permutation_nil_l in Hperm as ->. }
  assert (Hdata' : data' ≠ []).
  { intros ->. by apply Permutation_nil_r in Hperm. }
  rewrite !determineTaskType_counts by done.
  assert (Hcol : (λ row, get row target) <$> data
                 ≡ₚ (λ row, get row target) <$> data') by by rewrite Hperm.
  assert (Hu : length (remove_dups ((λ row, get row target) <$> data))
               = length (remove_dups ((λ row, get row target) <$> data'))).
  { apply Permutation_length, NoDup_Permutation;
      [apply NoDup_remove_dups..|].
    intros x. rewrite !elem_of_remove_dups. by rewrite Hcol. }
  rewrite Hu, (Permutation_length Hperm).
  by rewrite (Permutation_length
                (filter_Permutation (λ v, typeof_number v = true) _ _ Hcol)).
Qed.

(** X6.  Only the target column matters: if every row of one dataset
    holds under the target name what the row of the same index of
    another holds there, the two get the same task type. *)
Theorem determineTaskType_other_columns (target : string)
    (data data' : list (gmap string jsval)) :
  (λ row, get row target) <$> data = (λ row, get row target) <$> data' →
  determineTaskType target data = determineTaskType target data'.
Proof.
  intros Hcol.
  assert (Hlen : length data = length data').
  { by rewrite <- (length_fmap (λ row, get row target) data), Hcol,
       length_fmap. }
  destruct (decide (target = "")) as [->|Htarget].
  { by rewrite !determineTaskType_guard by by right. }
  destruct (decide (data = [])) as [->|Hdata].
  { destruct data'; [done|]. done. }
  assert (Hdata' : data' ≠ []) by (intros ->; by destruct data).
  rewrite !determineTaskType_counts by done.
  by rewrite Hcol, Hlen.
Qed.

(** ** [handleModelsSelect] *)

Lemma initialParams_lookup (models : list ModelType)
    (acc : gmap ModelType (gmap string num)) (m : ModelType) :
  fold_left (λ initialParams model,
               <[ model := defaultModelParams model ]> initialParams)
            models acc !! m
  = if decide (m ∈ models) then Some (defaultModelParams m) else acc !! m.
Proof.
  revert acc. induction models as [|x models IH]; intros acc.
  { rewrite decide_False; [done|]. apply not_elem_of_nil. }
  cbn [fold_left]. rewrite IH.
  destruct (decide (m ∈ models)) as [Hin|Hout].
  - rewrite decide_True; [done|]. by right.
  - destruct (decide (m = x)) as [->|Hne].
    + rewrite decide_True by by left. by rewrite lookup_insert_eq.
    + rewrite decide_False by (rewrite elem_of_cons; by intros [?|?]).
      by rewrite lookup_insert_ne.
Qed.

(** X7.  Every change of the model selection resets the parameters:
    afterwards each selected kind has the defaults of the catalogue and
    an unselected kind has no parameters, whatever the parameters were
    before; the results and the trained models are not touched. *)
Theorem handleModelsSelect_params (models : list ModelType) (st : State) :
  let st' := handleModelsSelect models st in
  selectedModels st' = models
  ∧ (∀ m, multiModelParams st' !! m = default_params models m)
  ∧ modelResults st' = modelResults st
  ∧ trainedModel st' = trainedModel st
  ∧ currentStep st' = currentStep st.
Proof.
  simpl. split_and!; try done.
  intros m. unfold handleModelsSelect, default_params. simpl.
  rewrite initialParams_lookup. by rewrite lookup_empty.
Qed.

(** ** [PredictData]: the rows of a test file *)

Lemma written_test_is_Some values i headers h :
  is_Some (written (test_cell values) i headers h)
  ↔ h ∈ filter (λ h, h ≠ "__proto__") headers.
Proof.
  rewrite list_elem_of_filter. split.
  - intros [v Hv]. split.
    { intros ->. by rewrite written_proto in Hv. }
    apply written_Some in Hv as (j & Hj & _).
    by eapply list_elem_of_lookup_2.
  - intros [Hh Hin]. apply list_elem_of_lookup in Hin as [j Hj].
    destruct (written (test_cell values) i headers h) as [v|] eqn:Hw;
      [done|].
    by pose proof (written_None _ _ _ _ j Hh Hw Hj).
Qed.

Lemma test_rows_inv csv st :
  PredictData.testData (PredictData.handleFileUploaded (Text csv) st)
  = Some (imap (λ idx line,
                  forEach_from (assign (test_cell (line_values line))) 0
                    (csv_headers csv) {[ "id" := VNum (num_of_nat idx) ]})
               (csv_data_lines csv)).
Proof.
  rewrite PredictData_testData. reflexivity.
Qed.

(** X8.  The parser of test files gives every row the same fields:
    [id] and each header name other than [__proto__] (under which
    nothing is stored), also in a row whose line is shorter than the
    header line (where [parseCSV] leaves the fields out); and it gives
    one row for each line after the header line. *)
Theorem PredictData_rows_fields (csv : string) (st : PredictData.State) :
  ∃ rows,
    PredictData.testData (PredictData.handleFileUploaded (Text csv) st)
    = Some rows
    ∧ length rows = length (csv_data_lines csv)
    ∧ Forall (λ row,
                dom row
                = {[ "id" ]}
                  ∪ list_to_set
                      (filter (λ h, h ≠ "__proto__") (csv_headers csv)))
        rows.
Proof.
  rewrite test_rows_inv. eexists. split; [done|].
  split; [by rewrite length_imap|].
  apply Forall_lookup. intros idx row. rewrite list_lookup_imap.
  destruct (csv_data_lines csv !! idx) as [line|]; simpl; [|done].
  intros [= <-]. apply set_eq. intros k.
  rewrite elem_of_dom, forEach_assign_lookup, elem_of_union,
    elem_of_singleton, elem_of_list_to_set.
  rewrite <- (written_test_is_Some (line_values line) 0).
  destruct (written (test_cell (line_values line)) 0 (csv_headers csv) k).
  - split; [by right|by eexists].
  - destruct (decide (k = "id")) as [->|Hk].
    + rewrite lookup_singleton_eq. split; [by left|by eexists].
    + rewrite lookup_singleton_ne by done.
      split; [by intros [? ?]|]. by intros [?|[? ?]].
Qed.

(** X9.  A value that a line of a test file lacks is stored as
    [undefined] under the header of its column, not left out and not
    read as 0, when the header is not named [__proto__] (under which
    nothing is stored) and no later column has the same name. *)
Theorem PredictData_missing_value (csv : string) (idx i : nat)
    (line h : string) (st : PredictData.State) :
  h ≠ "__proto__" →
  csv_data_lines csv !! idx = Some line →
  csv_headers csv !! i = Some h →
  line_values line !! i = None →
  (∀ j, i < j → csv_headers csv !! j ≠ Some h) →
  ∃ rows row,
    PredictData.testData (PredictData.handleFileUploaded (Text csv) st)
    = Some rows
    ∧ rows !! idx = Some row
    ∧ row !! h = Some VUndef.
Proof.
  intros Hproto Hline Hh Hnone Hlast. rewrite test_rows_inv.
  eexists _, _. split; [done|]. rewrite list_lookup_imap, Hline. simpl.
  split; [done|]. rewrite forEach_assign_lookup.
  rewrite (written_last _ 0 _ h i VUndef); [done|done|done| |].
  - unfold test_cell. simpl. rewrite Hnone. simpl. by rewrite isNaN_NaN.
  - intros j Hj Hj'. by destruct (Hlast j Hj).
Qed.

(** ** The check boxes: models and features *)

Lemma filter_snoc_other {A} `{EqDecision A} (l : list A) (x : A) :
  x ∉ l → filter (λ y, y ≠ x) (l ++ [x])%list = l.
Proof.
  intros Hx. rewrite filter_app, filter_cons_False, filter_nil, app_nil_r
    by (intros Hne; by apply Hne).
  apply filter_all, Forall_forall. intros y Hy ->. done.
Qed.

Lemma toggleModel_selectedModels t m (st : State) :
  selectedModels (IndexView.toggleModel t m st) =
    if decide (m ∈ selectedModels st)
    then filter (λ m', m' ≠ m) (selectedModels st)
    else (selectedModels st ++ [m])%list.
Proof.
  unfold IndexView.toggleModel, MultiModelSelection.handleModelToggle. simpl.
  destruct (decide (m ∈ selectedModels st)) as [Hin|Hout].
  - by rewrite bool_decide_eq_true_2.
  - by rewrite bool_decide_eq_false_2.
Qed.

Lemma toggleModel_params t m (st : State) m' :
  multiModelParams (IndexView.toggleModel t m st) !! m'
  = default_params (selectedModels (IndexView.toggleModel t m st)) m'.
Proof.
  unfold IndexView.toggleModel, MultiModelSelection.handleModelToggle. simpl.
  unfold default_params.
  destruct (bool_decide (m ∈ selectedModels st));
    unfold handleModelsSelect; simpl;
    by rewrite initialParams_lookup, lookup_empty.
Qed.

(** X10.  A click on the check box of a model kind flips that kind and
    no other: it is selected afterwards exactly when it was not before,
    every other kind keeps its state, and the list stays free of
    repetitions. *)
Theorem toggleModel_flips (t : TaskType) (m : ModelType) (st : State) :
  NoDup (selectedModels st) →
  let st' := IndexView.toggleModel t m st in
  NoDup (selectedModels st')
  ∧ (m ∈ selectedModels st' ↔ m ∉ selectedModels st)
  ∧ ∀ m', m' ≠ m → (m' ∈ selectedModels st' ↔ m' ∈ selectedModels st).
Proof.
  intros Hnd st'. subst st'. rewrite toggleModel_selectedModels.
  destruct (decide (m ∈ selectedModels st)) as [Hin|Hout].
  - split; [by apply NoDup_filter|]. split.
    + rewrite list_elem_of_filter. split; [by intros [? _]|done].
    + intros m' Hne. rewrite list_elem_of_filter. tauto.
  - split.
    { apply NoDup_app. split; [done|]. split; [|apply NoDup_singleton].
      intros x Hx Hxm. apply list_elem_of_singleton in Hxm. by subst. }
    split.
    + rewrite elem_of_app, list_elem_of_singleton. split; [done|by right].
    + intros m' Hne. rewrite elem_of_app, list_elem_of_singleton. tauto.
Qed.

(** X11.  Ticking a model kind that was not selected and unticking it
    again gives back the selection as it was, in the same order, with
    the default parameters for each kind of it. *)
Theorem toggleModel_twice (t : TaskType) (m : ModelType) (st : State) :
  m ∉ selectedModels st →
  let st' := IndexView.toggleModel t m (IndexView.toggleModel t m st) in
  selectedModels st' = selectedModels st
  ∧ ∀ m', multiModelParams st' !! m' = default_params (selectedModels st) m'.
Proof.
  intros Hout st'. subst st'.
  assert (Hsel : selectedModels
                   (IndexView.toggleModel t m (IndexView.toggleModel t m st))
                 = selectedModels st).
  { rewrite toggleModel_selectedModels, toggleModel_selectedModels.
    rewrite (decide_False (P := m ∈ selectedModels st)) by done.
    rewrite decide_True
      by (rewrite elem_of_app, list_elem_of_singleton; by right).
    by apply filter_snoc_other. }
  split; [done|]. intros m'. by rewrite toggleModel_params, Hsel.
Qed.

Lemma setSelectedFeatures_same (st : State) :
  setSelectedFeatures (selectedFeatures st) st = st.
Proof. by destruct st. Qed.

(** X12.  Selecting a column as feature and clicking its box again
    restores the whole state: for a column that is neither the target
    nor a feature, two clicks on the feature box are a round trip. *)
Theorem toggleFeature_twice (c : string) (st : State) :
  c ≠ selectedTarget st → c ∉ selectedFeatures st →
  toggleFeature c (toggleFeature c st) = st.
Proof.
  intros Htarget Hout.
  assert (Hno : Str.includes c (selectedFeatures st) = false).
  { destruct (Str.includes c (selectedFeatures st)) eqn:Hinc; [|done].
    by apply includes_spec in Hinc. }
  rewrite (toggleFeature_other c st) by done. rewrite Hno.
  rewrite toggleFeature_other by done. simpl.
  assert (Hyes : Str.includes c (selectedFeatures st ++ [c]) = true).
  { apply includes_spec. rewrite elem_of_app, list_elem_of_singleton.
    by right. }
  rewrite Hyes, filter_snoc_other by done.
  by destruct st.
Qed.

(** ** The states of a session *)

Import IndexView.

Ltac unfold_handlers :=
  unfold handle, stepperClick, Stepper.handleClick, toggleModel,
    MultiModelSelection.handleModelToggle, toggleFeature, setTarget,
    DataTable.handleFeatureClick, DataTable.handleTargetClick,
    navigateToStep, handleFileUploaded, uploadDifferentFile,
    handleModelsSelect, handleTargetSelected, handleFeaturesSelected,
    handleTrainingCompleteMulti; simpl;
  unfold handleModelsSelect, handleTargetSelected, handleFeaturesSelected;
  simpl.

Ltac split_cases :=
  repeat (simpl;
          match goal with
          | |- context [match ?x with _ => _ end] => destruct x eqn:?
          end);
  simpl.

(** A sequence of events that the page offers one after the other
    leads to a state of a session. *)
Lemma reachable_run (events : list Event) (st : State) :
  reachable st → offered events st = true → reachable (run events st).
Proof.
  revert st.
  induction events as [|event events IH]; intros st Hreach Hoff; [done|].
  simpl in Hoff. apply andb_prop in Hoff as [Hen Hoff].
  apply (IH (handle event st)); [by apply reachable_event|done].
Qed.

(** No handler that the page calls writes the cells of the single-model
    flow. *)
Lemma reachable_single_model_cells (st : State) :
  reachable st → single_model_cells_unset st.
Proof.
  unfold single_model_cells_unset.
  induction 1 as [|event st _ IH _|render info m st _ _ _ _ IH].
  - done.
  - destruct event; unfold_handlers; split_cases; exact IH.
  - unfold_handlers. split_cases; exact IH.
Qed.

(** X13.  In no state of a session does a click on the fourth or fifth
    button of the stepper (Evaluate, Predict) change anything: the
    stepper marks the evaluate step completed only when [modelMetrics]
    is set, which no handler of the page does, and never marks the
    predict step. *)
Theorem stepper_never_enters_evaluate (st : State) (i : nat) :
  reachable st → (3 ≤ i)%nat → stepperClick i st = st.
Proof.
  intros Hreach Hi.
  destruct (reachable_single_model_cells st Hreach) as (_ & _ & Hmetrics & _).
  unfold stepperClick, Stepper.handleClick.
  destruct i as [|[|[|[|[|i]]]]]; try lia; simpl; [|done..].
  rewrite Hmetrics. by rewrite bool_decide_eq_false_2 by by intros [? ?].
Qed.

Lemma setTarget_target (c : string) (st : State) :
  selectedTarget (setTarget c st) = if decide (c = selectedTarget st) then "" else c.
Proof.
  case_decide as Hc.
  - subst c. by rewrite setTarget_same, handleTargetSelected_target.
  - by rewrite setTarget_other, handleTargetSelected_target.
Qed.

Lemma setTarget_selectedFeatures (c : string) (st : State) :
  selectedFeatures (setTarget c st) =
    if decide (c = selectedTarget st) then selectedFeatures st
    else filter (λ f, f ≠ c) (selectedFeatures st).
Proof.
  case_decide as Hc.
  - subst c. by rewrite setTarget_same, handleTargetSelected_features.
  - by apply setTarget_features.
Qed.

Lemma toggleFeature_selectedFeatures (c : string) (st : State) :
  selectedFeatures (toggleFeature c st) =
    if decide (c = selectedTarget st) then selectedFeatures st
    else if decide (c ∈ selectedFeatures st)
         then filter (λ f, f ≠ c) (selectedFeatures st)
         else (selectedFeatures st ++ [c])%list.
Proof.
  case_decide as Hc.
  - subst c. by rewrite toggleFeature_target.
  - rewrite toggleFeature_other by done. simpl.
    destruct (Str.includes c (selectedFeatures st)) eqn:Hinc.
    + apply includes_spec in Hinc. by rewrite decide_True.
    + rewrite decide_False; [done|]. intros Hin.
      apply includes_spec in Hin. congruence.
Qed.

Lemma toggleFeature_selectedTarget (c : string) (st : State) :
  selectedTarget (toggleFeature c st) = selectedTarget st.
Proof.
  destruct (decide (c = selectedTarget st)) as [->|Hc].
  - by rewrite toggleFeature_target.
  - by rewrite toggleFeature_other.
Qed.

(** X14.  In every state of a session the feature list has no
    repetition and does not hold the target column: the box of the
    target is disabled, setting a target removes it from the features,
    and a new file clears both. *)
Theorem reachable_selection (st : State) :
  reachable st → NoDup (selectedFeatures st) ∧ selection_ok st.
Proof.
  unfold selection_ok.
  induction 1 as [|event st _ IH Hen|render info m st _ _ _ _ IH].
  - split; [apply NoDup_nil_2|done].
  - destruct IH as [Hnd Hok].
    destruct event as [[content|bytes]| | |i|c|c|m];
      try (unfold_handlers; split_cases; by split).
    + simpl. split; [apply NoDup_nil_2|done].
    + simpl. rewrite toggleFeature_selectedFeatures,
        toggleFeature_selectedTarget.
      destruct (decide (c = selectedTarget st)) as [->|Hc]; [done|].
      destruct (decide (c ∈ selectedFeatures st)) as [Hin|Hout].
      * split; [by apply NoDup_filter|]. intros Ht.
        rewrite list_elem_of_filter. intros [_ ?]. by apply Hok.
      * split.
        { apply NoDup_app. split; [done|]. split; [|apply NoDup_singleton].
          intros x Hx Hxc. apply list_elem_of_singleton in Hxc. by subst. }
        intros Ht. rewrite elem_of_app, list_elem_of_singleton.
        intros [?|?]; [by apply Hok|done].
    + simpl. rewrite setTarget_selectedFeatures, setTarget_target.
      destruct (decide (c = selectedTarget st)) as [->|Hc]; [done|].
      split; [by apply NoDup_filter|]. intros _.
      rewrite list_elem_of_filter. by intros [? _].
  - unfold_handlers. split_cases; exact IH.
Qed.

Lemma toggleFeature_data (c : string) (st : State) :
  data (toggleFeature c st) = data st.
Proof. unfold_handlers. split_cases; done. Qed.

Lemma setTarget_data (c : string) (st : State) :
  data (setTarget c st) = data st.
Proof. unfold_handlers. split_cases; done. Qed.

(** The buttons that move between the steps and the check boxes of the
    models leave the dataset and the selection alone, and so does a
    completed training. *)
Lemma handle_keeps_selection event (st : State) :
  match event with
  | Next | StepClick _ | ModelToggle _ => True
  | _ => False
  end →
  keeps_selection st (handle event st).
Proof.
  unfold keeps_selection.
  destruct event; try done; intros _; unfold_handlers; split_cases; done.
Qed.

Lemma completion_keeps_selection render info m (st : State) :
  keeps_selection st (handleTrainingCompleteMulti render info m st).
Proof. unfold keeps_selection. unfold_handlers. split_cases; done. Qed.

Lemma keeps_selection_columns (st st' : State) :
  keeps_selection st st' → columns st' = columns st.
Proof. intros (Hdata & _). unfold columns. by rewrite Hdata. Qed.

(** X15.  While a dataset is loaded, the selected features and the
    target are columns of its table (property names of its first row):
    a selection made on an earlier file does not survive the load of
    another one. *)
Theorem reachable_selection_columns (st : State) :
  reachable st → is_Some (data st) →
  (∀ f, f ∈ selectedFeatures st → f ∈ columns st)
  ∧ (selectedTarget st ≠ "" → selectedTarget st ∈ columns st).
Proof.
  assert (Hkeep : ∀ st st' : State, keeps_selection st st' →
            (is_Some (data st) →
             (∀ f, f ∈ selectedFeatures st → f ∈ columns st)
             ∧ (selectedTarget st ≠ "" → selectedTarget st ∈ columns st)) →
            is_Some (data st') →
            (∀ f, f ∈ selectedFeatures st' → f ∈ columns st')
            ∧ (selectedTarget st' ≠ "" → selectedTarget st' ∈ columns st')).
  { intros st0 st' Hk. rewrite (keeps_selection_columns _ _ Hk).
    destruct Hk as (-> & -> & -> & _). done. }
  induction 1 as [|event st _ IH Hen|render info m st _ _ _ _ IH].
  - by intros [? ?].
  - destruct event as [[content|bytes]| | |i|c|c|m];
      try (by apply (Hkeep st), IH; apply handle_keeps_selection).
    + intros _. simpl. split; [|done]. intros f. by rewrite elem_of_nil.
    + exact IH.
    + simpl. by intros [? ?].
    + simpl in Hen. apply andb_prop in Hen as [Hen Hne].
      apply andb_prop in Hen as [_ Hcol].
      apply bool_decide_eq_true_1 in Hcol.
      simpl. unfold columns in *.
      rewrite toggleFeature_data, toggleFeature_selectedFeatures,
        toggleFeature_selectedTarget.
      intros Hdata. destruct (IH Hdata) as [Hfeat Htarget].
      split; [|done]. intros f.
      destruct (decide (c = selectedTarget st)); [by apply Hfeat|].
      destruct (decide (c ∈ selectedFeatures st)).
      * rewrite list_elem_of_filter. intros [_ ?]. by apply Hfeat.
      * rewrite elem_of_app, list_elem_of_singleton.
        intros [?| ->]; [by apply Hfeat|done].
    + simpl in Hen. apply andb_prop in Hen as [_ Hcol].
      apply bool_decide_eq_true_1 in Hcol.
      simpl. unfold columns in *.
      rewrite setTarget_data, setTarget_selectedFeatures, setTarget_target.
      intros Hdata. destruct (IH Hdata) as [Hfeat Htarget].
      destruct (decide (c = selectedTarget st)); [by split|].
      split; [|done]. intros f. rewrite list_elem_of_filter.
      intros [_ ?]. by apply Hfeat.
  - by apply (Hkeep st), IH; apply completion_keeps_selection.
Qed.

(** ** The task type of a session *)

Lemma toggleFeature_taskType (c : string) (st : State) :
  taskType (toggleFeature c st) = taskType st.
Proof. unfold_handlers. split_cases; done. Qed.

Lemma setTarget_taskType (c : string) (st : State) d :
  c ≠ selectedTarget st → c ≠ "" → data st = Some d →
  taskType (setTarget c st) = determineTaskType c d.
Proof.
  intros Hc Hne Hd. rewrite setTarget_other by done.
  apply truthy_spec in Hne. unfold handleTargetSelected.
  destruct (Str.includes c (selectedFeatures st)); simpl;
    by rewrite Hd, Hne.
Qed.

Lemma columns_data (st : State) c :
  c ∈ columns st → ∃ d, data st = Some d ∧ d ≠ [].
Proof.
  unfold columns. destruct (data st) as [[|row d]|]; [done| |done].
  intros _. by eexists.
Qed.

(** A set target has a task type, with or without a dataset. *)
Lemma reachable_taskType_set (st : State) :
  reachable st → selectedTarget st ≠ "" → is_Some (taskType st).
Proof.
  induction 1 as [|event st _ IH Hen|render info m st _ _ _ _ IH].
  - done.
  - destruct event as [[content|bytes]| | |i|c|c|m];
      try (match goal with
           | |- context [handle ?e st] =>
               destruct (handle_keeps_selection e st I) as (_ & _ & -> & ->)
           end; exact IH);
      try exact IH; try done.
    + simpl. by rewrite toggleFeature_selectedTarget, toggleFeature_taskType.
    + simpl in Hen. apply andb_prop in Hen as [_ Hcol].
      apply bool_decide_eq_true_1, columns_data in Hcol as (d & Hd & Hne).
      simpl. rewrite setTarget_target.
      destruct (decide (c = selectedTarget st)) as [->|Hc]; [done|].
      intros Hc'. rewrite (setTarget_taskType c st d) by done.
      by apply determineTaskType_is_Some.
  - by destruct (completion_keeps_selection render info m st)
      as (_ & _ & -> & ->).
Qed.

(** X16.  While a dataset is loaded and a target is set, the task type
    of the session is the one [determineTaskType] gives for that target
    on that dataset: it is never left over from another target or
    another file. *)
Theorem reachable_taskType (st : State) (d : list (gmap string jsval)) :
  reachable st → data st = Some d → selectedTarget st ≠ "" →
  taskType st = determineTaskType (selectedTarget st) d.
Proof.
  intros Hreach. revert d.
  induction Hreach as [|event st _ IH Hen|render info m st _ _ _ _ IH];
    intros d.
  - done.
  - destruct event as [[content|bytes]| | |i|c|c|m];
      try (match goal with
           | |- context [handle ?e st] =>
               destruct (handle_keeps_selection e st I) as (-> & _ & -> & ->)
           end; by apply IH);
      try (by apply IH); try done.
    + simpl. rewrite toggleFeature_data, toggleFeature_selectedTarget,
        toggleFeature_taskType. by apply IH.
    + simpl. rewrite setTarget_data, setTarget_target.
      destruct (decide (c = selectedTarget st)) as [->|Hc]; [done|].
      intros Hd Hc'. by apply setTarget_taskType.
  - destruct (completion_keeps_selection render info m st)
      as (-> & _ & -> & ->). by apply IH.
Qed.

(** X17.  Whenever the button "Next: Train Model" of the select step is
    enabled, pressing it enters the train step with a task type set, so
    the list of models is rendered; the selection stays as it is. *)
Theorem next_enters_train (st : State) :
  reachable st → currentStep st = select → enabled Next st = true →
  currentStep (handle Next st) = train
  ∧ is_Some (taskType (handle Next st))
  ∧ keeps_selection st (handle Next st).
Proof.
  intros Hreach Hstep Hen.
  pose proof (handle_keeps_selection Next st I) as Hkeep.
  split_and!; [| |done].
  - revert Hen. simpl. rewrite Hstep. unfold navigateToStep. simpl.
    intros Hen. apply andb_prop in Hen as [_ Hen].
    apply negb_true_iff, orb_false_elim in Hen as [Hlen Htarget].
    apply negb_false_iff in Htarget. rewrite Htarget.
    destruct (selectedFeatures st); [done|]. done.
  - destruct Hkeep as (_ & _ & Htarget & ->).
    apply (reachable_taskType_set st Hreach).
    revert Hen. simpl. rewrite Hstep. intros Hen.
    apply andb_prop in Hen as [_ Hen].
    apply negb_true_iff, orb_false_elim in Hen as [_ Ht].
    apply negb_false_iff in Ht. by apply truthy_spec.
Qed.

(** The two ways to move between the steps, the Next buttons and the
    stepper, both go through [navigateToStep]. *)
Lemma handle_navigation event (st : State) :
  match event with Next | StepClick _ => True | _ => False end →
  handle event st = st ∨ ∃ step, handle event st = navigateToStep step st.
Proof.
  destruct event as [| | |i| | |]; try done; intros _; simpl.
  - destruct (currentStep st); eauto.
  - unfold stepperClick, Stepper.handleClick.
    destruct (steps st !! i) as [step|]; [|by left].
    destruct (Stepper.completed step); eauto.
Qed.

Lemma navigateToStep_select_data step (st : State) :
  (currentStep st = select → is_Some (data st)) →
  currentStep (navigateToStep step st) = select →
  is_Some (data (navigateToStep step st)).
Proof.
  unfold navigateToStep. destruct (canEnter step st) eqn:Hc; [|done].
  simpl. intros _ ->. simpl in Hc. by apply bool_decide_eq_true_1 in Hc.
Qed.

(** X18.  The select step is only ever shown with a dataset loaded: the
    table of the step always has its data. *)
Theorem select_step_has_data (st : State) :
  reachable st → currentStep st = select → is_Some (data st).
Proof.
  induction 1 as [|event st _ IH Hen|render info m st _ _ _ _ IH].
  - done.
  - destruct event as [[content|bytes]| | |i|c|c|m].
    + by eexists.
    + exact IH.
    + simpl in Hen. apply andb_prop in Hen as [Hstep _].
      apply bool_decide_eq_true_1 in Hstep. simpl. congruence.
    + destruct (handle_navigation Next st I) as [->|[step ->]];
        [done|by apply navigateToStep_select_data].
    + destruct (handle_navigation (StepClick i) st I) as [->|[step ->]];
        [done|by apply navigateToStep_select_data].
    + simpl. rewrite toggleFeature_data. intros _.
      simpl in Hen. apply andb_prop in Hen as [Hen _].
      apply andb_prop in Hen as [Hstep _].
      apply bool_decide_eq_true_1 in Hstep. by apply IH.
    + simpl. rewrite setTarget_data. intros _.
      simpl in Hen. apply andb_prop in Hen as [Hstep _].
      apply bool_decide_eq_true_1 in Hstep. by apply IH.
    + simpl in Hen. apply andb_prop in Hen as [Hstep _].
      apply bool_decide_eq_true_1 in Hstep.
      revert IH. unfold_handlers. split_cases; congruence.
  - revert IH. unfold_handlers. split_cases; try done.
Qed.

(** ** Training results of a session *)

(** Only a completed training writes the results and the trained
    models; only the check boxes of the models write the model
    selection. *)
Lemma handle_keeps_results event (st : State) :
  keeps_results st (handle event st).
Proof.
  unfold keeps_results.
  destruct event; unfold_handlers; split_cases; done.
Qed.

Lemma handle_keeps_models event (st : State) :
  match event with ModelToggle _ => False | _ => True end →
  keeps_models st (handle event st).
Proof.
  unfold keeps_models.
  destruct event; try done; intros _; unfold_handlers; split_cases; done.
Qed.

Lemma completion_keeps_models render info m (st : State) :
  keeps_models st (handleTrainingCompleteMulti render info m st).
Proof. unfold keeps_models. unfold_handlers. split_cases; done. Qed.

Lemma handleTrainingCompleteMulti_trainedModel render info m (st : State) :
  trainedModel (handleTrainingCompleteMulti render info m st)
  = Some (<[ m := {| tm_type := m;
                     tm_params := multiModelParams render !! m |} ]>
            (default ∅ (trainedModel st))).
Proof. unfold_handlers. split_cases; done. Qed.

Lemma navigateToStep_results step (st : State) :
  (currentStep st = evaluate ∨ currentStep st = predict →
   is_Some (trainedModel st)) →
  currentStep (navigateToStep step st) = evaluate
  ∨ currentStep (navigateToStep step st) = predict →
  is_Some (trainedModel st).
Proof.
  unfold navigateToStep. destruct (canEnter step st) eqn:Hc; [|done].
  simpl. intros _ [-> | ->]; simpl in Hc; by apply bool_decide_eq_true_1 in Hc.
Qed.

(** X19.  In every state of a session the trained models and the
    results are kept for the same model kinds, and the evaluate and the
    predict step are only ever shown when at least one training has
    completed. *)
Theorem reachable_results (st : State) :
  reachable st →
  dom (default ∅ (trainedModel st)) = dom (modelResults st)
  ∧ (is_Some (trainedModel st) ↔ modelResults st ≠ ∅)
  ∧ (currentStep st = evaluate ∨ currentStep st = predict →
     is_Some (trainedModel st)).
Proof.
  induction 1 as [|event st _ IH Hen|render info m st _ _ _ _ IH].
  - simpl. split; [by rewrite !dom_empty_L|]. split; [|by intros [?|?]].
    split; [by intros [? ?]|done].
  - destruct IH as (Hdom & Hsome & Hstep).
    destruct (handle_keeps_results event st) as [Htm Hres].
    rewrite Htm, Hres. split_and!; [done..|].
    destruct event as [[content|bytes]| | |i|c|c|m'];
      try (revert Hstep; unfold_handlers; split_cases; done).
    + destruct (handle_navigation Next st I) as [->|[step ->]];
        [done|by apply navigateToStep_results].
    + destruct (handle_navigation (StepClick i) st I) as [->|[step ->]];
        [done|by apply navigateToStep_results].
  - destruct IH as (Hdom & _ & _).
    rewrite handleTrainingCompleteMulti_trainedModel,
      handleTrainingCompleteMulti_results. simpl.
    split_and!.
    + by rewrite !dom_insert_L, Hdom.
    + split; [|by eexists]. intros _. apply insert_non_empty.
    + by eexists.
Qed.

Lemma toggleModel_NoDup t m (st : State) :
  NoDup (selectedModels st) → NoDup (selectedModels (toggleModel t m st)).
Proof.
  intros Hnd. rewrite toggleModel_selectedModels.
  case_decide; [by apply NoDup_filter|].
  apply NoDup_app. split; [done|]. split; [|apply NoDup_singleton].
  intros x Hx Hxm. apply list_elem_of_singleton in Hxm. by subst.
Qed.

(** X20.  The parameters of a training are always the defaults of the
    catalogue: in every state of a session the selected kinds are
    listed once each, every selected kind has its default parameters
    and no other kind has any, and every trained model is recorded under
    its own kind with the default parameters of that kind. *)
Theorem reachable_default_params (st : State) :
  reachable st →
  NoDup (selectedModels st)
  ∧ (∀ m, multiModelParams st !! m = default_params (selectedModels st) m)
  ∧ ∀ m tm, default ∅ (trainedModel st) !! m = Some tm → tm = default_entry m.
Proof.
  induction 1 as [|event st _ IH Hen|render info m st _ IHr Hcard _ IH].
  - split; [apply NoDup_nil_2|]. split; [|done].
    intros m. unfold default_params.
    destruct (decide _) as [Hin|]; [|done]. by apply elem_of_nil in Hin.
  - destruct IH as (Hnd & Hparams & Htm).
    destruct (handle_keeps_results event st) as [-> _].
    split_and!; [| |done];
      destruct event as [[content|bytes]| | |i|c|c|m'];
      try (match goal with
           | |- context [handle ?e st] =>
               destruct (handle_keeps_models e st I) as (Hsel & Hmp);
               rewrite ?Hsel, ?Hmp
           end; done).
    + simpl. destruct (taskType st); [by apply toggleModel_NoDup|done].
    + simpl. destruct (taskType st); [|done]. intros m.
      apply toggleModel_params.
  - destruct IH as (Hnd & Hparams & Htm).
    destruct (completion_keeps_models render info m st) as (-> & ->).
    split_and!; [done..|].
    rewrite handleTrainingCompleteMulti_trainedModel. simpl.
    intros m' tm. destruct (decide (m' = m)) as [->|Hne].
    + rewrite lookup_insert_eq. intros [= <-].
      destruct IHr as (_ & Hrender & _). rewrite Hrender.
      unfold training_card in Hcard. apply andb_prop in Hcard as [_ Hin].
      apply bool_decide_eq_true_1 in Hin.
      unfold default_params. by rewrite decide_True.
    + rewrite lookup_insert_ne by done. apply Htm.
Qed.

(** ** The pages of the table *)

Lemma ceiling_tenth (n : Z) : (- ((- n) / 10) = (n + 9) / 10)%Z.
Proof. Z.div_mod_to_equations. lia. Qed.

Lemma totalPages_quotient {A} (data : list A) :
  DataTableView.totalPages data = (length data + 9) / 10.
Proof.
  unfold DataTableView.totalPages, DataTableView.Math_ceil, ratio.
  change (Z.of_nat DataTableView.rowsPerPage) with 10%Z.
  unfold Qceiling, Qfloor, Qdiv, Qmult, Qinv, Qopp, inject_Z.
  cbn [Qnum Qden].
  change (Z.pos (1 * 10)) with 10%Z. rewrite Z.mul_1_r, ceiling_tenth.
  change 10%Z with (Z.of_nat 10). change 9%Z with (Z.of_nat 9).
  by rewrite <- Nat2Z.inj_add, <- Nat2Z.inj_div, Nat2Z.id.
Qed.

Lemma currentRows_take_drop {A} (p : nat) (data : list A) :
  (1 ≤ p)%nat →
  DataTableView.currentRows p data = take 10 (drop ((p - 1) * 10) data).
Proof.
  intros Hp.
  unfold DataTableView.currentRows, DataTableView.slice,
    DataTableView.endRow, DataTableView.startRow, DataTableView.rowsPerPage.
  set (s := (p - 1) * 10).
  replace ((Z.of_nat p - 1) * Z.of_nat 10)%Z with (Z.of_nat s) by lia.
  destruct (Z.ltb_spec (Z.of_nat s) 0); [lia|].
  destruct (Z.ltb_spec
              (Z.min (Z.of_nat s + Z.of_nat 10) (Z.of_nat (length data))) 0);
    [lia|].
  destruct (decide (s + 10 ≤ length data)%nat) as [Hle|Hgt].
  - replace (Z.to_nat _) with 10 by lia.
    replace (Z.to_nat _) with s by lia. done.
  - destruct (decide (s ≤ length data)%nat) as [Hs|Hs].
    + replace (Z.to_nat (Z.min (Z.of_nat s) _)) with s by lia.
      rewrite !take_ge; [done|rewrite length_drop; lia..].
    + rewrite !drop_ge by lia. by rewrite !take_nil.
Qed.

(** Before the first page nothing is shown. *)
Lemma currentRows_0 {A} (data : list A) :
  DataTableView.currentRows 0 data = [].
Proof.
  unfold DataTableView.currentRows, DataTableView.slice,
    DataTableView.endRow, DataTableView.startRow, DataTableView.rowsPerPage.
  change ((Z.of_nat 0 - 1) * Z.of_nat 10)%Z with (-10)%Z.
  change (-10 <? 0)%Z with true. cbn iota.
  assert (Hend : Z.min (-10 + Z.of_nat 10) (Z.of_nat (length data)) = 0%Z)
    by lia.
  rewrite Hend. change (0 <? 0)%Z with false. cbn iota.
  replace (Z.to_nat _) with 0 by lia. done.
Qed.

Lemma pages_take {A} (k : nat) (data : list A) :
  concat ((λ p, DataTableView.currentRows p data) <$> seq 1 k)
  = take (k * 10) data.
Proof.
  induction k as [|k IH]; [done|].
  rewrite seq_S, fmap_app, concat_app, IH.
  cbn [fmap list_fmap concat Nat.add].
  rewrite app_nil_r, currentRows_take_drop by lia.
  replace (S k - 1) with k by lia. rewrite take_take_drop.
  f_equal. lia.
Qed.

(** X21.  The pages of the table partition the rows: the rows shown on
    the pages 1 to [totalPages], one page after the other, are the rows
    of the data, each once and in order. *)
Theorem pages_cover_data {A} (data : list A) :
  concat ((λ p, DataTableView.currentRows p data)
          <$> seq 1 (DataTableView.totalPages data))
  = data.
Proof.
  rewrite pages_take, totalPages_quotient. apply take_ge.
  pose proof (Nat.div_mod_eq (length data + 9) 10) as Hdiv.
  pose proof (Nat.mod_upper_bound (length data + 9) 10). lia.
Qed.

(** X22.  From page 1 on, the [i]-th row of page [p] is row
    [(p - 1) * 10 + i] of the data for [i] below 10, and a page has no
    further row. *)
Theorem currentRows_lookup {A} (p i : nat) (data : list A) :
  (1 ≤ p)%nat →
  DataTableView.currentRows p data !! i =
    if decide (i < 10)%nat then data !! ((p - 1) * 10 + i) else None.
Proof.
  intros Hp. rewrite currentRows_take_drop by done. case_decide as Hi.
  - by rewrite lookup_take_lt, lookup_drop by done.
  - apply lookup_take_ge. lia.
Qed.

Lemma page_in_range_rows {A} (p : nat) (data : list A) :
  (1 ≤ p ≤ DataTableView.totalPages data)%nat →
  DataTableView.currentRows p data ≠ [].
Proof.
  rewrite totalPages_quotient. intros [Hp Hmax] Hnil.
  rewrite currentRows_take_drop in Hnil by done.
  apply (f_equal length) in Hnil. rewrite length_take, length_drop in Hnil.
  cbn [length] in Hnil.
  pose proof (Nat.div_mod_eq (length data + 9) 10) as Hdiv.
  pose proof (Nat.mod_upper_bound (length data + 9) 10) as Hmod.
  set (q := (length data + 9) / 10) in *.
  set (r := (length data + 9) mod 10) in *. lia.
Qed.

Lemma click_in_range {A} (button : DataTableView.PageButton) (p : nat)
    (data : list A) :
  (1 ≤ p ≤ DataTableView.totalPages data)%nat →
  (1 ≤ DataTableView.click button data p ≤ DataTableView.totalPages data)%nat.
Proof.
  intros Hp. unfold DataTableView.click, DataTableView.button_disabled.
  destruct button.
  - destruct (Nat.eqb_spec p 1); lia.
  - destruct (Nat.eqb_spec p 1); lia.
  - destruct (Nat.eqb_spec p (DataTableView.totalPages data)); lia.
  - destruct (Nat.eqb_spec p (DataTableView.totalPages data)); lia.
Qed.

Lemma clicks_in_range {A} (buttons : list DataTableView.PageButton)
    (p : nat) (data : list A) :
  (1 ≤ p ≤ DataTableView.totalPages data)%nat →
  (1 ≤ foldl (λ p button, DataTableView.click button data p) p buttons
   ≤ DataTableView.totalPages data)%nat.
Proof.
  revert p. induction buttons as [|b buttons IH]; intros p Hp; [done|].
  cbn [foldl]. by apply IH, click_in_range.
Qed.

(** X23.  The page buttons never lead off the table: on data with at
    least one row, after any sequence of clicks on the four buttons from
    the first page, the page number lies between 1 and [totalPages] and
    the page shows at least one row. *)
Theorem page_buttons_stay_in_range {A}
    (buttons : list DataTableView.PageButton) (data : list A) :
  data ≠ [] →
  let page := foldl (λ p button, DataTableView.click button data p) 1 buttons in
  (1 ≤ page ≤ DataTableView.totalPages data)%nat
  ∧ DataTableView.currentRows page data ≠ [].
Proof.
  intros Hdata page.
  assert (Hrange : (1 ≤ page ≤ DataTableView.totalPages data)%nat).
  { apply clicks_in_range. rewrite totalPages_quotient.
    destruct data; [done|]. cbn [length].
    split; [done|]. apply Nat.div_le_lower_bound; lia. }
  split; [done|]. by apply page_in_range_rows.
Qed.

(** ** [FileUpload]: which files reach the workflow *)

Lemma append_cons (c : ascii) (a b : string) :
  String c a +:+ b = String c (a +:+ b).
Proof. reflexivity. Qed.

Lemma substring_0_length (s : string) : substring 0 (String.length s) s = s.
Proof. induction s as [|c s IH]; simpl; [done|by rewrite IH]. Qed.

Lemma substring_append (prefix suffix : string) :
  substring (String.length prefix) (String.length suffix) (prefix +:+ suffix)
  = suffix.
Proof.
  induction prefix as [|c prefix IH]; [apply substring_0_length|].
  rewrite append_cons. exact IH.
Qed.

Lemma length_append (a b : string) :
  String.length (a +:+ b) = String.length a + String.length b.
Proof.
  induction a as [|c a IH]; [done|]. rewrite append_cons. simpl.
  by rewrite IH.
Qed.

Lemma substring_split (s : string) (m : nat) :
  (m ≤ String.length s)%nat →
  s = substring 0 m s +:+ substring m (String.length s - m) s.
Proof.
  revert m. induction s as [|c s IH]; intros [|m] Hm; simpl in *;
    try done; try lia.
  - by rewrite substring_0_length.
  - rewrite append_cons. f_equal. apply IH. lia.
Qed.

Lemma endsWith_spec (suffix s : string) :
  FileUpload.endsWith suffix s = true ↔ ∃ prefix, s = prefix +:+ suffix.
Proof.
  unfold FileUpload.endsWith. split.
  - intros Hb. apply andb_prop in Hb as [Hle Heq].
    apply Nat.leb_le in Hle. apply String.eqb_eq in Heq.
    exists (substring 0 (String.length s - String.length suffix) s).
    set (k := String.length suffix) in *. rewrite <- Heq.
    etrans; [apply (substring_split s (String.length s - k)); lia|].
    do 2 f_equal. lia.
  - intros [prefix ->]. rewrite length_append.
    rewrite (proj2 (Nat.leb_le _ _)) by lia.
    replace (String.length prefix + String.length suffix
             - String.length suffix) with (String.length prefix) by lia.
    rewrite substring_append. apply String.eqb_refl.
Qed.

Lemma toLowerCase_append (a b : string) :
  FileUpload.toLowerCase (a +:+ b)
  = FileUpload.toLowerCase a +:+ FileUpload.toLowerCase b.
Proof.
  induction a as [|c a IH]; [done|]. rewrite append_cons. simpl.
  by rewrite IH, append_cons.
Qed.

Lemma toLowerCase_split (name prefix' ext' : string) :
  FileUpload.toLowerCase name = prefix' +:+ ext' →
  ∃ prefix ext, name = prefix +:+ ext ∧ FileUpload.toLowerCase ext = ext'.
Proof.
  revert name. induction prefix' as [|c prefix' IH]; intros name Hname.
  { by exists "", name. }
  destruct name as [|c0 name]; [done|]. rewrite append_cons in Hname.
  simpl in Hname. injection Hname as _ Hname.
  destruct (IH _ Hname) as (prefix & ext & -> & Hext).
  by exists (String c0 prefix), ext.
Qed.

(** X24.  The names [FileUpload] accepts are exactly those that end in
    [.csv], [.xlsx] or [.xls], in any mix of upper and lower case; what
    comes before the extension does not matter. *)
Theorem is_table_name_spec (name : string) :
  FileUpload.is_table_name name = true
  ↔ ∃ prefix ext, name = prefix +:+ ext
      ∧ FileUpload.toLowerCase ext ∈ [".csv"; ".xlsx"; ".xls"].
Proof.
  unfold FileUpload.is_table_name. split.
  - intros Hb.
    assert (∃ ext', ext' ∈ [".csv"; ".xlsx"; ".xls"]
              ∧ FileUpload.endsWith ext' (FileUpload.toLowerCase name) = true)
      as (ext' & Hin & Hends).
    { apply orb_prop in Hb as [Hb|Hb]; [apply orb_prop in Hb as [Hb|Hb]|];
        eexists; (split; [|exact Hb]); set_solver. }
    apply endsWith_spec in Hends as [prefix' Hname].
    apply toLowerCase_split in Hname as (prefix & ext & -> & <-).
    by exists prefix, ext.
  - intros (prefix & ext & -> & Hin). rewrite toLowerCase_append.
    assert (Hends : FileUpload.endsWith (FileUpload.toLowerCase ext)
                      (FileUpload.toLowerCase prefix
                       +:+ FileUpload.toLowerCase ext) = true)
      by (apply endsWith_spec; by eexists).
    revert Hends. generalize (FileUpload.toLowerCase prefix).
    revert Hin. generalize (FileUpload.toLowerCase ext).
    intros e Hin p Hends.
    apply elem_of_cons in Hin as [->|Hin]; [by rewrite Hends|].
    apply elem_of_cons in Hin as [->|Hin];
      [by rewrite Hends, orb_true_r|].
    apply list_elem_of_singleton in Hin as ->.
    by rewrite Hends, !orb_true_r.
Qed.

(** X25.  A file that is refused changes nothing: with a name of
    another kind, or a size above the limit, the component keeps its
    state, the parent is not called, whatever the reader would deliver,
    and the toast names the reason, the name being checked first. *)
Theorem processFile_refuses {P} (onFileUploaded : FileUpload.File → FileContent → P → P)
    (maxSizeMB : N) (file : FileUpload.File) (event : FileUpload.ReaderEvent)
    (st : FileUpload.State) (p : P) :
  FileUpload.is_table_name (FileUpload.name file) = false
  ∨ (maxSizeMB * 1024 * 1024 < FileUpload.size file)%N →
  FileUpload.processFile onFileUploaded maxSizeMB file event st p
  = {| FileUpload.state := st;
       FileUpload.toast :=
         Some (if FileUpload.is_table_name (FileUpload.name file)
               then FileUpload.File_too_large
               else FileUpload.Invalid_file_format);
       FileUpload.parent := p |}.
Proof.
  intros Hrefused. unfold FileUpload.processFile.
  destruct (FileUpload.is_table_name (FileUpload.name file)); simpl; [|done].
  destruct Hrefused as [?|Hsize]; [done|].
  by rewrite (proj2 (N.ltb_lt _ _) Hsize).
Qed.

(** X26.  A spreadsheet is accepted and then ignored: for a file named
    [.xlsx] or [.xls] within the size limit, the component shows the
    name as uploaded, without a toast, while the workflow state of
    [Index] stays exactly as it was; no dataset is loaded. *)
Theorem spreadsheet_loads_nothing (file : FileUpload.File)
    (st : FileUpload.State) (p : State) :
  FileUpload.is_table_name (FileUpload.name file) = true →
  FileUpload.is_csv_name (FileUpload.name file) = false →
  (FileUpload.size file ≤ FileUpload.maxSizeMB * 1024 * 1024)%N →
  FileUpload.processFile (λ _, handleFileUploaded) FileUpload.maxSizeMB
    file FileUpload.load st p
  = {| FileUpload.state :=
         {| FileUpload.isDragging := FileUpload.isDragging st;
            FileUpload.fileName := Some (FileUpload.name file);
            FileUpload.isLoading := false |};
       FileUpload.toast := None;
       FileUpload.parent := p |}.
Proof.
  intros Hname Hcsv Hsize. unfold FileUpload.processFile.
  rewrite Hname, Hcsv. simpl.
  by rewrite (proj2 (N.ltb_ge _ _) Hsize).
Qed.

(** X27.  An empty [.csv] file leaves the component loading: the reader
    delivers the empty string, which is falsy, so the parent is not
    called, no toast is shown and [isLoading] stays [true]. *)
Theorem empty_csv_keeps_loading {P}
    (onFileUploaded : FileUpload.File → FileContent → P → P)
    (file : FileUpload.File) (st : FileUpload.State) (p : P) :
  FileUpload.is_csv_name (FileUpload.name file) = true →
  FileUpload.text file = "" →
  (FileUpload.size file ≤ FileUpload.maxSizeMB * 1024 * 1024)%N →
  FileUpload.processFile onFileUploaded FileUpload.maxSizeMB
    file FileUpload.load st p
  = {| FileUpload.state :=
         {| FileUpload.isDragging := FileUpload.isDragging st;
            FileUpload.fileName := Some (FileUpload.name file);
            FileUpload.isLoading := true |};
       FileUpload.toast := None;
       FileUpload.parent := p |}.
Proof.
  intros Hcsv Htext Hsize. unfold FileUpload.processFile.
  assert (Hname : FileUpload.is_table_name (FileUpload.name file) = true).
  { unfold FileUpload.is_table_name. unfold FileUpload.is_csv_name in Hcsv.
    by rewrite Hcsv. }
  rewrite Hname, Hcsv, Htext. simpl.
  by rewrite (proj2 (N.ltb_ge _ _) Hsize).
Qed.

(** ** [ModelTraining]: a training run *)

Lemma Math_round_percent (k N : nat) :
  N = 50 ∨ N = 100 →
  ModelTraining.Math_round (ratio k N * 100) = k * 100 / N.
Proof.
  intros HN. unfold ModelTraining.Math_round, ratio.
  assert (HZ : (Qfloor (inject_Z (Z.of_nat k) / inject_Z (Z.of_nat N) * 100
                        + (1 # 2))
                = Z.of_nat k * 100 / Z.of_nat N)%Z).
  { destruct HN as [-> | ->].
    - change (Z.of_nat 50) with 50%Z.
      unfold Qfloor, Qplus, Qdiv, Qinv, inject_Z. cbn [Qnum Qden].
      unfold Qmult. cbn [Qnum Qden Pos.mul].
      Z.div_mod_to_equations. lia.
    - change (Z.of_nat 100) with 100%Z.
      unfold Qfloor, Qplus, Qdiv, Qinv, inject_Z. cbn [Qnum Qden].
      unfold Qmult. cbn [Qnum Qden Pos.mul].
      Z.div_mod_to_equations. lia. }
  rewrite HZ. change 100%Z with (Z.of_nat 100).
  by rewrite <- Nat2Z.inj_mul, <- Nat2Z.inj_div, Nat2Z.id.
Qed.

Context `{!JsMath}.

Lemma duration_cases {P} (props : ModelTraining.ModelTrainingProps P) :
  duration props = 50 ∨ duration props = 100.
Proof. unfold duration. simpl. case_bool_decide; auto. Qed.

(** A timer that has not run down: the firing adds a point and moves
    the progress bar. *)
Lemma tick_running {P} (props : ModelTraining.ModelTrainingProps P)
    (firing : ModelTraining.Firing) (k : nat) (st : ModelTraining.State)
    (parent : P) :
  S k < duration props →
  ModelTraining.tick props firing
    ({| ModelTraining.currentIteration := k;
        ModelTraining.iterations := duration props;
        ModelTraining.cleared := false |}, st, parent)
  = ({| ModelTraining.currentIteration := S k;
        ModelTraining.iterations := duration props;
        ModelTraining.cleared := false |},
     {| ModelTraining.isTraining := ModelTraining.isTraining st;
        ModelTraining.progress := S k * 100 / duration props;
        ModelTraining.trainingMetrics :=
          (ModelTraining.trainingMetrics st
           ++ [live_point props (length (ModelTraining.trainingMetrics st))
                 firing])%list;
        ModelTraining.confusionMatrix := ModelTraining.confusionMatrix st;
        ModelTraining.featureImportance := ModelTraining.featureImportance st;
        ModelTraining.trainTime := ModelTraining.trainTime st |},
     parent).
Proof.
  intros Hk. unfold ModelTraining.tick.
  cbn [ModelTraining.cleared ModelTraining.currentIteration
       ModelTraining.iterations].
  rewrite (proj2 (Nat.leb_gt _ _)) by lia.
  rewrite Math_round_percent by apply duration_cases.
  rewrite Nat.min_r; [done|].
  apply Nat.Div0.div_le_upper_bound. lia.
Qed.

Lemma ticks_running {P} (props : ModelTraining.ModelTrainingProps P)
    (firings : list ModelTraining.Firing) (st : ModelTraining.State)
    (parent : P) :
  length firings < duration props →
  ModelTraining.train props firings st parent
  = ({| ModelTraining.currentIteration := length firings;
        ModelTraining.iterations := duration props;
        ModelTraining.cleared := false |},
     {| ModelTraining.isTraining := true;
        ModelTraining.progress := length firings * 100 / duration props;
        ModelTraining.trainingMetrics := imap (live_point props) firings;
        ModelTraining.confusionMatrix := ModelTraining.confusionMatrix st;
        ModelTraining.featureImportance := ModelTraining.featureImportance st;
        ModelTraining.trainTime := ModelTraining.trainTime st |},
     parent).
Proof.
  unfold ModelTraining.train, ModelTraining.handleStartTraining.
  fold (duration props).
  induction firings as [|firing firings IH] using rev_ind; intros Hlen.
  { cbn [foldl length imap]. by rewrite Nat.Div0.div_0_l. }
  rewrite length_app in Hlen. cbn [length] in Hlen.
  rewrite foldl_app, IH by lia. cbn [foldl].
  rewrite tick_running by lia. cbn [ModelTraining.isTraining
    ModelTraining.trainingMetrics ModelTraining.confusionMatrix
    ModelTraining.featureImportance ModelTraining.trainTime].
  rewrite length_imap, length_app, imap_app. cbn [length imap].
  by rewrite Nat.add_1_r, Nat.add_0_r.
Qed.

(** A cleared timer does not fire. *)
Lemma ticks_cleared {P} (props : ModelTraining.ModelTrainingProps P)
    (firings : list ModelTraining.Firing) interval
    (st : ModelTraining.State) (parent : P) :
  ModelTraining.cleared interval = true →
  foldl (λ run firing, ModelTraining.tick props firing run)
    (interval, st, parent) firings
  = (interval, st, parent).
Proof.
  intros Hcleared. induction firings as [|firing firings IH]; [done|].
  cbn [foldl]. unfold ModelTraining.tick at 2. by rewrite Hcleared.
Qed.

(** X28.  While the timer of a training has fired fewer times than the
    training takes (100 times for XGBoost and random forest, 50 for the
    other kinds), the parent is not notified, the run is marked as
    training, the progress is the percentage of firings so far, and the
    live curve has one point for each firing, numbered from 1, each
    computed as the last point of a run of a single iteration. *)
Theorem training_in_progress {P} (props : ModelTraining.ModelTrainingProps P)
    (firings : list ModelTraining.Firing) (st : ModelTraining.State)
    (parent : P) :
  length firings < duration props →
  let '(interval, st', parent') :=
    ModelTraining.train props firings st parent in
  parent' = parent
  ∧ ModelTraining.cleared interval = false
  ∧ ModelTraining.isTraining st' = true
  ∧ ModelTraining.progress st' = length firings * 100 / duration props
  ∧ ModelTraining.trainingMetrics st' = imap (live_point props) firings.
Proof. intros Hlen. by rewrite ticks_running. Qed.

Lemma train_app {P} (props : ModelTraining.ModelTrainingProps P)
    (firings more : list ModelTraining.Firing) (st : ModelTraining.State)
    (parent : P) :
  ModelTraining.train props (firings ++ more) st parent
  = foldl (λ run firing, ModelTraining.tick props firing run)
      (ModelTraining.train props firings st parent) more.
Proof. unfold ModelTraining.train. simpl. by rewrite foldl_app. Qed.

(** X29.  When the timer has fired as often as the training takes, the
    parent is notified, once: more firings change nothing.  The run is
    then no longer marked as training, the progress is 100, the live
    curve has one point for each firing of the run, and the report the
    parent gets has one metrics point for each iteration, the seconds
    of that firing as train time and, for a regression, an empty
    confusion matrix. *)
Theorem training_completes {P} (props : ModelTraining.ModelTrainingProps P)
    (firings : list ModelTraining.Firing) (st : ModelTraining.State)
    (parent : P) :
  (duration props ≤ length firings)%nat →
  ∃ firing info,
    firings !! (duration props - 1) = Some firing
    ∧ ModelTraining.train props firings st parent
      = ({| ModelTraining.currentIteration := duration props;
            ModelTraining.iterations := duration props;
            ModelTraining.cleared := true |},
         {| ModelTraining.isTraining := false;
            ModelTraining.progress := 100;
            ModelTraining.trainingMetrics :=
              imap (live_point props) (take (duration props) firings);
            ModelTraining.confusionMatrix :=
              match ModelTraining.taskType props with
              | classification =>
                  ModelTraining.generateConfusionMatrix
                    (ModelTraining.shown_matrix_draws firing)
              | regression => []
              end;
            ModelTraining.featureImportance :=
              ModelTraining.shown_importance firing;
            ModelTraining.trainTime := Some (ModelTraining.seconds firing) |},
         ModelTraining.onTrainingComplete props info parent)
    ∧ length (info_metrics info) = duration props
    ∧ info_trainTime info = ModelTraining.seconds firing
    ∧ (ModelTraining.taskType props = regression →
       info_confusionMatrix info = []).
Proof.
  intros Hlen.
  assert (HN : 0 < duration props) by (destruct (duration_cases props); lia).
  destruct (lookup_lt_is_Some_2 firings (duration props - 1)) as [firing Hf];
    [lia|].
  exists firing. eexists. split; [done|].
  rewrite <- (take_drop_middle firings _ firing Hf) at 1.
  rewrite train_app, ticks_running by (rewrite length_take; lia).
  cbn [foldl]. unfold ModelTraining.tick at 2.
  cbn [ModelTraining.cleared ModelTraining.currentIteration
       ModelTraining.iterations ModelTraining.isTraining
       ModelTraining.trainingMetrics ModelTraining.confusionMatrix
       ModelTraining.featureImportance ModelTraining.trainTime].
  rewrite length_take, Nat.min_l by lia.
  replace (S (duration props - 1)) with (duration props) by lia.
  rewrite Nat.leb_refl, ticks_cleared by done.
  rewrite Math_round_percent by apply duration_cases.
  rewrite (Nat.mul_comm (duration props) 100), Nat.div_mul by lia.
  rewrite length_imap, length_take, Nat.min_l by lia.
  split_and!.
  - do 3 f_equal. rewrite ?(Nat.min_l (duration props - 1)) by lia.
    set (k := duration props - 1) in *.
    replace (duration props) with (S k) by lia.
    rewrite (take_S_r _ _ _ Hf), imap_app. cbn [imap].
    by rewrite length_take, Nat.min_l, Nat.add_0_r by lia.
  - cbn [info_metrics]. unfold ModelTraining.generateTrainingData.
    by rewrite length_fmap, length_seq.
  - done.
  - cbn [info_confusionMatrix]. by intros ->.
Qed.

(** X30.  The confusion matrix of a training is square with 2 to 4
    classes; its diagonal entries lie between 50 and 149 and all other
    entries between 0 and 19. *)
Theorem generateConfusionMatrix_shape (random : nat → num) :
  (∀ k, is_random (random k)) →
  let matrix := ModelTraining.generateConfusionMatrix random in
  (2 ≤ length matrix ≤ 4)%nat
  ∧ Forall (λ row, length row = length matrix) matrix
  ∧ ∀ i j row x, matrix !! i = Some row → row !! j = Some x →
      if decide (i = j) then (50 ≤ x ≤ 149)%nat else (x ≤ 19)%nat.
Proof.
  intros Hrandom matrix. subst matrix.
  unfold ModelTraining.generateConfusionMatrix.
  set (size := Math_floor (num_mul (random 0) (num_of_nat 3)) + 2).
  assert (Hsize : (2 ≤ size ≤ 4)%nat).
  { pose proof (random_floor (random 0) 3 (Hrandom 0)) as Hlt.
    subst size. specialize (Hlt ltac:(lia) ltac:(done)). lia. }
  rewrite length_fmap, length_seq. split; [done|]. split.
  - apply Forall_fmap, Forall_forall. intros i _. simpl.
    by rewrite length_fmap, length_seq.
  - intros i j row x. rewrite list_lookup_fmap.
    destruct (seq 0 size !! i) as [i'|] eqn:Hi; [|done].
    apply lookup_seq in Hi as [-> _]. simpl. intros [= <-].
    rewrite list_lookup_fmap.
    destruct (seq 0 size !! j) as [j'|] eqn:Hj; [|done].
    apply lookup_seq in Hj as [-> _]. simpl. intros [= <-].
    destruct (Nat.eqb_spec i j) as [->|Hne].
    + rewrite decide_True by done.
      pose proof (random_floor (random (S (j * size + j))) 100
                    (Hrandom _)) as Hlt.
      specialize (Hlt ltac:(lia) ltac:(done)). lia.
    + rewrite decide_False by done.
      pose proof (random_floor (random (S (i * size + j))) 20
                    (Hrandom _)) as Hlt.
      specialize (Hlt ltac:(lia) ltac:(done)). lia.
Qed.

End MoreTheorems.

(** * The program on the concrete inputs

    The theorems above at concrete inputs, and the inputs on which the
    statements that the program does not meet fail.  Closed facts are
    decided by evaluation. *)

Section Examples.
Import Utils ModelSelection Index.
#[local] Existing Instance Milli.runtime.

Ltac by_evaluation :=
  apply (bool_decide_unpack _); vm_compute; exact I.

Ltac refuted_by_evaluation H :=
  apply (bool_decide_pack _) in H; vm_compute in H; exact H.

(** The session reaches the evaluate step. *)
Example trained_step :
  currentStep configured = train
  ∧ currentStep trained = evaluate
  ∧ selectedFeatures trained = ["rooms"]
  ∧ selectedTarget trained = "price"
  ∧ taskType trained = Some classification.
Proof. by_evaluation. Qed.

(** The session [two_models] shows the train step: its task type is
    set. *)
Example two_models_session :
  taskType two_models = Some classification
  ∧ selectedFeatures two_models = ["rooms"]
  ∧ selectedTarget two_models = "price".
Proof. by_evaluation. Qed.

(** C4 on two states: without a selection the step stays [upload]; with
    a feature and a target it becomes [train]. *)
Example navigateToStep_both_branches :
  currentStep (navigateToStep train (handleFileUploaded (Text houses) initial))
  = upload
  ∧ currentStep
      (navigateToStep train
         (setTarget "price"
            (toggleFeature "rooms"
               (handleFileUploaded (Text houses) initial))))
    = train.
Proof. by_evaluation. Qed.


(** C2.  Loading a file into a session with a trained model keeps the
    trained model and its results. *)
Lemma loadDataset_keeps_results :
  ¬ loadDataset_clears_all houses another_file.
Proof.
  intros (_ & _ & _ & _ & Htrained & _).
  rewrite handleFileUploaded_trainedModel in Htrained.
  unfold another_file in Htrained.
  rewrite uploadDifferentFile_trainedModel in Htrained.
  rewrite navigateToStep_trainedModel in Htrained.
  destruct (completeTraining_trainedModel decision_tree some_info configured)
    as [tm Htm].
  change (trainedModel trained = Some tm) in Htm. congruence.
Qed.



(** C6 on the [price] column of [houses]. *)
Lemma setTarget_toggle_round_trip_witness :
  let st := handleFileUploaded (Text houses) initial in
  selectedTarget st = ""
  ∧ ("price" ≠ "" → selectedTarget (setTarget "price" st) = "price")
  ∧ selectedTarget (setTarget "price" (setTarget "price" st)) = ""
  ∧ ∀ st' : State, selectedTarget (setTarget (selectedTarget st') st') = "".
Proof.
  split; [reflexivity|].
  exact (setTarget_toggle_round_trip "price"
           (handleFileUploaded (Text houses) initial) eq_refl).
Defined.

(** C8.  A column named [id] takes the place of the row index. *)
Lemma parseCSV_id_column_overwrites :
  ¬ id_is_row_index with_id_column.
Proof.
  intros Hid.
  assert (Hline : csv_data_lines with_id_column !! 0 = Some "7,1")
    by by vm_compute.
  specialize (Hid 0 _ (parseCSV_lookup _ 0 _ Hline)).
  refuted_by_evaluation Hid.
Qed.

(** The value of the [id] column, not the index 0. *)
Example parseCSV_id_column :
  parseCSV with_id_column !! 0 ≫= (.!! "id")
  = Some (VNum (num_of_nat 7)).
Proof. by_evaluation. Qed.

(** C8, as amended, on the last line of [houses]. *)
Lemma parseCSV_rows_witness :
  csv_data_lines houses !! 2 = Some "2,45"
  ∧ ∃ row,
      parseCSV houses !! 2 = Some row
      ∧ dom row
        = {[ "id" ]}
          ∪ list_to_set
              (filter (λ h, h ≠ "__proto__")
                 (take (length (line_values "2,45")) (csv_headers houses)))
      ∧ ("id" ∉ take (length (line_values "2,45")) (csv_headers houses) →
           row !! "id" = Some (VNum (num_of_nat 2)))
      ∧ (∀ i h v,
           h ≠ "__proto__" →
           csv_headers houses !! i = Some h →
           line_values "2,45" !! i = Some v →
           (∀ j, i < j → j < length (line_values "2,45") →
              csv_headers houses !! j ≠ Some h) →
           row !! h = Some (coerce v)).
Proof.
  assert (Hline : csv_data_lines houses !! 2 = Some "2,45")
    by (vm_compute; reflexivity).
  split; [exact Hline|].
  exact (parseCSV_rows houses 2 "2,45" Hline).
Defined.

(** The last line of [houses] has two values for three columns. *)
Example parseCSV_short_row :
  map_to_list <$> parseCSV houses !! 2
  = Some [("id", VNum (num_of_nat 2)); ("area", VNum (num_of_nat 45));
          ("rooms", VNum (num_of_nat 2))].
Proof. by_evaluation. Qed.

(** C10.  With two columns of one name the later cell is the one
    stored. *)
Lemma empty_cell_overwritten :
  ¬ empty_cells_are_zero same_name_twice.
Proof.
  intros Hzero.
  assert (Hline : csv_data_lines same_name_twice !! 0 = Some ",5")
    by by vm_compute.
  assert (Hh : csv_headers same_name_twice !! 0 = Some "a")
    by by vm_compute.
  assert (Hv : line_values ",5" !! 0 = Some "") by by vm_compute.
  specialize (Hzero 0 ",5" 0 "a" _ Hline Hh Hv (parseCSV_lookup _ 0 _ Hline)).
  refuted_by_evaluation Hzero.
Qed.

(** The cell of the second column [a]. *)
Example empty_cell_overwritten_by :
  parseCSV same_name_twice !! 0 ≫= (.!! "a")
  = Some (VNum (num_of_nat 5)).
Proof. by_evaluation. Qed.

(** C10, as amended, on the empty [area] cell of [houses]. *)
Lemma empty_cell_is_zero_witness :
  "area" ≠ "__proto__"
  ∧ csv_data_lines houses !! 1 = Some "4,,300"
  ∧ csv_headers houses !! 1 = Some "area"
  ∧ line_values "4,,300" !! 1 = Some ""
  ∧ ((∀ j, 1 < j → j < length (line_values "4,,300") →
        csv_headers houses !! j ≠ Some "area") →
     ∃ row, parseCSV houses !! 1 = Some row
            ∧ row !! "area" = Some (VNum (num_of_nat 0)))
  ∧ ((∀ j, 1 < j → csv_headers houses !! j ≠ Some "area") →
     ∃ rows row,
       PredictData.testData
         (PredictData.handleFileUploaded (Text houses) idle) = Some rows
       ∧ rows !! 1 = Some row
       ∧ row !! "area" = Some (VNum (num_of_nat 0))).
Proof.
  assert (Hline : csv_data_lines houses !! 1 = Some "4,,300")
    by (vm_compute; reflexivity).
  assert (Hh : csv_headers houses !! 1 = Some "area")
    by (vm_compute; reflexivity).
  assert (Hv : line_values "4,,300" !! 1 = Some "")
    by (vm_compute; reflexivity).
  assert (Hname : "area" ≠ "__proto__") by discriminate.
  split; [exact Hname|].
  split; [exact Hline|]. split; [exact Hh|]. split; [exact Hv|].
  exact (empty_cell_is_zero houses 1 1 "4,,300" "area" idle
           Hname Hline Hh Hv).
Defined.

(** The empty [area] cell of the second line. *)
Example empty_cell_stored :
  parseCSV houses !! 1 ≫= (.!! "area") = Some (VNum (num_of_nat 0)).
Proof. by_evaluation. Qed.

(** The uploaded [prediction] cell, the predicted one, and the sizes of
    the two rows. *)
Example prediction_column :
  (PredictData.testData uploaded ≫= (.!! 0)) ≫= (.!! "prediction")
  = Some (VNum (num_of_nat 7))
  ∧ (PredictData.predictedResults predicted ≫= (.!! 0))
      ≫= (.!! "prediction")
    = Some (VStr "Class B")
  ∧ size <$> (PredictData.predictedResults predicted ≫= (.!! 0))
    = size <$> (PredictData.testData uploaded ≫= (.!! 0)).
Proof. by_evaluation. Qed.

(** C9.  The [prediction] column of the test file is overwritten by the
    predicted label, and the predicted row has no field more than the
    test row. *)
Lemma prediction_column_overwritten :
  ¬ predictions_retain_and_add_one predict_props (λ _, Number "0.5") uploaded.
Proof.
  intros Hclaim. destruct prediction_column as (Hbefore & Hafter & Hsizes).
  fold predicted in Hclaim.
  destruct (PredictData.testData uploaded ≫= (.!! 0)) as [row|] eqn:Hrow;
    [|discriminate Hbefore].
  destruct (PredictData.predictedResults predicted ≫= (.!! 0))
    as [row'|] eqn:Hrow'; [|discriminate Hafter].
  destruct (Hclaim 0 row row' Hrow Hrow') as [_ Hmore].
  injection Hsizes as Hsizes. lia.
Qed.

(** C9, as amended, on [houses] as test data. *)
Lemma handlePredict_rows_witness :
  let random := λ _ : nat, Number "0.5" in
  (∀ i, is_random (random i))
  ∧ PredictData.testData loaded = Some (parseCSV houses)
  ∧ ∃ results,
      PredictData.predictedResults
        (PredictData.handlePredict predict_props random loaded)
      = Some results
      ∧ length results = length (parseCSV houses)
      ∧ ∀ i row, parseCSV houses !! i = Some row →
          ∃ row', results !! i = Some row'
                  ∧ prediction_added classification row row'.
Proof.
  assert (Hrandom : ∀ i : nat, is_random (Number "0.5")).
  { intros _. vm_compute. split; [discriminate|reflexivity]. }
  split; [exact Hrandom|]. split; [reflexivity|].
  exact (handlePredict_rows predict_props (λ _, Number "0.5") loaded
           (parseCSV houses) Hrandom eq_refl).
Defined.

End Examples.

(** * The further properties on concrete inputs *)

Section MoreExamples.
Import Utils ModelSelection Index IndexView.
#[local] Existing Instance Milli.runtime.
#[local] Existing Instance Milli_math.

Ltac by_evaluation :=
  apply (bool_decide_unpack _); vm_compute; exact I.

(** The three sessions are sessions. *)
Lemma selecting_reachable : reachable selecting.
Proof.
  apply reachable_run; [apply reachable_initial|]. vm_compute. reflexivity.
Qed.

Lemma at_train_reachable : reachable at_train.
Proof.
  apply reachable_run; [apply selecting_reachable|]. vm_compute. reflexivity.
Qed.

Lemma after_training_reachable : reachable after_training.
Proof.
  apply reachable_completion;
    [apply at_train_reachable| |apply at_train_reachable].
  vm_compute. reflexivity.
Qed.

Example sessions_steps :
  currentStep selecting = select
  ∧ currentStep at_train = train
  ∧ selectedModels at_train = [decision_tree]
  ∧ currentStep after_training = evaluate.
Proof. by_evaluation. Qed.

(** Nothing is stored under a header named [__proto__], by either
    parser: the row of [parseCSV] has the two fields [id] and [x]. *)
Example proto_column_not_stored :
  parseCSV with_proto_column !! 0 ≫= (.!! "__proto__") = None
  ∧ parseCSV with_proto_column !! 0 ≫= (.!! "x")
    = Some (VNum (num_of_nat 2))
  ∧ size <$> parseCSV with_proto_column !! 0 = Some 2
  ∧ (PredictData.testData
       (PredictData.handleFileUploaded (Text with_proto_column) idle)
       ≫= (.!! 0)) ≫= (.!! "__proto__") = None.
Proof. by_evaluation. Qed.

(** Of two columns of one name that both have a value the later one is
    stored. *)
Example same_name_later_value :
  parseCSV same_name_values !! 0 ≫= (.!! "a") = Some (VNum (num_of_nat 2))
  ∧ size <$> parseCSV same_name_values !! 0 = Some 2.
Proof. by_evaluation. Qed.

(** Reading a name that no row owns: a member of [Object.prototype], or
    [undefined]. *)
Example inherited_members :
  (λ row, get row "toString") <$> parseCSV houses
  = replicate 3 (VInherited "toString")
  ∧ (λ row, get row "price") <$> parseCSV houses
    = [VNum (num_of_nat 210); VNum (num_of_nat 300); VUndef].
Proof. by_evaluation. Qed.

Lemma parseCSV_blank_line_witness :
  csv_data_lines with_blank_line !! 1 = Some ""
  ∧ line_values "" = [""]
  ∧ ∃ first, head (csv_headers with_blank_line) = Some first
      ∧ parseCSV with_blank_line !! 1
        = Some (if decide (first = "__proto__")
                then {[ "id" := VNum (num_of_nat 1) ]}
                else <[ first := VNum (num_of_nat 0) ]>
                       {[ "id" := VNum (num_of_nat 1) ]}).
Proof.
  assert (Hline : csv_data_lines with_blank_line !! 1 = Some "")
    by (vm_compute; reflexivity).
  assert (Hvalues : line_values "" = [""]) by reflexivity.
  split; [exact Hline|]. split; [exact Hvalues|].
  exact (parseCSV_blank_line with_blank_line 1 "" Hline Hvalues).
Defined.

Lemma determineTaskType_small_data_witness :
  parseCSV houses ≠ [] ∧ "price" ≠ ""
  ∧ (length (parseCSV houses) ≤ 10)%nat
  ∧ determineTaskType "price" (parseCSV houses) = Some classification.
Proof.
  assert (Hdata : parseCSV houses ≠ []) by by_evaluation.
  assert (Hname : "price" ≠ "") by discriminate.
  assert (Hlen : (length (parseCSV houses) ≤ 10)%nat) by by_evaluation.
  split; [exact Hdata|]. split; [exact Hname|]. split; [exact Hlen|].
  exact (determineTaskType_small_data "price" (parseCSV houses)
           Hdata Hname Hlen).
Defined.

Lemma determineTaskType_row_order_witness :
  parseCSV houses ≡ₚ reverse (parseCSV houses)
  ∧ determineTaskType "price" (parseCSV houses)
    = determineTaskType "price" (reverse (parseCSV houses)).
Proof.
  assert (Hperm : parseCSV houses ≡ₚ reverse (parseCSV houses))
    by (symmetry; apply reverse_Permutation).
  split; [exact Hperm|].
  exact (determineTaskType_row_order "price" _ _ Hperm).
Defined.

Lemma determineTaskType_other_columns_witness :
  (λ row, get row "price") <$> parseCSV houses
  = (λ row, get row "price") <$> parseCSV other_features
  ∧ determineTaskType "price" (parseCSV houses)
    = determineTaskType "price" (parseCSV other_features).
Proof.
  assert (Hcol : (λ row, get row "price") <$> parseCSV houses
                 = (λ row, get row "price") <$> parseCSV other_features)
    by by_evaluation.
  split; [exact Hcol|].
  exact (determineTaskType_other_columns "price" _ _ Hcol).
Defined.

Lemma PredictData_missing_value_witness :
  "price" ≠ "__proto__"
  ∧ csv_data_lines houses !! 2 = Some "2,45"
  ∧ csv_headers houses !! 2 = Some "price"
  ∧ line_values "2,45" !! 2 = None
  ∧ (∀ j, 2 < j → csv_headers houses !! j ≠ Some "price")
  ∧ ∃ rows row,
      PredictData.testData
        (PredictData.handleFileUploaded (Text houses) idle) = Some rows
      ∧ rows !! 2 = Some row
      ∧ row !! "price" = Some VUndef.
Proof.
  assert (Hline : csv_data_lines houses !! 2 = Some "2,45")
    by (vm_compute; reflexivity).
  assert (Hheaders : csv_headers houses = ["rooms"; "area"; "price"])
    by (vm_compute; reflexivity).
  assert (Hh : csv_headers houses !! 2 = Some "price")
    by (by rewrite Hheaders).
  assert (Hnone : line_values "2,45" !! 2 = None)
    by (vm_compute; reflexivity).
  assert (Hlast : ∀ j, 2 < j → csv_headers houses !! j ≠ Some "price").
  { intros j Hj. rewrite Hheaders.
    destruct j as [|[|[|j]]]; [lia..|]. discriminate. }
  assert (Hname : "price" ≠ "__proto__") by discriminate.
  split; [exact Hname|].
  split; [exact Hline|]. split; [exact Hh|]. split; [exact Hnone|].
  split; [exact Hlast|].
  exact (PredictData_missing_value houses 2 2 "2,45" "price" idle
           Hname Hline Hh Hnone Hlast).
Defined.

Lemma toggleModel_flips_witness :
  NoDup (selectedModels at_train)
  ∧ (let st' := toggleModel classification random_forest at_train in
     NoDup (selectedModels st')
     ∧ (random_forest ∈ selectedModels st'
        ↔ random_forest ∉ selectedModels at_train)
     ∧ ∀ m', m' ≠ random_forest →
         (m' ∈ selectedModels st' ↔ m' ∈ selectedModels at_train)).
Proof.
  assert (Hnd : NoDup (selectedModels at_train)) by by_evaluation.
  split; [exact Hnd|].
  exact (toggleModel_flips classification random_forest at_train Hnd).
Defined.

Lemma toggleModel_twice_witness :
  (random_forest ∉ selectedModels at_train)
  ∧ (let st' := toggleModel classification random_forest
                  (toggleModel classification random_forest at_train) in
     selectedModels st' = selectedModels at_train
     ∧ ∀ m', multiModelParams st' !! m'
             = default_params (selectedModels at_train) m').
Proof.
  assert (Hout : random_forest ∉ selectedModels at_train) by by_evaluation.
  split; [exact Hout|].
  exact (toggleModel_twice classification random_forest at_train Hout).
Defined.

Lemma toggleFeature_twice_witness :
  "area" ≠ selectedTarget selecting
  ∧ ("area" ∉ selectedFeatures selecting)
  ∧ toggleFeature "area" (toggleFeature "area" selecting) = selecting.
Proof.
  assert (Htarget : "area" ≠ selectedTarget selecting) by by_evaluation.
  assert (Hout : "area" ∉ selectedFeatures selecting) by by_evaluation.
  split; [exact Htarget|]. split; [exact Hout|].
  exact (toggleFeature_twice "area" selecting Htarget Hout).
Defined.

Lemma stepper_never_enters_evaluate_witness :
  reachable after_training ∧ (3 ≤ 3)%nat
  ∧ stepperClick 3 after_training = after_training.
Proof.
  assert (Hi : (3 ≤ 3)%nat) by lia.
  split; [exact after_training_reachable|]. split; [exact Hi|].
  exact (stepper_never_enters_evaluate after_training 3
           after_training_reachable Hi).
Defined.

Lemma reachable_selection_witness :
  reachable selecting
  ∧ NoDup (selectedFeatures selecting) ∧ selection_ok selecting.
Proof.
  split; [exact selecting_reachable|].
  exact (reachable_selection selecting selecting_reachable).
Defined.

Lemma reachable_selection_columns_witness :
  reachable selecting ∧ is_Some (data selecting)
  ∧ (∀ f, f ∈ selectedFeatures selecting → f ∈ columns selecting)
  ∧ (selectedTarget selecting ≠ "" →
     selectedTarget selecting ∈ columns selecting).
Proof.
  assert (Hdata : is_Some (data selecting)) by by_evaluation.
  split; [exact selecting_reachable|]. split; [exact Hdata|].
  exact (reachable_selection_columns selecting selecting_reachable Hdata).
Defined.

Lemma reachable_taskType_witness :
  reachable selecting
  ∧ data selecting = Some (parseCSV houses)
  ∧ selectedTarget selecting ≠ ""
  ∧ taskType selecting
    = determineTaskType (selectedTarget selecting) (parseCSV houses).
Proof.
  assert (Hdata : data selecting = Some (parseCSV houses)) by by_evaluation.
  assert (Htarget : selectedTarget selecting ≠ "") by by_evaluation.
  split; [exact selecting_reachable|]. split; [exact Hdata|].
  split; [exact Htarget|].
  exact (reachable_taskType selecting (parseCSV houses) selecting_reachable
           Hdata Htarget).
Defined.

Lemma next_enters_train_witness :
  reachable selecting
  ∧ currentStep selecting = select
  ∧ enabled Next selecting = true
  ∧ currentStep (handle Next selecting) = train
  ∧ is_Some (taskType (handle Next selecting))
  ∧ keeps_selection selecting (handle Next selecting).
Proof.
  assert (Hstep : currentStep selecting = select) by by_evaluation.
  assert (Hen : enabled Next selecting = true) by (vm_compute; reflexivity).
  split; [exact selecting_reachable|]. split; [exact Hstep|].
  split; [exact Hen|].
  exact (next_enters_train selecting selecting_reachable Hstep Hen).
Defined.

Lemma select_step_has_data_witness :
  reachable selecting ∧ currentStep selecting = select
  ∧ is_Some (data selecting).
Proof.
  assert (Hstep : currentStep selecting = select) by by_evaluation.
  split; [exact selecting_reachable|]. split; [exact Hstep|].
  exact (select_step_has_data selecting selecting_reachable Hstep).
Defined.

Lemma reachable_results_witness :
  reachable after_training
  ∧ dom (default ∅ (trainedModel after_training))
    = dom (modelResults after_training)
  ∧ (is_Some (trainedModel after_training)
     ↔ modelResults after_training ≠ ∅)
  ∧ (currentStep after_training = evaluate
     ∨ currentStep after_training = predict →
     is_Some (trainedModel after_training)).
Proof.
  split; [exact after_training_reachable|].
  exact (reachable_results after_training after_training_reachable).
Defined.

Lemma reachable_default_params_witness :
  reachable after_training
  ∧ NoDup (selectedModels after_training)
  ∧ (∀ m, multiModelParams after_training !! m
          = default_params (selectedModels after_training) m)
  ∧ ∀ m tm, default ∅ (trainedModel after_training) !! m = Some tm →
      tm = default_entry m.
Proof.
  split; [exact after_training_reachable|].
  exact (reachable_default_params after_training after_training_reachable).
Defined.

Lemma currentRows_lookup_witness :
  (1 ≤ 2)%nat
  ∧ DataTableView.currentRows 2 (seq 0 25) !! 3
    = if decide (3 < 10)%nat then seq 0 25 !! ((2 - 1) * 10 + 3) else None.
Proof.
  assert (Hp : (1 ≤ 2)%nat) by lia.
  split; [exact Hp|].
  exact (currentRows_lookup 2 3 (seq 0 25) Hp).
Defined.

(** The second page of 25 rows, and the page before the first. *)
Example second_page :
  DataTableView.currentRows 2 (seq 0 25) = seq 10 10
  ∧ DataTableView.currentRows 0 (seq 0 25) = [].
Proof. by_evaluation. Qed.

Lemma page_buttons_stay_in_range_witness :
  let buttons :=
    [ DataTableView.next_page; DataTableView.next_page;
      DataTableView.next_page; DataTableView.previous_page;
      DataTableView.last_page; DataTableView.first_page ] in
  seq 0 25 ≠ []
  ∧ (let page :=
       foldl (λ p button, DataTableView.click button (seq 0 25) p) 1 buttons in
     (1 ≤ page ≤ DataTableView.totalPages (seq 0 25))%nat
     ∧ DataTableView.currentRows page (seq 0 25) ≠ []).
Proof.
  assert (Hdata : seq 0 25 ≠ []) by discriminate.
  split; [exact Hdata|].
  exact (page_buttons_stay_in_range _ (seq 0 25) Hdata).
Defined.

Lemma processFile_refuses_witness :
  (FileUpload.is_table_name (FileUpload.name notes_txt) = false
   ∨ (FileUpload.maxSizeMB * 1024 * 1024 < FileUpload.size notes_txt)%N)
  ∧ FileUpload.processFile (λ _, handleFileUploaded) FileUpload.maxSizeMB
      notes_txt FileUpload.load FileUpload.initial initial
    = {| FileUpload.state := FileUpload.initial;
         FileUpload.toast :=
           Some (if FileUpload.is_table_name (FileUpload.name notes_txt)
                 then FileUpload.File_too_large
                 else FileUpload.Invalid_file_format);
         FileUpload.parent := initial |}.
Proof.
  assert (Hrefused :
            FileUpload.is_table_name (FileUpload.name notes_txt) = false
            ∨ (FileUpload.maxSizeMB * 1024 * 1024
               < FileUpload.size notes_txt)%N)
    by (left; vm_compute; reflexivity).
  split; [exact Hrefused|].
  exact (processFile_refuses (λ _, handleFileUploaded) FileUpload.maxSizeMB
           notes_txt FileUpload.load FileUpload.initial initial Hrefused).
Defined.

Lemma spreadsheet_loads_nothing_witness :
  FileUpload.is_table_name (FileUpload.name houses_xlsx) = true
  ∧ FileUpload.is_csv_name (FileUpload.name houses_xlsx) = false
  ∧ (FileUpload.size houses_xlsx ≤ FileUpload.maxSizeMB * 1024 * 1024)%N
  ∧ FileUpload.processFile (λ _, handleFileUploaded) FileUpload.maxSizeMB
      houses_xlsx FileUpload.load FileUpload.initial selecting
    = {| FileUpload.state :=
           {| FileUpload.isDragging :=
                FileUpload.isDragging FileUpload.initial;
              FileUpload.fileName := Some (FileUpload.name houses_xlsx);
              FileUpload.isLoading := false |};
         FileUpload.toast := None;
         FileUpload.parent := selecting |}.
Proof.
  assert (Hname : FileUpload.is_table_name (FileUpload.name houses_xlsx)
                  = true) by (vm_compute; reflexivity).
  assert (Hcsv : FileUpload.is_csv_name (FileUpload.name houses_xlsx)
                 = false) by (vm_compute; reflexivity).
  assert (Hsize : (FileUpload.size houses_xlsx
                   ≤ FileUpload.maxSizeMB * 1024 * 1024)%N)
    by (vm_compute; discriminate).
  split; [exact Hname|]. split; [exact Hcsv|]. split; [exact Hsize|].
  exact (spreadsheet_loads_nothing houses_xlsx FileUpload.initial selecting
           Hname Hcsv Hsize).
Defined.

Lemma empty_csv_keeps_loading_witness :
  FileUpload.is_csv_name (FileUpload.name empty_csv) = true
  ∧ FileUpload.text empty_csv = ""
  ∧ (FileUpload.size empty_csv ≤ FileUpload.maxSizeMB * 1024 * 1024)%N
  ∧ FileUpload.processFile (λ _, handleFileUploaded) FileUpload.maxSizeMB
      empty_csv FileUpload.load FileUpload.initial initial
    = {| FileUpload.state :=
           {| FileUpload.isDragging :=
                FileUpload.isDragging FileUpload.initial;
              FileUpload.fileName := Some (FileUpload.name empty_csv);
              FileUpload.isLoading := true |};
         FileUpload.toast := None;
         FileUpload.parent := initial |}.
Proof.
  assert (Hcsv : FileUpload.is_csv_name (FileUpload.name empty_csv) = true)
    by (vm_compute; reflexivity).
  assert (Htext : FileUpload.text empty_csv = "") by reflexivity.
  assert (Hsize : (FileUpload.size empty_csv
                   ≤ FileUpload.maxSizeMB * 1024 * 1024)%N)
    by (vm_compute; discriminate).
  split; [exact Hcsv|]. split; [exact Htext|]. split; [exact Hsize|].
  exact (empty_csv_keeps_loading (λ _, handleFileUploaded) empty_csv
           FileUpload.initial initial Hcsv Htext Hsize).
Defined.

Lemma training_in_progress_witness :
  length (replicate 20 a_firing) < duration tree_props
  ∧ (let '(interval, st', parent') :=
       ModelTraining.train tree_props (replicate 20 a_firing)
         ModelTraining.initial [] in
     parent' = []
     ∧ ModelTraining.cleared interval = false
     ∧ ModelTraining.isTraining st' = true
     ∧ ModelTraining.progress st'
       = length (replicate 20 a_firing) * 100 / duration tree_props
     ∧ ModelTraining.trainingMetrics st'
       = imap (live_point tree_props) (replicate 20 a_firing)).
Proof.
  assert (Hlen : length (replicate 20 a_firing) < duration tree_props)
    by (vm_compute; lia).
  split; [exact Hlen|].
  apply (training_in_progress tree_props (replicate 20 a_firing)).
  exact Hlen.
Defined.

Lemma training_completes_witness :
  (duration tree_props ≤ length (replicate 60 a_firing))%nat
  ∧ ∃ firing info,
      replicate 60 a_firing !! (duration tree_props - 1) = Some firing
      ∧ ModelTraining.train tree_props (replicate 60 a_firing)
          ModelTraining.initial []
        = ({| ModelTraining.currentIteration := duration tree_props;
              ModelTraining.iterations := duration tree_props;
              ModelTraining.cleared := true |},
           {| ModelTraining.isTraining := false;
              ModelTraining.progress := 100;
              ModelTraining.trainingMetrics :=
                imap (live_point tree_props)
                  (take (duration tree_props) (replicate 60 a_firing));
              ModelTraining.confusionMatrix :=
                match ModelTraining.taskType tree_props with
                | classification =>
                    ModelTraining.generateConfusionMatrix
                      (ModelTraining.shown_matrix_draws firing)
                | regression => []
                end;
              ModelTraining.featureImportance :=
                ModelTraining.shown_importance firing;
              ModelTraining.trainTime :=
                Some (ModelTraining.seconds firing) |},
           ModelTraining.onTrainingComplete tree_props info [])
      ∧ length (info_metrics info) = duration tree_props
      ∧ info_trainTime info = ModelTraining.seconds firing
      ∧ (ModelTraining.taskType tree_props = regression →
         info_confusionMatrix info = []).
Proof.
  assert (Hlen : (duration tree_props ≤ length (replicate 60 a_firing))%nat)
    by (vm_compute; lia).
  split; [exact Hlen|].
  exact (training_completes tree_props (replicate 60 a_firing)
           ModelTraining.initial [] Hlen).
Defined.

Lemma generateConfusionMatrix_shape_witness :
  (∀ k : nat, is_random (Number "0.5"))
  ∧ (let matrix := ModelTraining.generateConfusionMatrix (λ _, Number "0.5") in
     (2 ≤ length matrix ≤ 4)%nat
     ∧ Forall (λ row, length row = length matrix) matrix
     ∧ ∀ i j row x, matrix !! i = Some row → row !! j = Some x →
         if decide (i = j) then (50 ≤ x ≤ 149)%nat else (x ≤ 19)%nat).
Proof.
  assert (Hrandom : ∀ k : nat, is_random (Number "0.5")).
  { intros _. vm_compute. split; [discriminate|reflexivity]. }
  split; [exact Hrandom|].
  exact (generateConfusionMatrix_shape (λ _, Number "0.5") Hrandom).
Defined.

(** The matrix for draws of 0.5: three classes. *)
Example confusion_matrix_at_half :
  ModelTraining.generateConfusionMatrix (λ _, Number "0.5")
  = [[100; 10; 10]; [10; 100; 10]; [10; 10; 100]].
Proof. vm_compute. reflexivity. Qed.

End MoreExamples.
